(** * telegram_crypto: the message-ingestion pipeline

    A shallow embedding of the three entry points of the repository

      - [api.py]       the on-demand HTTP service   (module [Api]),
      - [api_time.py]  the scheduled daily service  (module [ApiTime]),
      - [cmd.py]       the command line tool        (module [Cmd]),

    together with the parts of the Python runtime they rely on
    ([str] methods, [datetime], [json.dumps]).  Everything the outside
    world decides (Telegram, S3, the file system, the clock) is an oracle
    of the record [Env]; every call to the outside is recorded in a trace,
    and the oracles answer as a function of the trace so far. *)

From Stdlib Require Import ZArith List String Ascii Bool Lia.
From Stdlib Require Import Numbers.DecimalString.
Import ListNotations.

Local Open Scope string_scope.
Local Open Scope Z_scope.

(* ===================================================================== *)
(** * Python built-ins *)
(* ===================================================================== *)

(** A Python [str] is modelled by a Rocq [string]; a character stands for
    the code point of the same number (0 to 255). *)
Module Py.

(** [str(n)] for an [int]. *)
Definition str_of_int (n : Z) : string :=
  NilZero.string_of_int (Z.to_int n).

Fixpoint repeat_char (c : ascii) (n : nat) : string :=
  match n with
  | O => EmptyString
  | S k => String c (repeat_char c k)
  end.

(** [s.rjust(width, "0")], the padding of ["%02d"] and ["%04d"] on a
    number that is not negative. *)
Definition zfill (width : nat) (s : string) : string :=
  repeat_char "0" (width - String.length s) ++ s.

Definition pad (width : nat) (n : Z) : string :=
  zfill width (str_of_int n).

(** [c.isspace()] on the code points below 256. *)
Definition isspace (c : ascii) : bool :=
  let n := Z.of_nat (nat_of_ascii c) in
  ((9 <=? n) && (n <=? 13)) || ((28 <=? n) && (n <=? 32))
  || (n =? 133) || (n =? 160).

Fixpoint lstrip (s : string) : string :=
  match s with
  | EmptyString => EmptyString
  | String c rest => if isspace c then lstrip rest else s
  end.

(** [rstrip] drops the longest suffix of white space: a character is
    kept when it is not white space or when something after it is kept. *)
Fixpoint rstrip (s : string) : string :=
  match s with
  | EmptyString => EmptyString
  | String c rest =>
      match rstrip rest with
      | EmptyString => if isspace c then EmptyString else String c EmptyString
      | kept => String c kept
      end
  end.

(** [s.strip()] *)
Definition strip (s : string) : string := rstrip (lstrip s).

(** Truth value of a [str]: the empty string is false. *)
Definition str_truthy (s : string) : bool :=
  match s with EmptyString => false | _ => true end.

(** Truth value of an optional [str] ([None] is false). *)
Definition opt_str_truthy (s : option string) : bool :=
  match s with None => false | Some t => str_truthy t end.

(** How an f-string renders a value that is a [str] or [None]. *)
Definition fmt_opt (s : option string) : string :=
  match s with None => "None" | Some t => t end.

Definition isdigit (c : ascii) : bool :=
  let n := nat_of_ascii c in (48 <=? n)%nat && (n <=? 57)%nat.

Definition digit_val (c : ascii) : Z := Z.of_nat (nat_of_ascii c) - 48.

(** The double quote and the backslash, which a literal cannot hold. *)
Definition dquote : ascii := ascii_of_nat 34.
Definition backslash : ascii := ascii_of_nat 92.
Definition newline : ascii := ascii_of_nat 10.

End Py.

(* ===================================================================== *)
(** * The [datetime] module *)
(* ===================================================================== *)

(** [date] and aware [datetime] objects with the proleptic Gregorian
    arithmetic of CPython's [datetime.py]. *)
Module Datetime.

Record date := mkdate { year : Z; month : Z; day : Z }.

(** An aware [datetime]: the wall-clock fields and the offset of its
    [tzinfo] from UTC, in microseconds. *)
Record datetime := mkdt {
  dt_date : date;
  hour : Z; minute : Z; second : Z; microsecond : Z;
  utcoffset : Z
}.

Definition MINYEAR : Z := 1.
Definition MAXYEAR : Z := 9999.

Definition is_leap (y : Z) : bool :=
  (y mod 4 =? 0) && (negb (y mod 100 =? 0) || (y mod 400 =? 0)).

Definition days_before_year (y : Z) : Z :=
  let p := y - 1 in p * 365 + p / 4 - p / 100 + p / 400.

Definition days_in_month_common (m : Z) : Z :=
  match m with
  | 1 => 31 | 2 => 28 | 3 => 31 | 4 => 30 | 5 => 31 | 6 => 30
  | 7 => 31 | 8 => 31 | 9 => 30 | 10 => 31 | 11 => 30 | 12 => 31
  | _ => 0
  end.

Definition days_in_month (y m : Z) : Z :=
  if (m =? 2) && is_leap y then 29 else days_in_month_common m.

(** [_DAYS_BEFORE_MONTH] *)
Definition days_before_month_common (m : Z) : Z :=
  match m with
  | 1 => 0 | 2 => 31 | 3 => 59 | 4 => 90 | 5 => 120 | 6 => 151
  | 7 => 181 | 8 => 212 | 9 => 243 | 10 => 273 | 11 => 304 | 12 => 334
  | _ => 0
  end.

Definition days_before_month (y m : Z) : Z :=
  days_before_month_common m + (if (2 <? m) && is_leap y then 1 else 0).

(** [date.toordinal()]: 1 is 0001-01-01. *)
Definition ymd2ord (d : date) : Z :=
  days_before_year (year d) + days_before_month (year d) (month d) + day d.

Definition DI400Y : Z := 146097.
Definition DI100Y : Z := 36524.
Definition DI4Y : Z := 1461.

Definition MAXORDINAL : Z := 3652059.

(** [date.fromordinal(n)] *)
Definition ord2ymd (n0 : Z) : date :=
  let n := n0 - 1 in
  let n400 := n / DI400Y in
  let n := n mod DI400Y in
  let y := n400 * 400 + 1 in
  let n100 := n / DI100Y in
  let n := n mod DI100Y in
  let n4 := n / DI4Y in
  let n := n mod DI4Y in
  let n1 := n / 365 in
  let n := n mod 365 in
  let y := y + n100 * 100 + n4 * 4 + n1 in
  if (n1 =? 4) || (n100 =? 4) then mkdate (y - 1) 12 31
  else
    let leapyear := (n1 =? 3) && (negb (n4 =? 24) || (n100 =? 3)) in
    let m := Z.shiftr (n + 50) 5 in
    let preceding :=
      days_before_month_common m + (if (2 <? m) && leapyear then 1 else 0) in
    if n <? preceding then
      let m' := m - 1 in
      let preceding' :=
        preceding - (days_in_month_common m'
                     + (if (m' =? 2) && leapyear then 1 else 0)) in
      mkdate y m' (n - preceding' + 1)
    else mkdate y m (n - preceding + 1).

(** The constructor's range check ([ValueError] otherwise). *)
Definition valid_date (d : date) : bool :=
  (MINYEAR <=? year d) && (year d <=? MAXYEAR)
  && (1 <=? month d) && (month d <=? 12)
  && (1 <=? day d) && (day d <=? days_in_month (year d) (month d)).

(** Comparison of [date] objects: the tuples (year, month, day). *)
Definition date_lt (a b : date) : bool :=
  (year a <? year b)
  || ((year a =? year b)
      && ((month a <? month b)
          || ((month a =? month b) && (day a <? day b)))).

Definition date_gt (a b : date) : bool := date_lt b a.
Definition date_le (a b : date) : bool := negb (date_lt b a).
Definition date_ge (a b : date) : bool := negb (date_lt a b).

Definition US_PER_SECOND : Z := 1000000.
Definition US_PER_DAY : Z := 86400 * US_PER_SECOND.

(** Microseconds of the wall clock since the start of its day. *)
Definition us_of_day (d : datetime) : Z :=
  ((hour d * 60 + minute d) * 60 + second d) * US_PER_SECOND + microsecond d.

(** [d.astimezone(pytz.UTC)]: the wall clock minus the offset, read in
    UTC.  [None] is the [OverflowError] of a result outside the years
    1 to 9999. *)
Definition astimezone_utc (d : datetime) : option datetime :=
  let total := ymd2ord (dt_date d) * US_PER_DAY + us_of_day d - utcoffset d in
  let ord := total / US_PER_DAY in
  let us := total mod US_PER_DAY in
  if (1 <=? ord) && (ord <=? MAXORDINAL) then
    let secs := us / US_PER_SECOND in
    Some (mkdt (ord2ymd ord)
               (secs / 3600) ((secs / 60) mod 60) (secs mod 60)
               (us mod US_PER_SECOND) 0)
  else None.

(** [d - timedelta(days=k)] on the date part ([None]: [OverflowError]). *)
Definition minus_days (d : datetime) (k : Z) : option datetime :=
  let ord := ymd2ord (dt_date d) - k in
  if (1 <=? ord) && (ord <=? MAXORDINAL) then
    Some (mkdt (ord2ymd ord) (hour d) (minute d) (second d)
               (microsecond d) (utcoffset d))
  else None.

(** [d.strftime(fmt)] for the formats ["%Y-%m-%d"] and ["%Y_%m_%d"];
    [sep] is the separator.  CPython hands the format to the [strftime]
    of the C library (CPython 3.11 on glibc): [%Y] is the year as a
    decimal number, without padding, so that a year before 1000 is
    written on fewer than four digits; [%m] and [%d] are padded to two
    digits. *)
Definition strftime_ymd (sep : string) (d : datetime) : string :=
  Py.str_of_int (year (dt_date d)) ++ sep ++ Py.pad 2 (month (dt_date d))
  ++ sep ++ Py.pad 2 (day (dt_date d)).

(** The [+HH:MM[:SS[.ffffff]]] suffix of [isoformat]. *)
Definition format_offset (off : Z) : string :=
  let sign := if off <? 0 then "-" else "+" in
  let a := Z.abs off in
  let us := a mod US_PER_SECOND in
  let s := a / US_PER_SECOND in
  let hh := s / 3600 in
  let mm := (s / 60) mod 60 in
  let ss := s mod 60 in
  sign ++ Py.pad 2 hh ++ ":" ++ Py.pad 2 mm
  ++ (if (ss =? 0) && (us =? 0) then ""
      else ":" ++ Py.pad 2 ss
           ++ (if us =? 0 then "" else "." ++ Py.pad 6 us)).

(** [d.isoformat()] of an aware [datetime]: the date is written by
    ["%04d-%02d-%02d"], whatever the C library does. *)
Definition isoformat (d : datetime) : string :=
  Py.pad 4 (year (dt_date d)) ++ "-" ++ Py.pad 2 (month (dt_date d))
  ++ "-" ++ Py.pad 2 (day (dt_date d))
  ++ "T" ++ Py.pad 2 (hour d) ++ ":" ++ Py.pad 2 (minute d)
  ++ ":" ++ Py.pad 2 (second d)
  ++ (if microsecond d =? 0 then "" else "." ++ Py.pad 6 (microsecond d))
  ++ format_offset (utcoffset d).

(** ** [datetime.strptime(s, "%Y-%m-%d")]

    [_strptime] turns the format into the regular expression
    [(\d\d\d\d)-(1[0-2]|0[1-9]|[1-9])-(3[0-1]|[1-2]\d|0[1-9]|[1-9]| [1-9])],
    matches it at the start of the input, refuses input that is left
    over, and builds the date, whose constructor checks the ranges. *)

(** Four digits. *)
Definition match_Y (s : string) : option (Z * string) :=
  match s with
  | String a (String b (String c (String d rest))) =>
      if Py.isdigit a && Py.isdigit b && Py.isdigit c && Py.isdigit d
      then Some (((Py.digit_val a * 10 + Py.digit_val b) * 10
                  + Py.digit_val c) * 10 + Py.digit_val d, rest)
      else None
  | _ => None
  end.

Definition in_range (c : ascii) (lo hi : Z) : bool :=
  Py.isdigit c && (lo <=? Py.digit_val c) && (Py.digit_val c <=? hi).

Definition expect (c : ascii) (s : string) : option string :=
  match s with
  | String a rest => if Ascii.eqb a c then Some rest else None
  | EmptyString => None
  end.

(** The alternatives of [%m], each followed by the literal [-] that
    comes next in the format. *)
Definition match_m_dash (s : string) : option (Z * string) :=
  let two :=
    match s with
    | String a (String b rest) =>
        if (Ascii.eqb a "1" && in_range b 0 2)
           || (Ascii.eqb a "0" && in_range b 1 9)
        then match expect "-" rest with
             | Some rest' => Some (Py.digit_val a * 10 + Py.digit_val b, rest')
             | None => None
             end
        else None
    | _ => None
    end in
  match two with
  | Some r => Some r
  | None =>
      match s with
      | String a rest =>
          if in_range a 1 9
          then match expect "-" rest with
               | Some rest' => Some (Py.digit_val a, rest')
               | None => None
               end
          else None
      | EmptyString => None
      end
  end.

(** The alternatives of [%d], in their order; the first that matches is
    taken, since the expression ends there. *)
Definition match_d (s : string) : option (Z * string) :=
  let two :=
    match s with
    | String a (String b rest) =>
        if (Ascii.eqb a "3" && in_range b 0 1)
           || (in_range a 1 2 && Py.isdigit b)
           || (Ascii.eqb a "0" && in_range b 1 9)
        then Some (Py.digit_val a * 10 + Py.digit_val b, rest)
        else None
    | _ => None
    end in
  match two with
  | Some r => Some r
  | None =>
      match s with
      | String a rest =>
          if in_range a 1 9 then Some (Py.digit_val a, rest)
          else
            match rest with
            | String b rest' =>
                if Ascii.eqb a " " && in_range b 1 9
                then Some (Py.digit_val b, rest')
                else None
            | EmptyString => None
            end
      | EmptyString => None
      end
  end.

(** [None] is [ValueError]. The result is midnight, naive. *)
Definition strptime_Y_m_d (s : string) : option date :=
  match match_Y s with
  | None => None
  | Some (y, s1) =>
      match expect "-" s1 with
      | None => None
      | Some s2 =>
          match match_m_dash s2 with
          | None => None
          | Some (m, s3) =>
              match match_d s3 with
              | Some (d, EmptyString) =>
                  let r := mkdate y m d in
                  if valid_date r then Some r else None
              | _ => None
              end
          end
      end
  end.

End Datetime.

(* ===================================================================== *)
(** * Python values and [json.dumps] *)
(* ===================================================================== *)

(** The values the program builds: [None], [int], [str], [list] and
    [dict].  A [dict] keeps its keys in insertion order, which is the
    order [json.dumps] writes them in. *)
#[warnings="-register-all"]
Inductive value :=
| VNone
| VInt (n : Z)
| VStr (s : string)
| VList (l : list value)
| VDict (d : list (string * value)).

(** [d[key]] ([None] stands for [KeyError]). *)
Fixpoint dict_get (key : string) (d : list (string * value)) : option value :=
  match d with
  | [] => None
  | (k, v) :: rest => if String.eqb k key then Some v else dict_get key rest
  end.

Definition lookup (key : string) (v : value) : option value :=
  match v with
  | VDict d => dict_get key d
  | _ => None
  end.

Definition keys (v : value) : list string :=
  match v with
  | VDict d => map fst d
  | _ => []
  end.

Definition opt_int (n : option Z) : value :=
  match n with None => VNone | Some k => VInt k end.

Module Json.

Definition hex_digit (n : nat) : ascii :=
  if (n <? 10)%nat then ascii_of_nat (48 + n) else ascii_of_nat (87 + n).

(** ['\\u{0:04x}'.format(n)] for a code point below 256. *)
Definition u_escape (c : ascii) : string :=
  let n := nat_of_ascii c in
  String Py.backslash
    ("u00" ++ String (hex_digit (n / 16)) (String (hex_digit (n mod 16)) "")).

(** The replacement of one character by [encode_basestring_ascii]:
    everything outside [' '..'~'], the quote and the backslash are
    escaped. *)
Definition escape_char (c : ascii) : string :=
  let n := nat_of_ascii c in
  if (n =? 34)%nat then String Py.backslash (String Py.dquote "")
  else if (n =? 92)%nat then String Py.backslash (String Py.backslash "")
  else if (n =? 8)%nat then String Py.backslash "b"
  else if (n =? 12)%nat then String Py.backslash "f"
  else if (n =? 10)%nat then String Py.backslash "n"
  else if (n =? 13)%nat then String Py.backslash "r"
  else if (n =? 9)%nat then String Py.backslash "t"
  else if ((32 <=? n) && (n <=? 126))%nat then String c ""
  else u_escape c.

Fixpoint escape (s : string) : string :=
  match s with
  | EmptyString => EmptyString
  | String c rest => escape_char c ++ escape rest
  end.

Definition encode_basestring_ascii (s : string) : string :=
  String Py.dquote (escape s ++ String Py.dquote "").

Fixpoint join (sep : string) (parts : list string) : string :=
  match parts with
  | [] => ""
  | [p] => p
  | p :: rest => p ++ sep ++ join sep rest
  end.

(** ['\n' + ' ' * (indent * level)] *)
Definition newline_indent (indent level : nat) : string :=
  String Py.newline (Py.repeat_char " " (indent * level)).

(** [_iterencode] of [json.encoder] with an [indent]: the separators are
    [","] and [": "]; an empty container is written closed. *)
Fixpoint iterencode (indent level : nat) (v : value) : string :=
  match v with
  | VNone => "null"
  | VInt n => Py.str_of_int n
  | VStr s => encode_basestring_ascii s
  | VList [] => "[]"
  | VList l =>
      "[" ++ newline_indent indent (S level)
      ++ join ("," ++ newline_indent indent (S level))
              (map (iterencode indent (S level)) l)
      ++ newline_indent indent level ++ "]"
  | VDict [] => "{}"
  | VDict d =>
      "{" ++ newline_indent indent (S level)
      ++ join ("," ++ newline_indent indent (S level))
              (map (fun kv =>
                      match kv with
                      | (k, x) => encode_basestring_ascii k ++ ": "
                                  ++ iterencode indent (S level) x
                      end) d)
      ++ newline_indent indent level ++ "}"
  end.

(** [json.dumps(obj, indent=indent)] *)
Definition dumps (obj : value) (indent : nat) : string :=
  iterencode indent 0 obj.

End Json.

(* ===================================================================== *)
(** * Exceptions, the outside world, and the monad of effects *)
(* ===================================================================== *)

Inductive exn :=
| ChatInvalidError (msg : string)     (* telethon.errors *)
| ClientError (msg : string)          (* botocore.exceptions *)
| ValueError (msg : string)
| OverflowError (msg : string)
| KeyError (msg : string)
| NameError (msg : string)
| HTTPException (status_code : Z) (detail : string)   (* fastapi *)
| OtherException (msg : string).      (* any other subclass of Exception *)

(** [str(e)].  An [HTTPException] prints its status and its detail. *)
Definition str (e : exn) : string :=
  match e with
  | ChatInvalidError m | ClientError m | ValueError m | OverflowError m
  | KeyError m | NameError m | OtherException m => m
  | HTTPException c d => Py.str_of_int c ++ ": " ++ d
  end.

(** A message of the Message Source (a Telethon [Message]). *)
Record Message := mkMessage {
  id : Z;
  date : option Datetime.datetime;
  text : option string;
  sender_id : option Z
}.

(** The calls that leave the process. *)
Inductive call :=
| ClientStart                                            (* client.start(phone=...) *)
| IterMessages (username : string)                       (* client.iter_messages *)
| Boto3Client                                            (* boto3.client('s3', ...) *)
| HeadBucket (bucket : option string)
| CreateBucket (bucket : option string)
| UploadFile (file_path : string) (bucket : option string) (key : string)
| WriteFile (filename : string) (content : string)       (* open(..., 'w') and write *)
| ReadFile (path : string).                              (* open(..., 'r') and readlines *)

Inductive level := INFO | ERROR.

(** What a run leaves behind: every call with the exception it raised
    ([None] when it returned), and every log line. *)
Inductive event :=
| Call (c : call) (raised : option exn)
| Log (lvl : level) (msg : string)
| LogRepr (lvl : level) (msg : string) (v : value).   (* f"{msg}{v}" *)

Definition trace := list event.

(** The outside world.  Every oracle sees the trace so far, so that the
    same call may succeed once and fail later. *)
Record Env := mkEnv {
  AWS_REGION : option string;           (* os.getenv('AWS_REGION') *)
  S3_BUCKET_NAME : option string;       (* os.getenv('S3_BUCKET_NAME') *)
  is_connected : trace -> bool;
  client_start : trace -> option exn;
  (** The stream of a chat: the messages it yields and, possibly, the
      exception that ends it. *)
  iter_messages : trace -> string -> list Message * option exn;
  boto3_client : trace -> option exn;
  head_bucket : trace -> option string -> option exn;
  create_bucket : trace -> option string -> option exn;
  upload_file : trace -> string -> option string -> string -> option exn;
  write_file : trace -> string -> string -> option exn;
  (** The decoded text of a file opened for reading. *)
  read_file : trace -> string -> exn + string;
  (** [datetime.now()] and [datetime.now(pytz.timezone("US/Pacific"))]. *)
  now : trace -> Datetime.datetime;
  now_pacific : trace -> Datetime.datetime
}.

(** A computation reads and extends the trace and returns or raises. *)
Definition M (A : Type) : Type := trace -> (exn + A) * trace.

Definition ret {A} (a : A) : M A := fun tr => (inr a, tr).

Definition raise {A} (e : exn) : M A := fun tr => (inl e, tr).

Definition bind {A B} (c : M A) (k : A -> M B) : M B :=
  fun tr =>
    match c tr with
    | (inr a, tr') => k a tr'
    | (inl e, tr') => (inl e, tr')
    end.

(** [try: c except Exception as e: handler e] *)
Definition try_except {A} (c : M A) (handler : exn -> M A) : M A :=
  fun tr =>
    match c tr with
    | (inr a, tr') => (inr a, tr')
    | (inl e, tr') => handler e tr'
    end.

Definition lift {A} (r : exn + A) : M A := fun tr => (r, tr).

Definition logger (lvl : level) (msg : string) : M unit :=
  fun tr => (inr tt, (tr ++ [Log lvl msg])%list).

Definition logger_repr (lvl : level) (msg : string) (v : value) : M unit :=
  fun tr => (inr tt, (tr ++ [LogRepr lvl msg v])%list).

(** [open(path, 'r')] and reading the whole text. *)
Definition read_text (oracle : trace -> string -> exn + string)
    (path : string) : M string :=
  fun tr =>
    match oracle tr path with
    | inr content => (inr content, (tr ++ [Call (ReadFile path) None])%list)
    | inl e => (inl e, (tr ++ [Call (ReadFile path) (Some e)])%list)
    end.

(** A call whose answer is only whether it raised. *)
Definition perform (c : call) (oracle : trace -> option exn) : M unit :=
  fun tr =>
    match oracle tr with
    | None => (inr tt, (tr ++ [Call c None])%list)
    | Some e => (inl e, (tr ++ [Call c (Some e)])%list)
    end.

Declare Scope py_scope.
Delimit Scope py_scope with py.
Notation "x <- c ;; k" := (bind c (fun x => k))
  (at level 100, c at next level, right associativity) : py_scope.
Notation "c ;;; k" := (bind c (fun _ => k))
  (at level 100, right associativity) : py_scope.

Local Open Scope py_scope.

(* ===================================================================== *)
(** * Text files and uploaded files *)
(* ===================================================================== *)

Module Text.

(** The line boundaries of [str.splitlines] below code point 256, apart
    from the carriage return, which may be followed by a line feed. *)
Definition is_boundary (c : ascii) : bool :=
  let n := nat_of_ascii c in
  ((n =? 10) || (n =? 11) || (n =? 12) || (n =? 28) || (n =? 29)
   || (n =? 30) || (n =? 133))%nat.

Definition is_cr (c : ascii) : bool := (nat_of_ascii c =? 13)%nat.

(** [cur] is the line read so far. *)
Fixpoint splitlines_from (cur : string) (s : string) : list string :=
  match s with
  | EmptyString =>
      match cur with EmptyString => [] | _ => [cur] end
  | String c rest =>
      if is_cr c then
        match rest with
        | String c' rest' =>
            if (nat_of_ascii c' =? 10)%nat
            then cur :: splitlines_from "" rest'
            else cur :: splitlines_from "" rest
        | EmptyString => cur :: splitlines_from "" rest
        end
      else if is_boundary c then cur :: splitlines_from "" rest
      else splitlines_from (cur ++ String c "") rest
  end.

(** [s.splitlines()] *)
Definition splitlines (s : string) : list string := splitlines_from "" s.

(** [f.readlines()] on a file opened by [open(path, 'r')], that is in
    text mode with universal newlines: a line ends at a line feed, at a
    carriage return followed by a line feed, or at a lone carriage
    return, and each of them is read as one line feed, which the line
    keeps. *)
Fixpoint readlines_from (cur : string) (s : string) : list string :=
  match s with
  | EmptyString =>
      match cur with EmptyString => [] | _ => [cur] end
  | String c rest =>
      if (nat_of_ascii c =? 10)%nat
      then (cur ++ String Py.newline "") :: readlines_from "" rest
      else if is_cr c then
        match rest with
        | String c' rest' =>
            if (nat_of_ascii c' =? 10)%nat
            then (cur ++ String Py.newline "") :: readlines_from "" rest'
            else (cur ++ String Py.newline "") :: readlines_from "" rest
        | EmptyString => (cur ++ String Py.newline "") :: readlines_from "" rest
        end
      else readlines_from (cur ++ String c "") rest
  end.

Definition readlines (s : string) : list string := readlines_from "" s.

End Text.

(* ===================================================================== *)
(** * The loop over the stream of messages *)
(* ===================================================================== *)

(** [from_date and message_date < from_date.date()] *)
Definition before_from (from_date : option Datetime.datetime)
    (message_date : Datetime.date) : bool :=
  match from_date with
  | None => false
  | Some f => Datetime.date_lt message_date (Datetime.dt_date f)
  end.

(** [to_date and message_date > to_date.date()] *)
Definition after_to (to_date : option Datetime.datetime)
    (message_date : Datetime.date) : bool :=
  match to_date with
  | None => false
  | Some t => Datetime.date_gt message_date (Datetime.dt_date t)
  end.

(** The dictionary appended for a retained message. *)
Definition message_entry (message : Message) (d : Datetime.datetime)
    (t : string) : value :=
  VDict [ ("date", VStr (Datetime.isoformat d));
          ("sender_id", opt_int (sender_id message));
          ("message", VStr t);
          ("message_id", VInt (id message)) ].

(** The body of [async for message in client.iter_messages(...)], the
    same text in [api.py] (lines 159 to 179) and [cmd.py] (lines 92 to
    109).  [messages] is the list built so far; [inl] is an exception
    raised by the body. *)
Fixpoint message_loop (from_date to_date : option Datetime.datetime)
    (stream : list Message) (messages : list value) : exn + list value :=
  match stream with
  | [] => inr messages
  | message :: rest =>
      match date message with
      | None => message_loop from_date to_date rest messages     (* continue *)
      | Some d =>
          match Datetime.astimezone_utc d with
          | None => inl (OverflowError "date value out of range")
          | Some u =>
              let message_date := Datetime.dt_date u in
              if before_from from_date message_date then
                message_loop from_date to_date rest messages     (* continue *)
              else if after_to to_date message_date then
                message_loop from_date to_date rest messages     (* continue *)
              else
                match text message with
                | Some t =>
                    if Py.str_truthy t then
                      message_loop from_date to_date rest
                        (messages ++ [message_entry message d t])%list
                    else message_loop from_date to_date rest messages
                | None => message_loop from_date to_date rest messages
                end
          end
      end
  end.

(* ===================================================================== *)
(** * [api.py] *)
(* ===================================================================== *)

Module Api.

(** [parse_date]: midnight of the day, in UTC. *)
Definition parse_date (date_string : string) : exn + Datetime.datetime :=
  match Datetime.strptime_Y_m_d date_string with
  | Some d => inr (Datetime.mkdt d 0 0 0 0 0)
  | None => inl (HTTPException 400 "Invalid date format. Use YYYY-MM-DD.")
  end.

(** [parse_date(s) if s else None] *)
Definition parse_optional (s : option string)
  : exn + option Datetime.datetime :=
  match s with
  | Some t =>
      if Py.str_truthy t then
        match parse_date t with
        | inr d => inr (Some d)
        | inl e => inl e
        end
      else inr None
  | None => inr None
  end.

Section WithEnv.
Variable env : Env.

Definition create_s3_client : M unit :=
  perform Boto3Client (boto3_client env).

Definition create_s3_bucket (bucket_name : option string) : M unit :=
  create_s3_client ;;;
  try_except
    (perform (HeadBucket bucket_name)
             (fun tr => head_bucket env tr bucket_name) ;;;
     logger INFO ("Bucket '" ++ Py.fmt_opt bucket_name
                  ++ "' already exists."))
    (fun e =>
       match e with
       | ClientError _ =>
           try_except
             (perform (CreateBucket bucket_name)
                      (fun tr => create_bucket env tr bucket_name) ;;;
              logger INFO ("Bucket '" ++ Py.fmt_opt bucket_name
                           ++ "' created successfully."))
             (fun e' =>
                logger ERROR ("Failed to create bucket '"
                              ++ Py.fmt_opt bucket_name ++ "': " ++ str e') ;;;
                raise (HTTPException 500
                         ("Failed to create bucket '"
                          ++ Py.fmt_opt bucket_name ++ "': " ++ str e')))
       | _ => raise e
       end).

Definition upload_file_to_s3 (bucket_name : option string)
    (file_path key : string) : M string :=
  create_s3_client ;;;
  try_except
    (perform (UploadFile file_path bucket_name key)
             (fun tr => upload_file env tr file_path bucket_name key) ;;;
     logger INFO ("File '" ++ file_path ++ "' uploaded to S3 bucket '"
                  ++ Py.fmt_opt bucket_name ++ "' as '" ++ key ++ "'.") ;;;
     let region := AWS_REGION env in
     let s3_url := "https://" ++ Py.fmt_opt bucket_name ++ ".s3."
                   ++ Py.fmt_opt region ++ ".amazonaws.com/" ++ key in
     ret s3_url)
    (fun e =>
       logger ERROR ("Failed to upload file to S3: " ++ str e) ;;;
       raise (HTTPException 500 ("Failed to upload file to S3: " ++ str e))).

(** [client.iter_messages(username, limit=None)]: the messages the
    iteration yields and the exception that ends it, if any.  The event
    records that exception, also when the body of the loop raises
    before the iteration reaches it. *)
Definition read_stream (username : string)
  : M (list Message * option exn) :=
  fun tr =>
    let s := iter_messages env tr username in
    (inr s, (tr ++ [Call (IterMessages username) (snd s)])%list).

Definition end_of_stream (failure : option exn) : M unit :=
  match failure with
  | Some e => raise e
  | None => ret tt
  end.

Definition download_chat_messages (username token_name : string)
    (from_date to_date : option Datetime.datetime) : M value :=
  try_except
    (connected <- (fun tr => (inr (is_connected env tr), tr)) ;;
     (if negb connected
      then perform ClientStart (client_start env)
      else ret tt) ;;;
     stream <- read_stream username ;;
     messages <- lift (message_loop from_date to_date (fst stream) []) ;;
     end_of_stream (snd stream) ;;;
     ret (VDict [ ("token_name", VStr token_name);
                  ("message_count", VInt (Z.of_nat (List.length messages)));
                  ("messages", VList messages) ]))
    (fun e =>
       match e with
       | ChatInvalidError _ =>
           logger ERROR ("Chat not found: " ++ username) ;;;
           raise (HTTPException 404
                    ("Chat '" ++ username ++ "' not found or inaccessible."))
       | _ =>
           logger ERROR ("Error downloading messages: " ++ str e) ;;;
           raise (HTTPException 500
                    ("Error downloading messages: " ++ str e))
       end).

(** [result[key]] *)
Definition getitem (result : value) (key : string) : M value :=
  match lookup key result with
  | Some v => ret v
  | None => raise (KeyError ("'" ++ key ++ "'"))
  end.

Definition artifact_name (username : string) (today : Datetime.datetime)
  : string :=
  "telegram_" ++ Py.strip username ++ "_"
  ++ Datetime.strftime_ymd "_" today ++ ".json".

(** One turn of the [for username in usernames] loop of
    [process_messages_file] (lines 235 to 276); [result_summary] is
    the list built so far, and the list with the outcome of this
    username appended is returned. *)
Definition process_username (username : string)
    (from_date_obj to_date_obj : option Datetime.datetime)
    (bucket_name : option string) (result_summary : list value)
  : M (list value) :=
  let token_name := "Token_" ++ Py.strip username in
  try_except
    (result <- download_chat_messages (Py.strip username) token_name
                 from_date_obj to_date_obj ;;
     today <- (fun tr => (inr (now env tr), tr)) ;;
     let filename := artifact_name username today in
     perform (WriteFile filename (Json.dumps result 4))
             (fun tr => write_file env tr filename
                          (Json.dumps result 4)) ;;;
     let region := AWS_REGION env in
     let s3_key := filename in
     let s3_url := "https://" ++ Py.fmt_opt bucket_name ++ ".s3."
                   ++ Py.fmt_opt region ++ ".amazonaws.com/"
                   ++ s3_key in
     upload_file_to_s3 bucket_name filename s3_key ;;;
     message_count <- getitem result "message_count" ;;
     ret (result_summary
          ++ [VDict [ ("username", VStr (Py.strip username));
                      ("status", VStr "success");
                      ("message_count", message_count);
                      ("s3_file", VStr s3_url) ]])%list)
    (fun e =>
       match e with
       | HTTPException _ detail =>
           ret (result_summary
                ++ [VDict [ ("username", VStr (Py.strip username));
                            ("status", VStr "failed");
                            ("error", VStr detail) ]])%list
       | _ =>
           ret (result_summary
                ++ [VDict [ ("username", VStr (Py.strip username));
                            ("status", VStr "failed");
                            ("error", VStr (str e)) ]])%list
       end).

(** The loop (lines 234 to 276). *)
Fixpoint for_usernames (usernames : list string)
    (from_date_obj to_date_obj : option Datetime.datetime)
    (bucket_name : option string) (result_summary : list value)
  : M (list value) :=
  match usernames with
  | [] => ret result_summary
  | username :: rest =>
      result_summary' <- process_username username from_date_obj
                           to_date_obj bucket_name result_summary ;;
      for_usernames rest from_date_obj to_date_obj bucket_name
        result_summary'
  end.

(** [file] is what [(await file.read()).decode('utf-8')] gives: the
    text of the upload, or the exception of reading or decoding it. *)
Definition process_messages_file (file : exn + string)
    (from_date to_date : option string) : M value :=
  try_except
    (from_date_obj <- lift (parse_optional from_date) ;;
     to_date_obj <- lift (parse_optional to_date) ;;
     content <- lift file ;;
     let usernames := Text.splitlines content in
     let bucket_name := S3_BUCKET_NAME env in
     create_s3_bucket bucket_name ;;;
     result_summary <- for_usernames usernames from_date_obj to_date_obj
                         bucket_name [] ;;
     ret (VDict [ ("summary", VList result_summary) ]))
    (fun e =>
       logger ERROR ("Error processing file: " ++ str e) ;;;
       raise (HTTPException 500 ("Error processing file: " ++ str e))).

End WithEnv.

End Api.

(* ===================================================================== *)
(** * [api_time.py] *)
(* ===================================================================== *)

Module ApiTime.

Definition parse_date (date_string : string) : exn + Datetime.datetime :=
  match Datetime.strptime_Y_m_d date_string with
  | Some d => inr (Datetime.mkdt d 0 0 0 0 0)
  | None => inl (HTTPException 400 "Invalid date format. Use YYYY-MM-DD.")
  end.

(** [api_time.py] calls [create_s3_bucket], [download_chat_messages] and
    [upload_file_to_s3], and neither defines nor imports them: looking
    such a name up raises [NameError]. *)
Definition undefined_name {A} (name : string) : M A :=
  raise (NameError ("name '" ++ name ++ "' is not defined")).

Section WithEnv.
Variable env : Env.
(** [args.username_file] *)
Variable username_file : string.

Definition getitem (result : value) (key : string) : M value :=
  match lookup key result with
  | Some v => ret v
  | None => raise (KeyError ("'" ++ key ++ "'"))
  end.

(** One turn of the [for username in usernames] loop (lines 105 to
    144). *)
Definition process_username (username : string)
    (from_date to_date : string)
    (bucket_name : option string) (result_summary : list value)
  : M (list value) :=
  let token_name := "Token_" ++ Py.strip username in
  try_except
    (result <- (undefined_name "download_chat_messages" : M value) ;;
     today <- (fun tr => (inr (now env tr), tr)) ;;
     let filename := "telegram_" ++ Py.strip username ++ "_"
                     ++ Datetime.strftime_ymd "_" today ++ ".json" in
     perform (WriteFile filename (Json.dumps result 4))
             (fun tr => write_file env tr filename
                          (Json.dumps result 4)) ;;;
     let s3_key := filename in
     s3_url <- (undefined_name "upload_file_to_s3" : M string) ;;
     message_count <- getitem result "message_count" ;;
     ret (result_summary
          ++ [VDict [ ("username", VStr (Py.strip username));
                      ("status", VStr "success");
                      ("message_count", message_count);
                      ("s3_file", VStr s3_url) ]])%list)
    (fun e =>
       match e with
       | HTTPException _ detail =>
           ret (result_summary
                ++ [VDict [ ("username", VStr (Py.strip username));
                            ("status", VStr "failed");
                            ("error", VStr detail) ]])%list
       | _ =>
           ret (result_summary
                ++ [VDict [ ("username", VStr (Py.strip username));
                            ("status", VStr "failed");
                            ("error", VStr (str e)) ]])%list
       end).

(** The loop (lines 104 to 144). *)
Fixpoint for_usernames (usernames : list string)
    (from_date to_date : string)
    (bucket_name : option string) (result_summary : list value)
  : M (list value) :=
  match usernames with
  | [] => ret result_summary
  | username :: rest =>
      result_summary' <- process_username username from_date to_date
                           bucket_name result_summary ;;
      for_usernames rest from_date to_date bucket_name result_summary'
  end.

Definition process_messages_daily : M unit :=
  logger INFO "Running scheduled task to process messages." ;;;
  try_except
    (now <- (fun tr => (inr (now_pacific env tr), tr)) ;;
     yesterday <-
       lift (match Datetime.minus_days now 1 with
             | Some d => inr d
             | None => inl (OverflowError "date value out of range")
             end) ;;
     let from_date := Datetime.strftime_ymd "-" yesterday in
     let to_date := from_date in
     content <- read_text (read_file env) username_file ;;
     let usernames := map Py.strip (Text.readlines content) in
     let bucket_name := S3_BUCKET_NAME env in
     (undefined_name "create_s3_bucket" : M unit) ;;;
     result_summary <- for_usernames usernames from_date to_date
                         bucket_name [] ;;
     logger_repr INFO "Daily processing completed. Summary: "
                 (VList result_summary))
    (fun e => logger ERROR ("Error in scheduled task: " ++ str e)).

End WithEnv.

End ApiTime.

(* ===================================================================== *)
(** * [cmd.py] *)
(* ===================================================================== *)

Module Cmd.

Definition parse_date (date_string : string) : exn + Datetime.datetime :=
  match Datetime.strptime_Y_m_d date_string with
  | Some d => inr (Datetime.mkdt d 0 0 0 0 0)
  | None => inl (ValueError "Invalid date format. Use YYYY-MM-DD.")
  end.

Definition parse_optional (s : option string)
  : exn + option Datetime.datetime :=
  match s with
  | Some t =>
      if Py.str_truthy t then
        match parse_date t with
        | inr d => inr (Some d)
        | inl e => inl e
        end
      else inr None
  | None => inr None
  end.

Section WithEnv.
Variable env : Env.

Definition create_s3_client : M unit :=
  perform Boto3Client (boto3_client env).

Definition create_s3_bucket (bucket_name : option string) : M unit :=
  create_s3_client ;;;
  try_except
    (perform (HeadBucket bucket_name)
             (fun tr => head_bucket env tr bucket_name) ;;;
     logger INFO ("Bucket '" ++ Py.fmt_opt bucket_name
                  ++ "' already exists."))
    (fun e =>
       match e with
       | ClientError _ =>
           try_except
             (perform (CreateBucket bucket_name)
                      (fun tr => create_bucket env tr bucket_name) ;;;
              logger INFO ("Bucket '" ++ Py.fmt_opt bucket_name
                           ++ "' created successfully."))
             (fun e' =>
                logger ERROR ("Failed to create bucket '"
                              ++ Py.fmt_opt bucket_name ++ "': " ++ str e') ;;;
                raise e')
       | _ => raise e
       end).

Definition upload_file_to_s3 (bucket_name : option string)
    (file_path key : string) : M string :=
  create_s3_client ;;;
  try_except
    (perform (UploadFile file_path bucket_name key)
             (fun tr => upload_file env tr file_path bucket_name key) ;;;
     logger INFO ("File '" ++ file_path ++ "' uploaded to S3 bucket '"
                  ++ Py.fmt_opt bucket_name ++ "' as '" ++ key ++ "'.") ;;;
     let region := AWS_REGION env in
     let s3_url := "https://" ++ Py.fmt_opt bucket_name ++ ".s3."
                   ++ Py.fmt_opt region ++ ".amazonaws.com/" ++ key in
     ret s3_url)
    (fun e =>
       logger ERROR ("Failed to upload file to S3: " ++ str e) ;;;
       raise e).

Definition download_chat_messages (username : string)
    (from_date to_date : option Datetime.datetime) : M value :=
  try_except
    (connected <- (fun tr => (inr (is_connected env tr), tr)) ;;
     (if negb connected
      then perform ClientStart (client_start env)
      else ret tt) ;;;
     stream <- Api.read_stream env username ;;
     messages <- lift (message_loop from_date to_date (fst stream) []) ;;
     Api.end_of_stream (snd stream) ;;;
     ret (VList messages))
    (fun e =>
       match e with
       | ChatInvalidError _ =>
           logger ERROR ("Chat '" ++ username ++ "' not found.") ;;;
           raise (ValueError
                    ("Chat '" ++ username ++ "' not found or inaccessible."))
       | _ =>
           logger ERROR ("Error downloading messages: " ++ str e) ;;;
           raise e
       end).

(** One turn of the [for username in usernames] loop of
    [process_chats] (lines 127 to 136). *)
Definition process_username (username : string)
    (from_date to_date : option Datetime.datetime) : M unit :=
  try_except
    (messages <- download_chat_messages username from_date to_date ;;
     today <- (fun tr => (inr (now env tr), tr)) ;;
     let filename := "telegram_" ++ username ++ "_"
                     ++ Datetime.strftime_ymd "_" today ++ ".json" in
     perform (WriteFile filename (Json.dumps messages 4))
             (fun tr => write_file env tr filename
                          (Json.dumps messages 4)) ;;;
     s3_url <- upload_file_to_s3 (S3_BUCKET_NAME env) filename filename ;;
     logger INFO ("Messages for '" ++ username ++ "' uploaded to S3: "
                  ++ s3_url))
    (fun e =>
       logger ERROR ("Failed to process '" ++ username ++ "': "
                     ++ str e)).

(** The loop (lines 126 to 136). *)
Fixpoint for_usernames (usernames : list string)
    (from_date to_date : option Datetime.datetime) : M unit :=
  match usernames with
  | [] => ret tt
  | username :: rest =>
      process_username username from_date to_date ;;;
      for_usernames rest from_date to_date
  end.

Definition process_chats (file_path : string)
    (from_date to_date : option Datetime.datetime) : M unit :=
  content <- read_text (read_file env) file_path ;;
  let usernames := map Py.strip (Text.readlines content) in
  create_s3_bucket (S3_BUCKET_NAME env) ;;;
  for_usernames usernames from_date to_date.

(** [main], with the parsed command line: [file], [--from_date],
    [--to_date]. *)
Definition main (file : string) (from_date to_date : option string)
  : M unit :=
  from_date' <- lift (parse_optional from_date) ;;
  to_date' <- lift (parse_optional to_date) ;;
  process_chats file from_date' to_date'.

End WithEnv.

End Cmd.

(* ===================================================================== *)
(** * The vocabulary of the specification *)
(* ===================================================================== *)

(** The UTC calendar date of a message, when it has a timestamp. *)
Definition utc_date (m : Message) : option Datetime.date :=
  match date m with
  | Some d => option_map Datetime.dt_date (Datetime.astimezone_utc d)
  | None => None
  end.

(** The membership test of the specification, in its words: a date is
    in the window iff (from absent or date >= from) and (to absent or
    date <= to). *)
Definition in_window (from_date to_date : option Datetime.datetime)
    (d : Datetime.date) : bool :=
  (match from_date with
   | None => true
   | Some f => Datetime.date_ge d (Datetime.dt_date f)
   end)
  && (match to_date with
      | None => true
      | Some t => Datetime.date_le d (Datetime.dt_date t)
      end).

(** A message passes the filters: it has a timestamp, its UTC date is in
    the window, and its text is not empty. *)
Definition passes (from_date to_date : option Datetime.datetime)
    (m : Message) : bool :=
  match utc_date m with
  | Some d => in_window from_date to_date d && Py.opt_str_truthy (text m)
  | None => false
  end.

(** The timestamp of a message can be brought to UTC. *)
Definition converts (m : Message) : bool :=
  match date m with
  | Some d =>
      match Datetime.astimezone_utc d with Some _ => true | None => false end
  | None => true
  end.

(** The entry of a message that has a timestamp and a text. *)
Definition entry_of (m : Message) : value :=
  match date m, text m with
  | Some d, Some t => message_entry m d t
  | _, _ => VNone
  end.

(** The trace at the moment the stream of a chat is opened: the client
    is started first when it is not connected. *)
Definition trace_at_stream (env : Env) (tr : trace) : trace :=
  if is_connected env tr then tr else (tr ++ [Call ClientStart None])%list.

(** The messages a fetch started in trace [tr] is given by the source. *)
Definition stream_of (env : Env) (tr : trace) (username : string)
  : list Message :=
  fst (iter_messages env (trace_at_stream env tr) username).

(** The [FetchResult] of [api.py]. *)
Definition fetch_result (token_name : string) (messages : list value) : value :=
  VDict [ ("token_name", VStr token_name);
          ("message_count", VInt (Z.of_nat (List.length messages)));
          ("messages", VList messages) ].

(** A fetch started in trace [tr] returns the messages [msgs]: the
    [FetchResult] of [api.py] holds them under some token name, the fetch
    of [cmd.py] returns them bare. *)
Definition fetch_returns (env : Env) (username : string)
    (from_date to_date : option Datetime.datetime) (tr : trace)
    (msgs : list value) : Prop :=
  (exists token_name tr',
      Api.download_chat_messages env username token_name from_date to_date tr
      = (inr (fetch_result token_name msgs), tr'))
  \/ (exists tr',
         Cmd.download_chat_messages env username from_date to_date tr
         = (inr (VList msgs), tr')).

(** Lexicographic order on (year, month, day). *)
Definition date_leq (a b : Datetime.date) : Prop :=
  Datetime.year a < Datetime.year b
  \/ (Datetime.year a = Datetime.year b
      /\ (Datetime.month a < Datetime.month b
          \/ (Datetime.month a = Datetime.month b
              /\ Datetime.day a <= Datetime.day b))).

(** The membership test as a proposition on the order of dates. *)
Definition window_holds (from_date to_date : option Datetime.datetime)
    (d : Datetime.date) : Prop :=
  (from_date = None
   \/ exists x, from_date = Some x /\ date_leq (Datetime.dt_date x) d)
  /\ (to_date = None
      \/ exists y, to_date = Some y /\ date_leq d (Datetime.dt_date y)).

(** The schema of an entry of [messages]: the four fields, in this order;
    [date] and [message] strings, [message_id] an integer, [sender_id] an
    integer or null. *)
Definition entry_schema (v : value) : bool :=
  match v with
  | VDict [ ("date", VStr _); ("sender_id", s); ("message", VStr _);
            ("message_id", VInt _) ] =>
      match s with VNone | VInt _ => true | _ => false end
  | _ => false
  end.

(** The schema of an artifact: [{token_name, message_count, messages}]. *)
Definition artifact_schema (v : value) : bool :=
  match v with
  | VDict [ ("token_name", VStr _); ("message_count", VInt _);
            ("messages", VList ms) ] => forallb entry_schema ms
  | _ => false
  end.

(** The pattern of the specification for a date input: four digits, a
    dash, two digits, a dash, two digits. *)
Definition matches_YYYY_MM_DD (s : string) : bool :=
  match s with
  | String y1 (String y2 (String y3 (String y4 (String d1
      (String m1 (String m2 (String d2 (String a1 (String a2 "")))))))))  =>
      Py.isdigit y1 && Py.isdigit y2 && Py.isdigit y3 && Py.isdigit y4
      && Ascii.eqb d1 "-" && Py.isdigit m1 && Py.isdigit m2
      && Ascii.eqb d2 "-" && Py.isdigit a1 && Py.isdigit a2
  | _ => false
  end.

(** Python's [==] on values: lists are compared in order, dictionaries
    as mappings, whatever the order of their keys. *)
Fixpoint py_eq (a b : value) : bool :=
  match a, b with
  | VNone, VNone => true
  | VInt x, VInt y => x =? y
  | VStr x, VStr y => String.eqb x y
  | VList l1, VList l2 =>
      (fix eq_list (xs ys : list value) : bool :=
         match xs, ys with
         | [], [] => true
         | x :: xs', y :: ys' => py_eq x y && eq_list xs' ys'
         | _, _ => false
         end) l1 l2
  | VDict d1, VDict d2 =>
      (List.length d1 =? List.length d2)%nat
      && forallb (fun kv =>
                    match kv with
                    | (k, v) =>
                        match dict_get k d2 with
                        | Some v' => py_eq v v'
                        | None => false
                        end
                    end) d1
  | _, _ => false
  end.

Definition is_write (ev : event) : bool :=
  match ev with
  | Call (WriteFile _ _) _ => true
  | _ => false
  end.

Definition is_start (ev : event) : bool :=
  match ev with
  | Call ClientStart None => true
  | _ => false
  end.

Definition is_call (ev : event) : bool :=
  match ev with
  | Call _ _ => true
  | _ => false
  end.

(** The two shapes of an outcome of the summary. *)
Definition success_outcome (username : string) (message_count : value)
    (s3_file : string) : value :=
  VDict [ ("username", VStr username); ("status", VStr "success");
          ("message_count", message_count); ("s3_file", VStr s3_file) ].

Definition failed_outcome (username error : string) : value :=
  VDict [ ("username", VStr username); ("status", VStr "failed");
          ("error", VStr error) ].

(** The address under which [api.py] reports an artifact. *)
Definition s3_url (env : Env) (bucket_name : option string) (key : string)
  : string :=
  "https://" ++ Py.fmt_opt bucket_name ++ ".s3."
  ++ Py.fmt_opt (AWS_REGION env) ++ ".amazonaws.com/" ++ key.

(** The event of writing the artifact of [username] with the messages
    [msgs]; [raised] is the exception of the write, if any. *)
Definition artifact_write (username : string) (today : Datetime.datetime)
    (msgs : list value) (raised : option exn) : event :=
  Call (WriteFile (Api.artifact_name username today)
                  (Json.dumps (fetch_result ("Token_" ++ Py.strip username)
                                            msgs) 4))
       raised.

(** The event of writing the artifact of [username] by [cmd.py]: the
    document is the bare list of the messages. *)
Definition cli_artifact_write (username : string) (today : Datetime.datetime)
    (msgs : list value) (raised : option exn) : event :=
  Call (WriteFile ("telegram_" ++ username ++ "_"
                   ++ Datetime.strftime_ymd "_" today ++ ".json")
                  (Json.dumps (VList msgs) 4))
       raised.

(** What one turn of the loop of [api.py] leaves: an outcome, and the
    writes of files it made.  A success comes with the one write of its
    artifact, and counts the messages written; a failure comes with no
    write, or with the one write after which something failed. *)
Definition turn_ok (env : Env) (bucket_name : option string)
    (username : string) (outcome : value) (writes : list event) : Prop :=
  (exists msgs today,
      outcome = success_outcome (Py.strip username)
                  (VInt (Z.of_nat (List.length msgs)))
                  (s3_url env bucket_name (Api.artifact_name username today))
      /\ writes = [artifact_write username today msgs None]
      /\ forallb entry_schema msgs = true)
  \/ (exists error,
         outcome = failed_outcome (Py.strip username) error
         /\ (writes = []
             \/ exists msgs today raised,
                  writes = [artifact_write username today msgs raised]
                  /\ forallb entry_schema msgs = true)).

(** The outcome of a username in a batch in which nothing fails but the
    fetch of the chats that do not exist. *)
Definition outcome_matches (available : string -> bool) (username : string)
    (outcome : value) : Prop :=
  if available (Py.strip username)
  then exists count url,
         outcome = success_outcome (Py.strip username) (VInt count) url
  else outcome = failed_outcome (Py.strip username)
                   ("Chat '" ++ Py.strip username
                    ++ "' not found or inaccessible.").

(** The last line [cmd.py] logs for a username in such a batch. *)
Definition report_matches (available : string -> bool) (username : string)
    (report : event) : Prop :=
  if available username
  then exists url,
         report = Log INFO ("Messages for '" ++ username
                            ++ "' uploaded to S3: " ++ url)
  else report = Log ERROR ("Failed to process '" ++ username
                           ++ "': Chat '" ++ username
                           ++ "' not found or inaccessible.").

(** The trace of a loop of [cmd.py]: for each username what its turn
    did, and then its report. *)
Definition turns_trace (turns : list (list event * event)) : list event :=
  List.concat (map (fun turn => (fst turn ++ [snd turn])%list) turns).

(** A computation only adds to the trace, and what it adds writes no
    file. *)
Definition quiet {A} (c : M A) : Prop :=
  forall tr res tr',
    c tr = (res, tr') ->
    exists new, tr' = (tr ++ new)%list /\ filter is_write new = [].

Definition starts_with (c : ascii) (s : string) : bool :=
  match s with
  | String a _ => Ascii.eqb a c
  | EmptyString => false
  end.

(** The text an outcome records for an exception caught in the loop of
    [api.py]: the detail of an [HTTPException], [str] of anything else. *)
Definition outcome_error (e : exn) : string :=
  match e with
  | HTTPException _ detail => detail
  | _ => str e
  end.

(** The list [msgs] is what the window [(f, t)] keeps of [stream]: it
    is the stream filtered message by message; every entry comes from a
    message whose UTC date is in the window, every message with a text
    whose UTC date is in the window has its entry, with both bounds
    every date lies between them, and without bounds every message with
    a timestamp and a text has its entry. *)
Definition window_respected (f t : option Datetime.datetime)
    (stream : list Message) (msgs : list value) : Prop :=
  msgs = map entry_of (filter (passes f t) stream)
  /\ (forall e, In e msgs ->
        exists m d, In m stream /\ utc_date m = Some d /\ e = entry_of m
                    /\ in_window f t d = true /\ window_holds f t d)
  /\ (forall m d x, In m stream -> utc_date m = Some d -> text m = Some x ->
        x <> "" -> window_holds f t d -> In (entry_of m) msgs)
  /\ (forall x y, f = Some x -> t = Some y ->
        forall e, In e msgs ->
          exists m d, In m stream /\ utc_date m = Some d /\ e = entry_of m
                      /\ date_leq (Datetime.dt_date x) d
                      /\ date_leq d (Datetime.dt_date y))
  /\ (f = None -> t = None ->
        forall m x, In m stream -> date m <> None -> text m = Some x ->
          x <> "" -> In (entry_of m) msgs).

(** The list [msgs] is the result of reading [stream] to its end: every
    message that passes the filters has its entry, wherever it stands,
    also right after a message outside the window; at whatever point the
    stream is cut in two, the result goes on with what passes in the
    second part; and there are as many entries as messages that pass. *)
Definition scanned (f t : option Datetime.datetime)
    (stream : list Message) (msgs : list value) : Prop :=
  (forall pre m post,
      stream = (pre ++ m :: post)%list ->
      passes f t m = true -> In (entry_of m) msgs)
  /\ (forall pre out d m post,
        stream = (pre ++ out :: m :: post)%list ->
        utc_date out = Some d -> in_window f t d = false ->
        passes f t m = true -> In (entry_of m) msgs)
  /\ (forall pre post,
        stream = (pre ++ post)%list ->
        msgs = (map entry_of (filter (passes f t) pre)
                ++ map entry_of (filter (passes f t) post))%list)
  /\ List.length msgs = List.length (filter (passes f t) stream).

(** The list [msgs] holds the messages of [stream] with a text whose UTC
    date is [day], and no other. *)
Definition only_that_day (day : Datetime.date) (stream : list Message)
    (msgs : list value) : Prop :=
  (forall e, In e msgs ->
     exists m, In m stream /\ utc_date m = Some day /\ e = entry_of m)
  /\ (forall m txt, In m stream -> utc_date m = Some day ->
        text m = Some txt -> txt <> "" -> In (entry_of m) msgs).

(** Both programs return from a fetch started in trace [tr], with the
    same messages [msgs], which satisfy [P]. *)
Definition both_fetch (env : Env) (u tok : string)
    (f t : option Datetime.datetime) (tr : trace)
    (P : list value -> Prop) : Prop :=
  exists msgs tr',
    Api.download_chat_messages env u tok f t tr
    = (inr (fetch_result tok msgs), tr')
    /\ Cmd.download_chat_messages env u f t tr = (inr (VList msgs), tr')
    /\ P msgs.

(** The calls of a piece of trace that raised, in their order, each with
    its exception. *)
Definition raised_calls (new : list event) : list (call * exn) :=
  flat_map (fun ev =>
              match ev with
              | Call c (Some e) => [(c, e)]
              | _ => []
              end) new.

(** The detail of the [HTTPException] that [download_chat_messages] of
    [api.py] makes of the exception [e] raised while it talks to
    Telegram. *)
Definition fetch_error (username : string) (e : exn) : string :=
  match e with
  | ChatInvalidError _ =>
      "Chat '" ++ username ++ "' not found or inaccessible."
  | _ => "Error downloading messages: " ++ str e
  end.

(** The error a failed outcome of [api.py] holds when the call [c] of
    the turn of [username] raised [e]: the detail of the [HTTPException]
    that the fetch or the upload made of [e], and otherwise the detail
    of [e] when it is an [HTTPException] and [str(e)] when it is not. *)
Definition recorded_error (username : string) (c : call) (e : exn)
  : string :=
  match c with
  | ClientStart | IterMessages _ => fetch_error username e
  | UploadFile _ _ _ => "Failed to upload file to S3: " ++ str e
  | _ => outcome_error e
  end.

(** What one turn of the loop of [api.py] records for [username], given
    the events [new] of the turn: a success when no call raised; when a
    call raised, a failure with the text of its exception; and a failure
    with the text of the [OverflowError] when a timestamp of the stream
    cannot be brought to UTC. *)
Definition turn_recorded (env : Env) (username : string) (outcome : value)
    (new : list event) : Prop :=
  (raised_calls new = []
   /\ exists count url,
        outcome = success_outcome (Py.strip username) (VInt count) url)
  \/ (exists c e,
         raised_calls new = [(c, e)]
         /\ outcome = failed_outcome (Py.strip username)
                        (recorded_error (Py.strip username) c e))
  \/ (exists tr0 m,
         In m (fst (iter_messages env tr0 (Py.strip username)))
         /\ converts m = false
         /\ outcome = failed_outcome (Py.strip username)
                        "Error downloading messages: date value out of range").

(** The text [cmd.py] logs when the call [c] of the turn of [username]
    raised [e]: its fetch turns the exception of a missing chat into a
    [ValueError] and lets every other exception through, as its upload
    does. *)
Definition cli_error (username : string) (c : call) (e : exn) : string :=
  match c, e with
  | (ClientStart | IterMessages _), ChatInvalidError _ =>
      "Chat '" ++ username ++ "' not found or inaccessible."
  | _, _ => str e
  end.

(** What one turn of the loop of [cmd.py] leaves for [username]: its
    events end with the line that reports the upload when no call
    raised, and with the line that reports the failure, with the text of
    the exception, otherwise. *)
Definition turn_reported (env : Env) (username : string)
    (new : list event) : Prop :=
  exists did report,
    new = (did ++ [report])%list
    /\ ((raised_calls new = []
         /\ exists url,
              report = Log INFO ("Messages for '" ++ username
                                 ++ "' uploaded to S3: " ++ url))
        \/ (exists c e,
               raised_calls new = [(c, e)]
               /\ report = Log ERROR ("Failed to process '" ++ username
                                      ++ "': " ++ cli_error username c e))
        \/ (exists tr0 m,
               In m (fst (iter_messages env tr0 username))
               /\ converts m = false
               /\ report = Log ERROR ("Failed to process '" ++ username
                                      ++ "': date value out of range"))).

(** ** Patterns of digits *)

(** The pieces of a pattern: [Digits n] stands for [n] decimal
    digits, [Lit c] for the character [c]. *)
Inductive token := Digits (n : nat) | Lit (c : ascii).

(** [n] digits at the start of [s]: what follows them. *)
Fixpoint take_digits (n : nat) (s : string) : option string :=
  match n with
  | O => Some s
  | S k =>
      match s with
      | String c rest => if Py.isdigit c then take_digits k rest else None
      | EmptyString => None
      end
  end.

(** The pattern at the start of [s]: what follows it. *)
Fixpoint scan (pattern : list token) (s : string) : option string :=
  match pattern with
  | [] => Some s
  | Digits n :: rest =>
      match take_digits n s with
      | Some s' => scan rest s'
      | None => None
      end
  | Lit c :: rest =>
      match Datetime.expect c s with
      | Some s' => scan rest s'
      | None => None
      end
  end.

Fixpoint all_digits (s : string) : bool :=
  match s with
  | String c rest => Py.isdigit c && all_digits rest
  | EmptyString => true
  end.

(** [s] without the digits it starts with. *)
Fixpoint drop_digits (s : string) : string :=
  match s with
  | String c rest => if Py.isdigit c then drop_digits rest else s
  | EmptyString => EmptyString
  end.

(** The decimal fraction of the seconds, when there is one: a dot and
    one digit or more. *)
Definition skip_fraction (s : string) : option string :=
  match s with
  | String c rest =>
      if Ascii.eqb c "." then
        match rest with
        | String d rest' =>
            if Py.isdigit d then Some (drop_digits rest') else None
        | EmptyString => None
        end
      else Some s
  | EmptyString => Some s
  end.

(** The offset from UTC: [Z], or a sign, two digits of hours, a colon
    and two digits of minutes. *)
Definition is_offset (s : string) : bool :=
  String.eqb s "Z"
  || match s with
     | String c rest =>
         (Ascii.eqb c "+" || Ascii.eqb c "-")
         && match scan [Digits 2; Lit ":"; Digits 2] rest with
            | Some EmptyString => true
            | _ => false
            end
     | EmptyString => false
     end.

(** A date and time of ISO 8601, in the extended format and with its
    offset from UTC: [YYYY-MM-DDThh:mm:ss], a decimal fraction of the
    seconds or none, and [Z] or [+hh:mm] or [-hh:mm]. *)
Definition iso8601 (s : string) : bool :=
  match scan [Digits 4; Lit "-"; Digits 2; Lit "-"; Digits 2; Lit "T";
              Digits 2; Lit ":"; Digits 2; Lit ":"; Digits 2] s with
  | Some rest =>
      match skip_fraction rest with
      | Some zone => is_offset zone
      | None => false
      end
  | None => false
  end.

(** What the constructors of [datetime] and of its [tzinfo] check of a
    timestamp, with an offset from UTC of whole minutes. *)
Definition well_formed (d : Datetime.datetime) : bool :=
  Datetime.valid_date (Datetime.dt_date d)
  && (0 <=? Datetime.hour d) && (Datetime.hour d <? 24)
  && (0 <=? Datetime.minute d) && (Datetime.minute d <? 60)
  && (0 <=? Datetime.second d) && (Datetime.second d <? 60)
  && (0 <=? Datetime.microsecond d) && (Datetime.microsecond d <? 1000000)
  && (Z.abs (Datetime.utcoffset d) <? Datetime.US_PER_DAY)
  && (Z.abs (Datetime.utcoffset d) mod (60 * Datetime.US_PER_SECOND) =? 0).

(** The number [n] padded to [width] digits is [width] digits. *)
Definition pads_to (width : nat) (n : nat) : bool :=
  match take_digits width (Py.pad width (Z.of_nat n)) with
  | Some EmptyString => true
  | _ => false
  end.

(** ** The text of a serialized result *)

(** A key or a text between double quotes. *)
Definition quoted (s : string) : string :=
  String Py.dquote (s ++ String Py.dquote "").

(** A new line and its indentation. *)
Definition line (spaces : string) : string := String Py.newline spaces.

(** [null] or the digits of an integer. *)
Definition opt_int_text (n : option Z) : string :=
  match n with
  | Some k => Py.str_of_int k
  | None => "null"
  end.

(** The text of the entry of a message: the four keys in the order of
    the schema, one on each line, indented by [inner]; the closing brace
    is indented by [outer]. *)
Definition entry_text (inner outer : string) (m : Message)
    (d : Datetime.datetime) (x : string) : string :=
  "{"
  ++ line inner ++ quoted "date" ++ ": "
  ++ Json.encode_basestring_ascii (Datetime.isoformat d) ++ ","
  ++ line inner ++ quoted "sender_id" ++ ": "
  ++ opt_int_text (sender_id m) ++ ","
  ++ line inner ++ quoted "message" ++ ": "
  ++ Json.encode_basestring_ascii x ++ ","
  ++ line inner ++ quoted "message_id" ++ ": " ++ Py.str_of_int (id m)
  ++ line outer ++ "}".

(** The text of a list: closed when it is empty, and otherwise one item
    on each line, indented by [inner], with a comma after each but the
    last; the closing bracket is indented by [outer]. *)
Definition list_text (inner outer : string) (items : list string) : string :=
  match items with
  | [] => "[]"
  | _ =>
      "[" ++ line inner ++ Json.join ("," ++ line inner) items
      ++ line outer ++ "]"
  end.

(** The text of a [FetchResult]: the three keys in the order of the
    schema, indented by four spaces, and the messages indented by
    eight. *)
Definition result_text (token_name : string) (messages : list value)
  : string :=
  "{"
  ++ line "    " ++ quoted "token_name" ++ ": "
  ++ Json.encode_basestring_ascii token_name ++ ","
  ++ line "    " ++ quoted "message_count" ++ ": "
  ++ Py.str_of_int (Z.of_nat (List.length messages)) ++ ","
  ++ line "    " ++ quoted "messages" ++ ": "
  ++ list_text "        " "    " (map (Json.iterencode 4 2) messages)
  ++ line "" ++ "}".

(** A value is the entry of a message. *)
Definition is_entry (e : value) : Prop :=
  exists m d x, e = message_entry m d x.

(* ===================================================================== *)
(** * A concrete world for running the program *)
(* ===================================================================== *)

Module Demo.

Definition utc (y m d h mi : Z) : Datetime.datetime :=
  Datetime.mkdt (Datetime.mkdate y m d) h mi 0 0 0.

(** The stream of the end-to-end scenario of the specification, with a
    message without a timestamp and a message stamped in another zone
    added: the message before the window comes first. *)
Definition stream : list Message :=
  [ mkMessage 11 (Some (utc 2023 12 31 23 0)) (Some "old") (Some 7);
    mkMessage 12 (Some (utc 2024 1 1 8 0)) (Some "hi") (Some 7);
    mkMessage 13 (Some (utc 2024 1 1 9 0)) (Some "") None;
    mkMessage 14 None (Some "undated") (Some 8);
    mkMessage 15 (Some (utc 2024 1 2 10 0)) (Some "late") None;
    mkMessage 16 (Some (Datetime.mkdt (Datetime.mkdate 2024 1 2) 1 30 0 0
                          (7200 * Datetime.US_PER_SECOND)))
                 (Some "evening") (Some 9);
    mkMessage 17 (Some (utc 2024 1 1 12 0)) None (Some 9) ].

(** A world in which everything works, with the chats [chats]. *)
Definition world (chats : string -> list Message * option exn) : Env :=
  {| AWS_REGION := Some "us-west-2";
     S3_BUCKET_NAME := Some "bucket";
     is_connected := fun tr => existsb is_start tr;
     client_start := fun _ => None;
     iter_messages := fun _ u => chats u;
     boto3_client := fun _ => None;
     head_bucket := fun _ _ => None;
     create_bucket := fun _ _ => None;
     upload_file := fun _ _ _ _ => None;
     write_file := fun _ _ _ => None;
     read_file := fun _ _ => inr ("A" ++ String Py.newline
                                  ("B" ++ String Py.newline
                                   ("C" ++ String Py.newline "")));
     now := fun _ => utc 2024 1 3 0 1;
     now_pacific := fun _ => utc 2024 1 2 0 1 |}.

(** Every chat has the stream [stream], except that chat ["B"] does not
    exist. *)
Definition env : Env :=
  world (fun u =>
           if String.eqb u "B"
           then ([], Some (ChatInvalidError "Invalid object ID for a chat"))
           else (stream, None)).

(** The end-to-end scenario of the specification. *)
Definition scenario : list Message :=
  [ mkMessage 1 (Some (utc 2023 12 31 10 0)) (Some "before") (Some 5);
    mkMessage 2 (Some (utc 2024 1 1 8 0)) (Some "hi") (Some 5);
    mkMessage 3 (Some (utc 2024 1 1 9 0)) (Some "") (Some 5) ].

Definition scenario_env : Env := world (fun _ => (scenario, None)).

Definition day (y m d : Z) : option Datetime.datetime :=
  Some (utc y m d 0 0).

(** The upload: three identifiers, one on each line. *)
Definition listing : string :=
  "A" ++ String Py.newline ("B" ++ String Py.newline "C").

(** The chats that exist. *)
Definition available (u : string) : bool := negb (String.eqb u "B").

(** What the one-day window 2024-01-01 keeps of [stream]. *)
Definition kept : list value :=
  [ VDict [ ("date", VStr "2024-01-01T08:00:00+00:00");
            ("sender_id", VInt 7); ("message", VStr "hi");
            ("message_id", VInt 12) ];
    VDict [ ("date", VStr "2024-01-02T01:30:00+02:00");
            ("sender_id", VInt 9); ("message", VStr "evening");
            ("message_id", VInt 16) ] ].

End Demo.

(** A world in which more than a missing chat fails. *)
Module Faults.

(** The world [Demo.env], except that the upload of the artifact of chat
    ["A"] is refused and the artifact of chat ["C"] cannot be written. *)
Definition env : Env :=
  {| AWS_REGION := AWS_REGION Demo.env;
     S3_BUCKET_NAME := S3_BUCKET_NAME Demo.env;
     is_connected := is_connected Demo.env;
     client_start := client_start Demo.env;
     iter_messages := iter_messages Demo.env;
     boto3_client := boto3_client Demo.env;
     head_bucket := head_bucket Demo.env;
     create_bucket := create_bucket Demo.env;
     upload_file := fun _ file_path _ _ =>
                      if String.eqb file_path "telegram_A_2024_01_03.json"
                      then Some (ClientError "Access Denied")
                      else None;
     write_file := fun _ filename _ =>
                     if String.eqb filename "telegram_C_2024_01_03.json"
                     then Some (OtherException "No space left on device")
                     else None;
     read_file := read_file Demo.env;
     now := now Demo.env;
     now_pacific := now_pacific Demo.env |}.

End Faults.

(* ===================================================================== *)
(** * The vocabulary of the further properties *)
(* ===================================================================== *)

(** The calls of a piece of trace, in their order, without what they
    raised and without the log lines. *)
Definition calls (new : list event) : list call :=
  flat_map (fun ev => match ev with Call c _ => [c] | _ => [] end) new.

(** The usernames whose stream was opened, in the order of the calls. *)
Definition fetched (new : list event) : list string :=
  flat_map (fun ev =>
              match ev with
              | Call (IterMessages u) _ => [u]
              | _ => []
              end) new.

(** The calls on behalf of one channel: Telegram, the artifact, its
    upload. *)
Definition is_channel_call (ev : event) : bool :=
  match ev with
  | Call ClientStart _ | Call (IterMessages _) _ | Call (WriteFile _ _) _
  | Call (UploadFile _ _ _) _ => true
  | _ => false
  end.

(** The calls to the file system and to S3. *)
Definition is_storage_call (ev : event) : bool :=
  match ev with
  | Call (WriteFile _ _) _ | Call (ReadFile _) _ | Call Boto3Client _
  | Call (HeadBucket _) _ | Call (CreateBucket _) _
  | Call (UploadFile _ _ _) _ => true
  | _ => false
  end.

Definition storage_events (new : list event) : list event :=
  filter is_storage_call new.

(** A computation only adds to the trace, and adds no event of the kind
    [p]. *)
Definition avoids {A} (p : event -> bool) (c : M A) : Prop :=
  forall tr res tr',
    c tr = (res, tr') ->
    exists new, tr' = (tr ++ new)%list /\ filter p new = [].

(** [l] is [l'] with some elements left out. *)
Inductive subseq {A} : list A -> list A -> Prop :=
| subseq_nil : subseq [] []
| subseq_skip (x : A) (l l' : list A) : subseq l l' -> subseq l (x :: l')
| subseq_keep (x : A) (l l' : list A) : subseq l l' -> subseq (x :: l) (x :: l').

(** What one turn of the loop of [api.py] does to the file system and to
    S3, with the outcome it records: the fetch fails and nothing is
    touched; or the write of the artifact fails; or the S3 client cannot
    be built; or the upload fails; or everything succeeds. *)
Definition turn_storage (env : Env) (bucket : option string)
    (username : string) (outcome : value) (events : list event) : Prop :=
  (events = []
   /\ exists error, outcome = failed_outcome (Py.strip username) error)
  \/ exists today content,
       let name := Api.artifact_name username today in
       (exists e,
           events = [Call (WriteFile name content) (Some e)]
           /\ outcome = failed_outcome (Py.strip username) (outcome_error e))
       \/ (exists e,
             events = [ Call (WriteFile name content) None;
                        Call Boto3Client (Some e) ]
             /\ outcome = failed_outcome (Py.strip username) (outcome_error e))
       \/ (exists e,
             events = [ Call (WriteFile name content) None;
                        Call Boto3Client None;
                        Call (UploadFile name bucket name) (Some e) ]
             /\ outcome = failed_outcome (Py.strip username)
                            ("Failed to upload file to S3: " ++ str e))
       \/ (exists count,
             events = [ Call (WriteFile name content) None;
                        Call Boto3Client None;
                        Call (UploadFile name bucket name) None ]
             /\ outcome = success_outcome (Py.strip username) (VInt count)
                            (s3_url env bucket name)).

Definition is_success (outcome : value) : bool :=
  match lookup "status" outcome with
  | Some (VStr s) => String.eqb s "success"
  | _ => false
  end.

(** An upload that did not raise. *)
Definition is_upload_done (ev : event) : bool :=
  match ev with
  | Call (UploadFile _ _ _) None => true
  | _ => false
  end.

(** The year [n], written as [%Y] of [strftime] writes it, is read back
    by [%Y] of [strptime]. *)
Definition year_reads_back (n : nat) : bool :=
  match Datetime.match_Y (Py.str_of_int (Z.of_nat n)) with
  | Some (v, EmptyString) => v =? Z.of_nat n
  | _ => false
  end.

(** The year [n] is written on fewer than four digits. *)
Definition year_is_short (n : nat) : bool :=
  (String.length (Py.str_of_int (Z.of_nat n)) <=? 3)%nat.

(** The window [(f', t')] contains the window [(f, t)]. *)
Definition wider (f' t' f t : option Datetime.datetime) : Prop :=
  (f' = None
   \/ exists x' x, f' = Some x' /\ f = Some x
                   /\ date_leq (Datetime.dt_date x') (Datetime.dt_date x))
  /\ (t' = None
      \/ exists y' y, t' = Some y' /\ t = Some y
                      /\ date_leq (Datetime.dt_date y) (Datetime.dt_date y')).

(** The characters [json.dumps] leaves in a text by default: the
    printable ASCII characters and the line feed of the indentation. *)
Definition is_plain (c : ascii) : bool :=
  let n := nat_of_ascii c in
  ((32 <=? n) && (n <=? 126))%nat || (n =? 10)%nat.

Fixpoint all_plain (s : string) : bool :=
  match s with
  | EmptyString => true
  | String c rest => is_plain c && all_plain rest
  end.

(** The exception [cause] stops the request of the endpoint, started in
    trace [tr], before its loop: it is what [parse_date] raises for
    [from_date], or for [to_date], or what reading the upload raises, or
    what [create_s3_bucket] raises, in this order. *)
Definition batch_failure (env : Env) (file : exn + string)
    (from_date to_date : option string) (tr : trace) (cause : exn) : Prop :=
  Api.parse_optional from_date = inl cause
  \/ ((exists f, Api.parse_optional from_date = inr f)
      /\ (Api.parse_optional to_date = inl cause
          \/ ((exists t, Api.parse_optional to_date = inr t)
              /\ (file = inl cause
                  \/ ((exists content, file = inr content)
                      /\ exists tr1,
                           Api.create_s3_bucket env (S3_BUCKET_NAME env) tr
                           = (inl cause, tr1)))))).

(* ===================================================================== *)
(** * The shutdown handlers *)
(* ===================================================================== *)

(** [shutdown_event] of [api.py] and of [api_time.py].  What the handlers
    do is a list of actions; the body of their [try] returns the actions
    it got to and the exception that stopped it, if any. *)
Module Lifecycle.

Inductive action :=
| Disconnect (raised : option exn)           (* client.disconnect() *)
| SchedulerShutdown (raised : option exn)    (* scheduler.shutdown() *)
| Logged (lvl : level) (msg : string).

(** The client and the scheduler when the application shuts down. *)
Record Handles := mkHandles {
  connected : bool;                   (* client.is_connected() *)
  disconnect : option exn;            (* what client.disconnect() raises *)
  scheduler_shutdown : option exn     (* what scheduler.shutdown() raises *)
}.

Definition body (A : Type) : Type := list action * (exn + A).

Definition done {A} (a : A) : body A := ([], inr a).

Definition seq {A B} (c : body A) (k : A -> body B) : body B :=
  match c with
  | (acts, inr a) => let (acts', r) := k a in ((acts ++ acts')%list, r)
  | (acts, inl e) => (acts, inl e)
  end.

Definition act (a : option exn -> action) (raised : option exn) : body unit :=
  ([a raised], match raised with Some e => inl e | None => inr tt end).

Definition info (msg : string) : body unit := ([Logged INFO msg], inr tt).

(** [try: c except Exception as e: logger.error(f"{prefix}{e}")] *)
Definition guarded (c : body unit) (prefix : string) : list action :=
  match c with
  | (acts, inr _) => acts
  | (acts, inl e) => (acts ++ [Logged ERROR (prefix ++ str e)])%list
  end.

(** [if client.is_connected(): await client.disconnect(); logger.info(...)] *)
Definition disconnect_client (h : Handles) : body unit :=
  if connected h then
    seq (act Disconnect (disconnect h))
        (fun _ => info "Telegram client disconnected.")
  else done tt.

(** [api.py], lines 298 to 308. *)
Definition api_shutdown_event (h : Handles) : list action :=
  guarded (disconnect_client h) "Error during client disconnection: ".

(** [api_time.py], lines 171 to 183. *)
Definition api_time_shutdown_event (h : Handles) : list action :=
  guarded
    (seq (disconnect_client h)
         (fun _ =>
            seq (act SchedulerShutdown (scheduler_shutdown h))
                (fun _ => info "Scheduler shutdown.")))
    "Error during shutdown: ".

Definition is_scheduler_shutdown (a : action) : bool :=
  match a with SchedulerShutdown _ => true | _ => false end.

Definition is_disconnect (a : action) : bool :=
  match a with Disconnect _ => true | _ => false end.

Definition is_error (a : action) : bool :=
  match a with Logged ERROR _ => true | _ => false end.

End Lifecycle.

(* ===================================================================== *)
(** * Tactics *)
(* ===================================================================== *)

Ltac unfold_run :=
  unfold try_except, bind, ret, raise, lift, perform, logger,
    Api.read_stream, Api.end_of_stream in *.

Ltac demo_fetch_returns :=
  left; exists "Token_A"; eexists; vm_compute; reflexivity.

(* ===================================================================== *)
(** * The order on dates *)
(* ===================================================================== *)

Lemma date_le_leq (a b : Datetime.date) :
  Datetime.date_le a b = true <-> date_leq a b.
Proof.
  unfold Datetime.date_le, Datetime.date_lt, date_leq.
  destruct a as [ya ma da], b as [yb mb db]; simpl.
  rewrite negb_true_iff.
  destruct (Z.ltb_spec yb ya), (Z.eqb_spec yb ya), (Z.ltb_spec mb ma),
    (Z.eqb_spec mb ma), (Z.ltb_spec db da); simpl; split; intros;
    try discriminate; try lia; try reflexivity.
Qed.

Lemma date_ge_leq (a b : Datetime.date) :
  Datetime.date_ge a b = true <-> date_leq b a.
Proof. exact (date_le_leq b a). Qed.

Lemma date_leq_refl (a : Datetime.date) : date_leq a a.
Proof. unfold date_leq; lia. Qed.

Lemma date_leq_trans (a b c : Datetime.date) :
  date_leq a b -> date_leq b c -> date_leq a c.
Proof. unfold date_leq; lia. Qed.

Lemma date_leq_total (a b : Datetime.date) : date_leq a b \/ date_leq b a.
Proof. unfold date_leq; lia. Qed.

Lemma date_leq_antisym (a b : Datetime.date) :
  date_leq a b -> date_leq b a -> a = b.
Proof.
  destruct a, b; unfold date_leq; simpl; intros.
  f_equal; lia.
Qed.

(** The two skips of the loop are the negation of the membership test. *)
Lemma window_test (f t : option Datetime.datetime) (d : Datetime.date) :
  in_window f t d = negb (before_from f d) && negb (after_to t d).
Proof.
  unfold in_window, before_from, after_to, Datetime.date_ge, Datetime.date_le,
    Datetime.date_gt.
  destruct f, t; reflexivity.
Qed.

Lemma in_window_leq (f t : option Datetime.datetime) (d : Datetime.date) :
  in_window f t d = true <-> window_holds f t d.
Proof.
  unfold in_window, window_holds. rewrite andb_true_iff.
  destruct f as [x|], t as [y|];
    rewrite ?date_ge_leq, ?date_le_leq; split; intros [H1 H2]; split;
    try reflexivity; try (left; reflexivity);
    try (right; eexists; split; [reflexivity | assumption]).
  all: try (destruct H1 as [H1 | (x' & E & H1)]; [discriminate | congruence]).
  all: try (destruct H2 as [H2 | (y' & E & H2)]; [discriminate | congruence]).
Qed.

(** A timestamp already in UTC, as Telegram gives them, always converts:
    only a shift by an offset can leave the years 1 to 9999. *)
Lemma utc_timestamp_converts (d : Datetime.datetime) :
  Datetime.utcoffset d = 0 ->
  0 <= Datetime.us_of_day d < Datetime.US_PER_DAY ->
  1 <= Datetime.ymd2ord (Datetime.dt_date d) <= Datetime.MAXORDINAL ->
  exists u,
    Datetime.astimezone_utc d = Some u
    /\ Datetime.dt_date u
       = Datetime.ord2ymd (Datetime.ymd2ord (Datetime.dt_date d)).
Proof.
  intros Hoff Hus Hord. unfold Datetime.astimezone_utc.
  rewrite Hoff, Z.sub_0_r.
  assert (Hq : (Datetime.ymd2ord (Datetime.dt_date d) * Datetime.US_PER_DAY
                + Datetime.us_of_day d) / Datetime.US_PER_DAY
               = Datetime.ymd2ord (Datetime.dt_date d)).
  { symmetry. apply (Z.div_unique _ _ _ (Datetime.us_of_day d)); lia. }
  rewrite Hq.
  destruct (Z.leb_spec 1 (Datetime.ymd2ord (Datetime.dt_date d))); [|lia].
  destruct (Z.leb_spec (Datetime.ymd2ord (Datetime.dt_date d))
              Datetime.MAXORDINAL); [|lia].
  simpl. eexists. split; reflexivity.
Qed.

(* ===================================================================== *)
(** * The loop over the stream *)
(* ===================================================================== *)

Lemma passes_inv (f t : option Datetime.datetime) (m : Message) :
  passes f t m = true ->
  exists d u x,
    date m = Some d /\ Datetime.astimezone_utc d = Some u
    /\ in_window f t (Datetime.dt_date u) = true
    /\ text m = Some x /\ x <> "" /\ entry_of m = message_entry m d x.
Proof.
  unfold passes, utc_date, entry_of.
  destruct (date m) as [d|]; [|discriminate].
  destruct (Datetime.astimezone_utc d) as [u|] eqn:Hu; [|discriminate]. simpl.
  rewrite andb_true_iff. intros [Hw Ht].
  destruct (text m) as [x|]; [|discriminate].
  exists d, u, x.
  assert (x <> "") by (intros E; rewrite E in Ht; discriminate).
  repeat (split; [solve [auto] |]). reflexivity.
Qed.

(** One turn of the loop: a message whose timestamp converts is appended
    when it passes the filters and skipped otherwise. *)
Lemma message_loop_cons (f t : option Datetime.datetime) (m : Message)
    (rest : list Message) (acc : list value) :
  converts m = true ->
  message_loop f t (m :: rest) acc
  = message_loop f t rest
      (if passes f t m then (acc ++ [entry_of m])%list else acc).
Proof.
  unfold converts, passes, utc_date, entry_of. simpl.
  destruct (date m) as [d|]; [|reflexivity].
  destruct (Datetime.astimezone_utc d) as [u|]; [|discriminate].
  intros _. simpl. rewrite window_test.
  destruct (before_from f (Datetime.dt_date u)); [reflexivity|].
  destruct (after_to t (Datetime.dt_date u)); [reflexivity|].
  simpl. destruct (text m) as [x|]; [|reflexivity].
  simpl. destruct (Py.str_truthy x); reflexivity.
Qed.

Lemma message_loop_overflow (f t : option Datetime.datetime) (m : Message)
    (rest : list Message) (acc : list value) :
  converts m = false ->
  message_loop f t (m :: rest) acc
  = inl (OverflowError "date value out of range").
Proof.
  unfold converts. simpl.
  destruct (date m) as [d|]; [|discriminate].
  destruct (Datetime.astimezone_utc d); [discriminate | reflexivity].
Qed.

(** The loop is total on streams whose timestamps convert, and what it
    returns is the filtered stream, appended to what it started from. *)
Lemma message_loop_total (f t : option Datetime.datetime)
    (stream : list Message) :
  forall acc,
    forallb converts stream = true ->
    message_loop f t stream acc
    = inr (acc ++ map entry_of (filter (passes f t) stream))%list.
Proof.
  induction stream as [|m rest IH]; intros acc H.
  - simpl. now rewrite app_nil_r.
  - simpl in H. apply andb_true_iff in H as [Hm Hr].
    rewrite message_loop_cons by exact Hm.
    rewrite IH by exact Hr. simpl.
    destruct (passes f t m); [|reflexivity].
    simpl. now rewrite <- app_assoc.
Qed.

Lemma message_loop_returns (f t : option Datetime.datetime)
    (stream : list Message) :
  forall acc msgs,
    message_loop f t stream acc = inr msgs ->
    forallb converts stream = true.
Proof.
  induction stream as [|m rest IH]; intros acc msgs H; [reflexivity|].
  simpl. destruct (converts m) eqn:Hm.
  - rewrite message_loop_cons in H by exact Hm. simpl. eauto.
  - rewrite message_loop_overflow in H by exact Hm. discriminate.
Qed.

Lemma message_loop_inv (f t : option Datetime.datetime)
    (stream : list Message) (msgs : list value) :
  message_loop f t stream [] = inr msgs ->
  msgs = map entry_of (filter (passes f t) stream).
Proof.
  intros H. pose proof (message_loop_returns _ _ _ _ _ H) as Hc.
  rewrite message_loop_total in H by exact Hc. simpl in H. congruence.
Qed.

(* ===================================================================== *)
(** * The fetch: [download_chat_messages] *)
(* ===================================================================== *)

(** What the body of the [try] of a fetch does, up to the last message:
    the trace when the stream is opened, or the exception of the start. *)
Lemma api_download_inv (env : Env) (u tok : string)
    (f t : option Datetime.datetime) (tr tr' : trace) (r : value) :
  Api.download_chat_messages env u tok f t tr = (inr r, tr') ->
  (is_connected env tr = true \/ client_start env tr = None)
  /\ snd (iter_messages env (trace_at_stream env tr) u) = None
  /\ forallb converts (stream_of env tr u) = true
  /\ r = fetch_result tok (map entry_of (filter (passes f t) (stream_of env tr u)))
  /\ tr' = (trace_at_stream env tr ++ [Call (IterMessages u) None])%list.
Proof.
  unfold Api.download_chat_messages, stream_of, trace_at_stream. unfold_run.
  destruct (is_connected env tr) eqn:Hc; simpl.
  - destruct (iter_messages env tr u) as [items failure] eqn:Hs; simpl.
    destruct (message_loop f t items []) as [e|msgs] eqn:Hl.
    + destruct e; intros H; inversion H.
    + destruct failure as [e|]; [destruct e; intros H; inversion H|].
      intros H; inversion H; subst.
      pose proof (message_loop_returns _ _ _ _ _ Hl).
      apply message_loop_inv in Hl. subst. auto 10.
  - destruct (client_start env tr) as [e|] eqn:Hst.
    + destruct e; intros H; inversion H.
    + destruct (iter_messages env (tr ++ [Call ClientStart None])%list u)
        as [items failure] eqn:Hs; simpl.
      destruct (message_loop f t items []) as [e|msgs] eqn:Hl.
      * destruct e; intros H; inversion H.
      * destruct failure as [e|]; [destruct e; intros H; inversion H|].
        intros H; inversion H; subst.
        pose proof (message_loop_returns _ _ _ _ _ Hl).
        apply message_loop_inv in Hl. subst. auto 10.
Qed.

(** A fetch returns when the client is or gets connected, the stream ends
    without an exception and every timestamp converts. *)
Lemma api_download_total (env : Env) (u tok : string)
    (f t : option Datetime.datetime) (tr : trace) :
  (is_connected env tr = true \/ client_start env tr = None) ->
  snd (iter_messages env (trace_at_stream env tr) u) = None ->
  forallb converts (stream_of env tr u) = true ->
  Api.download_chat_messages env u tok f t tr
  = (inr (fetch_result tok
            (map entry_of (filter (passes f t) (stream_of env tr u)))),
     (trace_at_stream env tr ++ [Call (IterMessages u) None])%list).
Proof.
  unfold Api.download_chat_messages, stream_of, trace_at_stream. unfold_run.
  intros Hc Hf Hv.
  destruct (is_connected env tr) eqn:Ec; simpl.
  - destruct (iter_messages env tr u) as [items failure]; simpl in *.
    rewrite (message_loop_total _ _ _ _ Hv). subst failure. reflexivity.
  - destruct Hc as [Hc|Hc]; [discriminate|]. rewrite Hc.
    destruct (iter_messages env (tr ++ [Call ClientStart None])%list u)
      as [items failure]; simpl in *.
    rewrite (message_loop_total _ _ _ _ Hv). subst failure. reflexivity.
Qed.

(** A fetch of [api.py] that fails raises an [HTTPException], and only
    adds to the trace. *)
Lemma api_download_raises (env : Env) (u tok : string)
    (f t : option Datetime.datetime) (tr tr' : trace) (e : exn) :
  Api.download_chat_messages env u tok f t tr = (inl e, tr') ->
  exists code detail, e = HTTPException code detail.
Proof.
  unfold Api.download_chat_messages. unfold_run.
  destruct (is_connected env tr); simpl;
    [| destruct (client_start env tr) as [e0|];
       [destruct e0; intros H; inversion H; eauto|] ];
    match goal with
    | |- context [iter_messages env ?x u] =>
        destruct (iter_messages env x u) as [items failure]; simpl
    end;
    (destruct (message_loop f t items []) as [e0|msgs];
     [destruct e0; intros H; inversion H; eauto|]);
    (destruct failure as [e0|];
     [destruct e0; intros H; inversion H; eauto | intros H; inversion H]).
Qed.

(** The fetch of [cmd.py] reads the stream in the same way and returns
    the bare list. *)
Lemma cmd_download_inv (env : Env) (u : string)
    (f t : option Datetime.datetime) (tr tr' : trace) (r : value) :
  Cmd.download_chat_messages env u f t tr = (inr r, tr') ->
  (is_connected env tr = true \/ client_start env tr = None)
  /\ snd (iter_messages env (trace_at_stream env tr) u) = None
  /\ forallb converts (stream_of env tr u) = true
  /\ r = VList (map entry_of (filter (passes f t) (stream_of env tr u)))
  /\ tr' = (trace_at_stream env tr ++ [Call (IterMessages u) None])%list.
Proof.
  unfold Cmd.download_chat_messages, stream_of, trace_at_stream. unfold_run.
  destruct (is_connected env tr) eqn:Hc; simpl.
  - destruct (iter_messages env tr u) as [items failure] eqn:Hs; simpl.
    destruct (message_loop f t items []) as [e|msgs] eqn:Hl.
    + destruct e; intros H; inversion H.
    + destruct failure as [e|]; [destruct e; intros H; inversion H|].
      intros H; inversion H; subst.
      pose proof (message_loop_returns _ _ _ _ _ Hl).
      apply message_loop_inv in Hl. subst. auto 10.
  - destruct (client_start env tr) as [e|] eqn:Hst.
    + destruct e; intros H; inversion H.
    + destruct (iter_messages env (tr ++ [Call ClientStart None])%list u)
        as [items failure] eqn:Hs; simpl.
      destruct (message_loop f t items []) as [e|msgs] eqn:Hl.
      * destruct e; intros H; inversion H.
      * destruct failure as [e|]; [destruct e; intros H; inversion H|].
        intros H; inversion H; subst.
        pose proof (message_loop_returns _ _ _ _ _ Hl).
        apply message_loop_inv in Hl. subst. auto 10.
Qed.

Lemma cmd_download_total (env : Env) (u : string)
    (f t : option Datetime.datetime) (tr : trace) :
  (is_connected env tr = true \/ client_start env tr = None) ->
  snd (iter_messages env (trace_at_stream env tr) u) = None ->
  forallb converts (stream_of env tr u) = true ->
  Cmd.download_chat_messages env u f t tr
  = (inr (VList (map entry_of (filter (passes f t) (stream_of env tr u)))),
     (trace_at_stream env tr ++ [Call (IterMessages u) None])%list).
Proof.
  unfold Cmd.download_chat_messages, stream_of, trace_at_stream. unfold_run.
  intros Hc Hf Hv.
  destruct (is_connected env tr) eqn:Ec; simpl.
  - destruct (iter_messages env tr u) as [items failure]; simpl in *.
    rewrite (message_loop_total _ _ _ _ Hv). subst failure. reflexivity.
  - destruct Hc as [Hc|Hc]; [discriminate|]. rewrite Hc.
    destruct (iter_messages env (tr ++ [Call ClientStart None])%list u)
      as [items failure]; simpl in *.
    rewrite (message_loop_total _ _ _ _ Hv). subst failure. reflexivity.
Qed.

(** Whatever program made the fetch, what it returns is the filtered
    stream, and every timestamp of the stream converted. *)
Lemma fetch_returns_filter (env : Env) (u : string)
    (f t : option Datetime.datetime) (tr : trace) (msgs : list value) :
  fetch_returns env u f t tr msgs ->
  forallb converts (stream_of env tr u) = true
  /\ msgs = map entry_of (filter (passes f t) (stream_of env tr u)).
Proof.
  intros [(tok & tr' & H) | (tr' & H)].
  - apply api_download_inv in H as (_ & _ & Hv & Hr & _).
    split; [exact Hv|]. unfold fetch_result in Hr. congruence.
  - apply cmd_download_inv in H as (_ & _ & Hv & Hr & _).
    split; [exact Hv|]. congruence.
Qed.

(** Both programs return from a fetch on a source that does not fail. *)
Lemma fetch_returns_total (env : Env) (u tok : string)
    (f t : option Datetime.datetime) (tr : trace) :
  (is_connected env tr = true \/ client_start env tr = None) ->
  snd (iter_messages env (trace_at_stream env tr) u) = None ->
  forallb converts (stream_of env tr u) = true ->
  let msgs := map entry_of (filter (passes f t) (stream_of env tr u)) in
  let tr' := (trace_at_stream env tr ++ [Call (IterMessages u) None])%list in
  Api.download_chat_messages env u tok f t tr = (inr (fetch_result tok msgs), tr')
  /\ Cmd.download_chat_messages env u f t tr = (inr (VList msgs), tr').
Proof.
  intros Hc Hf Hv. split.
  - now apply api_download_total.
  - now apply cmd_download_total.
Qed.

Lemma passes_iff (f t : option Datetime.datetime) (m : Message) :
  passes f t m = true <->
  exists d x, utc_date m = Some d /\ window_holds f t d
              /\ text m = Some x /\ x <> "".
Proof.
  unfold passes. split.
  - destruct (utc_date m) as [d|]; [|discriminate].
    rewrite andb_true_iff, in_window_leq. intros [Hw Ht].
    destruct (text m) as [x|]; [|discriminate].
    exists d, x. repeat split; try apply Hw.
    intros ->. discriminate.
  - intros (d & x & -> & Hw & -> & Hx).
    apply in_window_leq in Hw. rewrite Hw. simpl.
    destruct x; [contradiction | reflexivity].
Qed.

Lemma in_filtered (f t : option Datetime.datetime) (stream : list Message)
    (e : value) :
  In e (map entry_of (filter (passes f t) stream)) <->
  exists m, In m stream /\ passes f t m = true /\ e = entry_of m.
Proof.
  rewrite in_map_iff. split.
  - intros (m & <- & Hm). apply filter_In in Hm as [Hi Hp]. eauto.
  - intros (m & Hi & Hp & ->). exists m. split; [reflexivity|].
    apply filter_In. auto.
Qed.

(** ** What a fetch returns, program by program *)

Lemma kept_respects_window (f t : option Datetime.datetime)
    (stream : list Message) :
  forallb converts stream = true ->
  window_respected f t stream (map entry_of (filter (passes f t) stream)).
Proof.
  intros Hv.
  assert (Sound : forall e,
             In e (map entry_of (filter (passes f t) stream)) ->
             exists m d, In m stream /\ utc_date m = Some d /\ e = entry_of m
                         /\ in_window f t d = true /\ window_holds f t d).
  { intros e He. apply in_filtered in He as (m & Hi & Hp & ->).
    apply passes_iff in Hp as (d & x & Hd & Hw & _).
    exists m, d. repeat split; auto; try apply Hw.
    now apply in_window_leq. }
  assert (Complete : forall m d x, In m stream -> utc_date m = Some d ->
             text m = Some x -> x <> "" -> window_holds f t d ->
             In (entry_of m) (map entry_of (filter (passes f t) stream))).
  { intros m d x Hi Hd Hx Hne Hw. apply in_filtered. exists m.
    repeat split; auto. apply passes_iff. eauto 10. }
  split; [reflexivity|]. split; [exact Sound|]. split; [exact Complete|]. split.
  - intros x y -> -> e He.
    destruct (Sound e He) as (m & d & Hi & Hd & -> & _ & [Hf Ht]).
    exists m, d. repeat split; auto.
    + destruct Hf as [Hf | (x' & Hf & Hl)]; [discriminate|]. congruence.
    + destruct Ht as [Ht | (y' & Ht & Hl)]; [discriminate|]. congruence.
  - intros -> -> m x Hi Hd Hx Hne.
    assert (Hc : converts m = true).
    { rewrite forallb_forall in Hv. auto. }
    unfold converts in Hc. destruct (date m) as [d|] eqn:Ed; [|congruence].
    destruct (Datetime.astimezone_utc d) as [a|] eqn:Ea; [|discriminate].
    apply (Complete m (Datetime.dt_date a) x); auto.
    + unfold utc_date. now rewrite Ed, Ea.
    + split; left; reflexivity.
Qed.

Lemma kept_scanned (f t : option Datetime.datetime) (stream : list Message) :
  scanned f t stream (map entry_of (filter (passes f t) stream)).
Proof.
  split; [|split; [|split]].
  - intros pre m post E Hp. apply in_filtered. exists m.
    rewrite E. split; [apply in_elt | auto].
  - intros pre out d m post E _ _ Hp. apply in_filtered. exists m.
    rewrite E. split; [|auto].
    apply in_or_app. right. right. left. reflexivity.
  - intros pre post ->. now rewrite filter_app, map_app.
  - apply length_map.
Qed.

(** Whatever holds of the filtered stream holds of what each program
    returns, and both programs return on a source that does not fail. *)
Lemma fetch_by_program (env : Env) (u tok : string)
    (f t : option Datetime.datetime) (tr : trace)
    (P : list value -> Prop) :
  (forallb converts (stream_of env tr u) = true ->
   P (map entry_of (filter (passes f t) (stream_of env tr u)))) ->
  (forall r tr',
      Api.download_chat_messages env u tok f t tr = (inr r, tr') ->
      exists msgs,
        lookup "messages" r = Some (VList msgs)
        /\ lookup "message_count" r = Some (VInt (Z.of_nat (List.length msgs)))
        /\ P msgs)
  /\ (forall r tr',
        Cmd.download_chat_messages env u f t tr = (inr r, tr') ->
        exists msgs, r = VList msgs /\ P msgs)
  /\ ((is_connected env tr = true \/ client_start env tr = None) ->
      snd (iter_messages env (trace_at_stream env tr) u) = None ->
      forallb converts (stream_of env tr u) = true ->
      both_fetch env u tok f t tr P).
Proof.
  intros HP. split; [|split].
  - intros r tr' H. apply api_download_inv in H as (_ & _ & Hv & -> & _).
    eexists. split; [reflexivity|]. split; [reflexivity | auto].
  - intros r tr' H. apply cmd_download_inv in H as (_ & _ & Hv & -> & _).
    eexists. split; [reflexivity | auto].
  - intros Hc Hf Hv.
    destruct (fetch_returns_total env u tok f t tr Hc Hf Hv) as [Ea Ec].
    eexists _, _. split; [exact Ea|]. split; [exact Ec | auto].
Qed.

(** ** The date window *)

(** C1. A message passes the filters of a fetch iff it has a timestamp,
    its UTC calendar date satisfies the inclusive test (from absent or
    date >= from) and (to absent or date <= to), and it has a text.
    Whatever [download_chat_messages] of [api.py] returns holds, under
    [messages], exactly the entries of the messages of the stream that
    pass, and so does the list that [download_chat_messages] of [cmd.py]
    returns: every returned date is in the window, with both bounds it
    lies between them, and without bounds the test accepts every date,
    so that every message with a timestamp and a text is returned.  On a
    source that does not fail both programs do return. *)
Theorem fetch_in_window (env : Env) (u tok : string)
    (f t : option Datetime.datetime) (tr : trace) :
  let stream := stream_of env tr u in
  (forall m, passes f t m = true <->
     exists d x, utc_date m = Some d /\ window_holds f t d
                 /\ text m = Some x /\ x <> "")
  /\ (forall d, in_window None None d = true)
  /\ (forall r tr',
        Api.download_chat_messages env u tok f t tr = (inr r, tr') ->
        exists msgs,
          lookup "messages" r = Some (VList msgs)
          /\ lookup "message_count" r
             = Some (VInt (Z.of_nat (List.length msgs)))
          /\ window_respected f t stream msgs)
  /\ (forall r tr',
        Cmd.download_chat_messages env u f t tr = (inr r, tr') ->
        exists msgs, r = VList msgs /\ window_respected f t stream msgs)
  /\ ((is_connected env tr = true \/ client_start env tr = None) ->
      snd (iter_messages env (trace_at_stream env tr) u) = None ->
      forallb converts stream = true ->
      both_fetch env u tok f t tr (window_respected f t stream)).
Proof.
  intros stream. split; [intros m; apply passes_iff|].
  split; [reflexivity|].
  apply fetch_by_program. apply kept_respects_window.
Qed.

Lemma fetch_in_window_witness :
  exists tr',
    Api.download_chat_messages Demo.env "A" "Token_A" (Demo.day 2024 1 1)
      (Demo.day 2024 1 1) []
    = (inr (fetch_result "Token_A" Demo.kept), tr')
    /\ Cmd.download_chat_messages Demo.env "A" (Demo.day 2024 1 1)
         (Demo.day 2024 1 1) []
       = (inr (VList Demo.kept), tr')
    /\ window_respected (Demo.day 2024 1 1) (Demo.day 2024 1 1)
         (stream_of Demo.env [] "A") Demo.kept.
Proof.
  destruct (proj2 (proj2 (proj2 (proj2
              (fetch_in_window Demo.env "A" "Token_A" (Demo.day 2024 1 1)
                 (Demo.day 2024 1 1) []))))
              (or_intror eq_refl) eq_refl eq_refl)
    as (msgs & tr' & Ea & Ec & W).
  assert (E : msgs = Demo.kept).
  { vm_compute in Ec. now inversion Ec. }
  subst msgs. exists tr'. auto.
Defined.

(** ** The whole stream is scanned *)

(** C2. A fetch does not stop at a window boundary.  What
    [download_chat_messages] of [api.py] returns under [messages], and
    the list [download_chat_messages] of [cmd.py] returns, hold the
    entry of every message of the stream that passes the filters,
    whatever comes before it, in particular right after a message whose
    date is outside the window; wherever the stream is cut, the result
    goes on with everything that passes after the cut, so that it is
    the whole filtered stream and not a prefix of it.  On a source that
    does not fail both programs do return. *)
Theorem fetch_scans_whole_stream (env : Env) (u tok : string)
    (f t : option Datetime.datetime) (tr : trace) :
  let stream := stream_of env tr u in
  (forall r tr',
      Api.download_chat_messages env u tok f t tr = (inr r, tr') ->
      exists msgs,
        lookup "messages" r = Some (VList msgs)
        /\ lookup "message_count" r
           = Some (VInt (Z.of_nat (List.length msgs)))
        /\ scanned f t stream msgs)
  /\ (forall r tr',
        Cmd.download_chat_messages env u f t tr = (inr r, tr') ->
        exists msgs, r = VList msgs /\ scanned f t stream msgs)
  /\ ((is_connected env tr = true \/ client_start env tr = None) ->
      snd (iter_messages env (trace_at_stream env tr) u) = None ->
      forallb converts stream = true ->
      both_fetch env u tok f t tr (scanned f t stream)).
Proof.
  intros stream. apply fetch_by_program. intros _. apply kept_scanned.
Qed.

Lemma fetch_scans_whole_stream_witness :
  exists tr',
    Api.download_chat_messages Demo.env "A" "Token_A" (Demo.day 2024 1 1)
      (Demo.day 2024 1 1) []
    = (inr (fetch_result "Token_A" Demo.kept), tr')
    /\ Cmd.download_chat_messages Demo.env "A" (Demo.day 2024 1 1)
         (Demo.day 2024 1 1) []
       = (inr (VList Demo.kept), tr')
    /\ scanned (Demo.day 2024 1 1) (Demo.day 2024 1 1)
         (stream_of Demo.env [] "A") Demo.kept.
Proof.
  destruct (proj2 (proj2
              (fetch_scans_whole_stream Demo.env "A" "Token_A"
                 (Demo.day 2024 1 1) (Demo.day 2024 1 1) []))
              (or_intror eq_refl) eq_refl eq_refl)
    as (msgs & tr' & Ea & Ec & W).
  assert (E : msgs = Demo.kept).
  { vm_compute in Ec. now inversion Ec. }
  subst msgs. exists tr'. auto.
Defined.

(** ** Messages without a timestamp or a text *)

(** C3. Every entry of a result comes from a message of the stream that
    has a timestamp and a text that is not empty; a message without a
    timestamp, without a text or with an empty text does not pass the
    filters, whatever the window, and the loop goes on after it as if it
    had not been there, without an exception. *)
Theorem fetch_drops_undated_and_empty (env : Env) (u : string)
    (f t : option Datetime.datetime) (tr : trace) (msgs : list value) :
  fetch_returns env u f t tr msgs ->
  (forall e, In e msgs ->
     exists m d x, In m (stream_of env tr u) /\ date m = Some d
                   /\ text m = Some x /\ x <> ""
                   /\ e = message_entry m d x)
  /\ msgs = map entry_of (filter (passes f t) (stream_of env tr u))
  /\ (forall m, date m = None \/ text m = None \/ text m = Some "" ->
        passes f t m = false)
  /\ (forall m rest acc,
        date m = None
        \/ (converts m = true /\ (text m = None \/ text m = Some "")) ->
        message_loop f t (m :: rest) acc = message_loop f t rest acc).
Proof.
  intros H. apply fetch_returns_filter in H as [_ ->].
  assert (Drop : forall m,
             date m = None \/ text m = None \/ text m = Some "" ->
             passes f t m = false).
  { intros m Hm. unfold passes, utc_date.
    destruct Hm as [-> | [-> | ->]]; try reflexivity;
      destruct (date m) as [d|]; try reflexivity;
      destruct (option_map Datetime.dt_date (Datetime.astimezone_utc d));
      try reflexivity; simpl; apply andb_false_r. }
  split; [|split; [reflexivity | split; [exact Drop|]]].
  - intros e He. apply in_filtered in He as (m & Hi & Hp & ->).
    apply passes_inv in Hp as (d & a & x & Hd & _ & _ & Hx & Hne & He).
    exists m, d, x. auto 10.
  - intros m rest acc Hm.
    assert (Hc : converts m = true).
    { destruct Hm as [Hd | [Hc _]]; [|exact Hc].
      unfold converts. now rewrite Hd. }
    rewrite message_loop_cons by exact Hc.
    rewrite Drop; [reflexivity|]. tauto.
Qed.

Lemma fetch_drops_undated_and_empty_witness :
  fetch_returns Demo.env "A" (Demo.day 2024 1 1) (Demo.day 2024 1 1) []
    Demo.kept
  /\ forall e,
       In e Demo.kept ->
       exists m d x,
         In m (stream_of Demo.env [] "A") /\ date m = Some d
         /\ text m = Some x /\ x <> "" /\ e = message_entry m d x.
Proof.
  assert (H : fetch_returns Demo.env "A" (Demo.day 2024 1 1)
                (Demo.day 2024 1 1) [] Demo.kept) by demo_fetch_returns.
  split.
  - exact H.
  - exact (proj1
             (fetch_drops_undated_and_empty Demo.env "A" (Demo.day 2024 1 1)
                (Demo.day 2024 1 1) [] Demo.kept H)).
Defined.

(** ** The order of the result *)



(* ===================================================================== *)
(** * Computations that write no file *)
(* ===================================================================== *)

Lemma quiet_ret {A} (a : A) : quiet (ret a).
Proof.
  intros tr res tr' H. inversion H. exists []. now rewrite app_nil_r.
Qed.

Lemma quiet_raise {A} (e : exn) : quiet (@raise A e).
Proof.
  intros tr res tr' H. inversion H. exists []. now rewrite app_nil_r.
Qed.

Lemma quiet_lift {A} (r : exn + A) : quiet (lift r).
Proof.
  intros tr res tr' H. inversion H. exists []. now rewrite app_nil_r.
Qed.

Lemma quiet_query {A} (q : trace -> A) : quiet (fun tr => (inr (q tr), tr)).
Proof.
  intros tr res tr' H. inversion H. exists []. now rewrite app_nil_r.
Qed.

Lemma quiet_logger (lvl : level) (msg : string) : quiet (logger lvl msg).
Proof.
  intros tr res tr' H. inversion H. now exists [Log lvl msg].
Qed.

Lemma quiet_perform (c : call) (oracle : trace -> option exn) :
  is_write (Call c None) = false -> quiet (perform c oracle).
Proof.
  intros Hc tr res tr' H. unfold perform in H.
  destruct (oracle tr); inversion H; eexists; split; try reflexivity;
    simpl in *; now rewrite Hc.
Qed.

Lemma quiet_read_stream (env : Env) (u : string) :
  quiet (Api.read_stream env u).
Proof.
  intros tr res tr' H. inversion H. eexists; split; reflexivity.
Qed.

Lemma quiet_bind {A B} (c : M A) (k : A -> M B) :
  quiet c -> (forall a, quiet (k a)) -> quiet (bind c k).
Proof.
  intros Hc Hk tr res tr' H. unfold bind in H.
  destruct (c tr) as [[e|a] tr1] eqn:E.
  - inversion H; subst. eapply Hc; eauto.
  - destruct (Hc _ _ _ E) as (n1 & -> & F1).
    destruct (Hk _ _ _ _ H) as (n2 & -> & F2).
    exists (n1 ++ n2)%list. rewrite app_assoc, filter_app, F1, F2. auto.
Qed.

Lemma quiet_try {A} (c : M A) (h : exn -> M A) :
  quiet c -> (forall e, quiet (h e)) -> quiet (try_except c h).
Proof.
  intros Hc Hh tr res tr' H. unfold try_except in H.
  destruct (c tr) as [[e|a] tr1] eqn:E.
  - destruct (Hc _ _ _ E) as (n1 & -> & F1).
    destruct (Hh _ _ _ _ H) as (n2 & -> & F2).
    exists (n1 ++ n2)%list. rewrite app_assoc, filter_app, F1, F2. auto.
  - inversion H; subst. eapply Hc; eauto.
Qed.

Ltac quiet_step :=
  match goal with
  | |- quiet (bind _ _) => apply quiet_bind; [| intros ?]
  | |- quiet (try_except _ _) => apply quiet_try; [| intros ?]
  | |- quiet (ret _) => apply quiet_ret
  | |- quiet (raise _) => apply quiet_raise
  | |- quiet (lift _) => apply quiet_lift
  | |- quiet (logger _ _) => apply quiet_logger
  | |- quiet (perform _ _) => apply quiet_perform; reflexivity
  | |- quiet (Api.read_stream _ _) => apply quiet_read_stream
  | |- quiet (Api.end_of_stream ?x) => destruct x; simpl
  | |- quiet (fun tr => (inr _, tr)) => apply quiet_query
  | |- quiet (match ?x with _ => _ end) => destruct x
  end.

Lemma api_download_quiet (env : Env) (u tok : string)
    (f t : option Datetime.datetime) :
  quiet (Api.download_chat_messages env u tok f t).
Proof. unfold Api.download_chat_messages. repeat quiet_step. Qed.

Lemma api_upload_quiet (env : Env) (b : option string) (fp key : string) :
  quiet (Api.upload_file_to_s3 env b fp key).
Proof.
  unfold Api.upload_file_to_s3, Api.create_s3_client. repeat quiet_step.
Qed.

Lemma api_create_bucket_quiet (env : Env) (b : option string) :
  quiet (Api.create_s3_bucket env b).
Proof.
  unfold Api.create_s3_bucket, Api.create_s3_client. repeat quiet_step.
Qed.

Lemma cmd_download_quiet (env : Env) (u : string)
    (f t : option Datetime.datetime) :
  quiet (Cmd.download_chat_messages env u f t).
Proof. unfold Cmd.download_chat_messages. repeat quiet_step. Qed.

Lemma cmd_upload_quiet (env : Env) (b : option string) (fp key : string) :
  quiet (Cmd.upload_file_to_s3 env b fp key).
Proof.
  unfold Cmd.upload_file_to_s3, Cmd.create_s3_client. repeat quiet_step.
Qed.

(** Without a fault of S3 the upload returns the address of the object. *)
Lemma api_upload_total (env : Env) (b : option string) (fp key : string)
    (tr : trace) :
  (forall tr0, boto3_client env tr0 = None) ->
  (forall tr0, upload_file env tr0 fp b key = None) ->
  exists new,
    Api.upload_file_to_s3 env b fp key tr
    = (inr ("https://" ++ Py.fmt_opt b ++ ".s3."
            ++ Py.fmt_opt (AWS_REGION env) ++ ".amazonaws.com/" ++ key),
       (tr ++ new)%list)
    /\ filter is_write new = [].
Proof.
  intros Hb Hu.
  unfold Api.upload_file_to_s3, Api.create_s3_client. unfold_run.
  rewrite Hb, Hu. rewrite <- !app_assoc. simpl.
  eexists; split; reflexivity.
Qed.

(* ===================================================================== *)
(** * The batch of [api.py] *)
(* ===================================================================== *)

Lemma entry_schema_entry (m : Message) (d : Datetime.datetime) (x : string) :
  entry_schema (message_entry m d x) = true.
Proof. unfold message_entry, opt_int. simpl. now destruct (sender_id m). Qed.

Lemma kept_schema (f t : option Datetime.datetime) (stream : list Message) :
  forallb entry_schema (map entry_of (filter (passes f t) stream)) = true.
Proof.
  apply forallb_forall. intros e He.
  apply in_filtered in He as (m & _ & Hp & ->).
  apply passes_inv in Hp as (d & a & x & _ & _ & _ & _ & _ & ->).
  apply entry_schema_entry.
Qed.

(** One turn never raises: it appends one outcome, of the username it was
    given, and leaves at most one write. *)
Lemma api_turn (env : Env) (username : string)
    (f t : option Datetime.datetime) (bucket : option string)
    (summary : list value) (tr : trace) :
  exists outcome new,
    Api.process_username env username f t bucket summary tr
    = (inr (summary ++ [outcome])%list, (tr ++ new)%list)
    /\ turn_ok env bucket username outcome (filter is_write new).
Proof.
  unfold Api.process_username, try_except, bind.
  destruct (Api.download_chat_messages env (Py.strip username)
              ("Token_" ++ Py.strip username) f t tr) as [[e|r] tr1] eqn:D.
  - (* the fetch raised *)
    destruct (api_download_quiet _ _ _ _ _ _ _ _ D) as (n1 & -> & F1).
    apply api_download_raises in D as (code & detail & ->). unfold ret.
    exists (failed_outcome (Py.strip username) detail), n1.
    split; [reflexivity|]. right. exists detail. rewrite F1. auto.
  - destruct (api_download_quiet _ _ _ _ _ _ _ _ D) as (n1 & -> & F1).
    apply api_download_inv in D as (_ & _ & _ & -> & _).
    set (msgs := map entry_of
                   (filter (passes f t) (stream_of env tr (Py.strip username)))).
    assert (Hs : forallb entry_schema msgs = true) by apply kept_schema.
    set (today := now env (tr ++ n1)%list).
    unfold perform.
    destruct (write_file env (tr ++ n1)%list
                (Api.artifact_name username today)
                (Json.dumps (fetch_result ("Token_" ++ Py.strip username) msgs) 4))
      as [e|] eqn:W.
    + (* the write raised *)
      assert (Hw : filter is_write
                     (n1 ++ [artifact_write username today msgs (Some e)])
                   = [artifact_write username today msgs (Some e)]).
      { rewrite filter_app, F1. reflexivity. }
      destruct e; unfold ret; rewrite <- app_assoc;
        eexists (failed_outcome (Py.strip username) _), _;
        (split; [reflexivity|]); right; eexists; (split; [reflexivity|]);
        right; exists msgs, today; eexists; (split; [exact Hw | exact Hs]).
    + assert (Hw : forall n3, filter is_write n3 = [] ->
                     filter is_write
                       (n1 ++ [artifact_write username today msgs None] ++ n3)
                     = [artifact_write username today msgs None]).
      { intros n3 F3. rewrite !filter_app, F1, F3. reflexivity. }
      destruct (Api.upload_file_to_s3 env bucket
                  (Api.artifact_name username today)
                  (Api.artifact_name username today) _)
        as [[e|url] tr3] eqn:U;
        destruct (api_upload_quiet _ _ _ _ _ _ _ U) as (n3 & -> & F3);
        rewrite <- !app_assoc.
      * (* the upload raised *)
        destruct e; unfold ret;
          eexists (failed_outcome (Py.strip username) _), _;
          (split; [reflexivity|]); right; eexists; (split; [reflexivity|]);
          right; exists msgs, today; eexists;
          (split; [exact (Hw n3 F3) | exact Hs]).
      * (* success *)
        simpl. unfold ret.
        eexists (success_outcome (Py.strip username) _ _), _.
        split; [reflexivity|]. left. exists msgs, today.
        split; [reflexivity|]. split; [exact (Hw n3 F3) | exact Hs].
Qed.

(** The loop never raises.  It appends one outcome for each username, in
    the order of the usernames, and the writes it leaves are those of its
    turns. *)
Lemma api_loop (env : Env) (f t : option Datetime.datetime)
    (bucket : option string) (usernames : list string) :
  forall (summary : list value) (tr : trace),
  exists (turns : list (value * list event)) (new : list event),
    Api.for_usernames env usernames f t bucket summary tr
    = (inr (summary ++ map fst turns)%list, (tr ++ new)%list)
    /\ filter is_write new = List.concat (map snd turns)
    /\ Forall2 (fun u turn => turn_ok env bucket u (fst turn) (snd turn))
               usernames turns.
Proof.
  induction usernames as [|u rest IH]; intros summary tr.
  - exists [], []. simpl. unfold ret. rewrite !app_nil_r. auto.
  - destruct (api_turn env u f t bucket summary tr) as (o & n1 & E1 & T1).
    destruct (IH (summary ++ [o])%list (tr ++ n1)%list)
      as (turns & n2 & E2 & F2 & T2).
    exists ((o, filter is_write n1) :: turns), (n1 ++ n2)%list.
    simpl. unfold bind. rewrite E1, E2.
    rewrite <- !app_assoc, filter_app, F2. simpl. auto.
Qed.

Lemma turn_ok_username (env : Env) (bucket : option string) (u : string)
    (o : value) (ws : list event) :
  turn_ok env bucket u o ws ->
  lookup "username" o = Some (VStr (Py.strip u))
  /\ (lookup "status" o = Some (VStr "success")
      \/ lookup "status" o = Some (VStr "failed")).
Proof.
  intros [(msgs & today & -> & _) | (err & -> & _)]; simpl; auto.
Qed.

Lemma turns_usernames (env : Env) (bucket : option string)
    (usernames : list string) (turns : list (value * list event)) :
  Forall2 (fun u turn => turn_ok env bucket u (fst turn) (snd turn))
          usernames turns ->
  map (lookup "username") (map fst turns)
  = map (fun u => Some (VStr (Py.strip u))) usernames
  /\ Forall (fun o => lookup "status" o = Some (VStr "success")
                      \/ lookup "status" o = Some (VStr "failed"))
            (map fst turns).
Proof.
  induction 1 as [|u turn us ts H _ [IH1 IH2]]; simpl; [auto|].
  apply turn_ok_username in H as [Hu Hs]. rewrite Hu, IH1. auto.
Qed.

(** The turn of [api_time.py]: the fetch is an undefined name, so the
    outcome is the failure of looking it up. *)
Lemma api_time_turn (env : Env) (u from_date to_date : string)
    (bucket : option string) (summary : list value) (tr : trace) :
  ApiTime.process_username env u from_date to_date bucket summary tr
  = (inr (summary
          ++ [failed_outcome (Py.strip u)
                "name 'download_chat_messages' is not defined"])%list,
     tr).
Proof. reflexivity. Qed.

Lemma api_time_loop (env : Env) (from_date to_date : string)
    (bucket : option string) (usernames : list string) :
  forall (summary : list value) (tr : trace),
    ApiTime.for_usernames env usernames from_date to_date bucket summary tr
    = (inr (summary
            ++ map (fun u =>
                      failed_outcome (Py.strip u)
                        "name 'download_chat_messages' is not defined")
                   usernames)%list,
       tr).
Proof.
  induction usernames as [|u rest IH]; intros summary tr; simpl.
  - unfold ret. now rewrite app_nil_r.
  - unfold bind. rewrite api_time_turn, IH, <- app_assoc. reflexivity.
Qed.

(** The endpoint, once the dates are parsed, the upload is read and the
    bucket is there, returns the summary of the loop. *)
Lemma api_endpoint_runs_loop (env : Env) (file : exn + string)
    (from_date to_date : option string) (content : string)
    (f t : option Datetime.datetime) (tr tr1 : trace) :
  Api.parse_optional from_date = inr f ->
  Api.parse_optional to_date = inr t ->
  file = inr content ->
  Api.create_s3_bucket env (S3_BUCKET_NAME env) tr = (inr tt, tr1) ->
  exists summary tr',
    Api.for_usernames env (Text.splitlines content) f t (S3_BUCKET_NAME env)
      [] tr1 = (inr summary, tr')
    /\ Api.process_messages_file env file from_date to_date tr
       = (inr (VDict [ ("summary", VList summary) ]), tr').
Proof.
  intros Hf Ht -> Hb.
  destruct (api_loop env f t (S3_BUCKET_NAME env) (Text.splitlines content)
              [] tr1) as (turns & new & E & _).
  exists (map fst turns), (tr1 ++ new)%list. split; [exact E|].
  unfold Api.process_messages_file, try_except, bind, lift.
  rewrite Hf, Ht, Hb. simpl in E. rewrite E. reflexivity.
Qed.

(** ** One outcome for each identifier *)

(** The scheduled run stops at the name it does not define. *)
Lemma scheduled_run (env : Env) (path : string) (tr : trace) :
  exists new,
    ApiTime.process_messages_daily env path tr = (inr tt, (tr ++ new)%list)
    /\ (forall lvl msg v, ~ In (LogRepr lvl msg v) new)
    /\ (forall content yesterday,
          Datetime.minus_days
            (now_pacific env
               (tr ++ [Log INFO "Running scheduled task to process messages."])%list)
            1 = Some yesterday ->
          read_file env
            (tr ++ [Log INFO "Running scheduled task to process messages."])%list
            path = inr content ->
          new = [ Log INFO "Running scheduled task to process messages.";
                  Call (ReadFile path) None;
                  Log ERROR
                    "Error in scheduled task: name 'create_s3_bucket' is not defined" ]).
Proof.
  unfold ApiTime.process_messages_daily, ApiTime.undefined_name, read_text.
  unfold_run.
  destruct (Datetime.minus_days _ 1) as [d|]; simpl.
  - destruct (read_file env _ path) as [e|content]; simpl;
      rewrite <- !app_assoc; (eexists; split; [reflexivity|]); split.
    + intros lvl msg v [H | [H | [H | []]]]; discriminate H.
    + intros content y _ H. discriminate H.
    + intros lvl msg v [H | [H | [H | []]]]; discriminate H.
    + intros c y _ _. reflexivity.
  - rewrite <- !app_assoc. eexists; split; [reflexivity|]. split.
    + intros lvl msg v [H | [H | []]]; discriminate H.
    + intros content y H. discriminate H.
Qed.

(** C4. For every list of identifiers the loop of [api.py] returns a
    summary with exactly one outcome for each identifier, in the order of
    the identifiers, each a success or a failure, whatever fetch, write or
    upload fails; the empty list gives the empty summary; and the
    endpoint returns the summary of the loop once the batch has started.
    The scheduled service of [api_time.py] does not: before its loop it
    calls [create_s3_bucket], which [api_time.py] does not define, so
    that every run, whatever the list, logs this error and ends with no
    outcome and no summary. *)
Theorem batch_one_outcome_per_identifier (env : Env)
    (usernames : list string) (f t : option Datetime.datetime)
    (bucket : option string) (tr : trace) :
  (exists summary tr',
      Api.for_usernames env usernames f t bucket [] tr = (inr summary, tr')
      /\ List.length summary = List.length usernames
      /\ map (lookup "username") summary
         = map (fun u => Some (VStr (Py.strip u))) usernames
      /\ Forall (fun o => lookup "status" o = Some (VStr "success")
                          \/ lookup "status" o = Some (VStr "failed"))
                summary)
  /\ Api.for_usernames env [] f t bucket [] tr = (inr [], tr)
  /\ (forall from_date to_date content tr0 tr1,
        Api.parse_optional from_date = inr f ->
        Api.parse_optional to_date = inr t ->
        Api.create_s3_bucket env (S3_BUCKET_NAME env) tr0 = (inr tt, tr1) ->
        exists summary tr',
          Api.process_messages_file env (inr content) from_date to_date tr0
          = (inr (VDict [ ("summary", VList summary) ]), tr')
          /\ map (lookup "username") summary
             = map (fun u => Some (VStr (Py.strip u)))
                   (Text.splitlines content))
  /\ (forall path,
        exists new,
          ApiTime.process_messages_daily env path tr
          = (inr tt, (tr ++ new)%list)
          /\ (forall lvl msg v, ~ In (LogRepr lvl msg v) new)
          /\ (forall content yesterday,
                Datetime.minus_days
                  (now_pacific env
                     (tr ++ [Log INFO
                               "Running scheduled task to process messages."])%list)
                  1 = Some yesterday ->
                read_file env
                  (tr ++ [Log INFO
                            "Running scheduled task to process messages."])%list
                  path = inr content ->
                new = [ Log INFO "Running scheduled task to process messages.";
                        Call (ReadFile path) None;
                        Log ERROR
                          "Error in scheduled task: name 'create_s3_bucket' is not defined" ])).
Proof.
  split; [|split; [reflexivity | split]].
  - destruct (api_loop env f t bucket usernames [] tr)
      as (turns & new & E & _ & T).
    exists (map fst turns), (tr ++ new)%list. split; [exact E|].
    apply turns_usernames in T as [Hu Hs].
    repeat split; auto.
    rewrite <- (length_map (lookup "username")), Hu. apply length_map.
  - intros from_date to_date content tr0 tr1 Hf Ht Hb.
    destruct (api_loop env f t (S3_BUCKET_NAME env) (Text.splitlines content)
                [] tr1) as (turns & new & E & _ & T).
    destruct (api_endpoint_runs_loop env (inr content) from_date to_date
                content f t tr0 tr1 Hf Ht eq_refl Hb)
      as (summary & tr' & E' & R).
    exists summary, tr'. split; [exact R|].
    rewrite E in E'. inversion E'; subst.
    now apply turns_usernames in T as [Hu _].
  - intros path. apply scheduled_run.
Qed.

Lemma batch_one_outcome_per_identifier_witness :
  read_file Demo.env [Log INFO "Running scheduled task to process messages."]
    "usernames.txt"
  = inr ("A" ++ String Py.newline ("B" ++ String Py.newline
           ("C" ++ String Py.newline "")))
  /\ ApiTime.process_messages_daily Demo.env "usernames.txt" []
     = (inr tt,
        [ Log INFO "Running scheduled task to process messages.";
          Call (ReadFile "usernames.txt") None;
          Log ERROR
            "Error in scheduled task: name 'create_s3_bucket' is not defined" ]).
Proof.
  split; [reflexivity|].
  destruct (proj2 (proj2 (proj2
              (batch_one_outcome_per_identifier Demo.env [] None None None [])))
              "usernames.txt") as (new & E & _ & Hn).
  rewrite (Hn ("A" ++ String Py.newline ("B" ++ String Py.newline
                 ("C" ++ String Py.newline "")))
              (Demo.utc 2024 1 1 0 1)) in E;
    [exact E | vm_compute; reflexivity | reflexivity].
Defined.

(* ===================================================================== *)
(** * A batch in which only missing chats fail *)
(* ===================================================================== *)

Lemma api_download_unavailable (env : Env) (u tok : string)
    (f t : option Datetime.datetime) (tr : trace) (msg : string) :
  (is_connected env tr = true \/ client_start env tr = None) ->
  snd (iter_messages env (trace_at_stream env tr) u)
  = Some (ChatInvalidError msg) ->
  forallb converts (stream_of env tr u) = true ->
  Api.download_chat_messages env u tok f t tr
  = (inl (HTTPException 404 ("Chat '" ++ u ++ "' not found or inaccessible.")),
     (trace_at_stream env tr
      ++ [ Call (IterMessages u) (Some (ChatInvalidError msg));
           Log ERROR ("Chat not found: " ++ u) ])%list).
Proof.
  unfold Api.download_chat_messages, stream_of, trace_at_stream. unfold_run.
  intros Hc Hf Hv.
  destruct (is_connected env tr) eqn:Ec; simpl.
  - destruct (iter_messages env tr u) as [items failure]; simpl in *.
    rewrite (message_loop_total _ _ _ _ Hv). subst failure.
    unfold raise. simpl. now rewrite <- ?app_assoc.
  - destruct Hc as [Hc|Hc]; [discriminate|]. rewrite Hc.
    destruct (iter_messages env (tr ++ [Call ClientStart None])%list u)
      as [items failure]; simpl in *.
    rewrite (message_loop_total _ _ _ _ Hv). subst failure.
    unfold raise. simpl. now rewrite <- ?app_assoc.
Qed.

Lemma cmd_download_unavailable (env : Env) (u : string)
    (f t : option Datetime.datetime) (tr : trace) (msg : string) :
  (is_connected env tr = true \/ client_start env tr = None) ->
  snd (iter_messages env (trace_at_stream env tr) u)
  = Some (ChatInvalidError msg) ->
  forallb converts (stream_of env tr u) = true ->
  Cmd.download_chat_messages env u f t tr
  = (inl (ValueError ("Chat '" ++ u ++ "' not found or inaccessible.")),
     (trace_at_stream env tr
      ++ [ Call (IterMessages u) (Some (ChatInvalidError msg));
           Log ERROR ("Chat '" ++ u ++ "' not found.") ])%list).
Proof.
  unfold Cmd.download_chat_messages, stream_of, trace_at_stream. unfold_run.
  intros Hc Hf Hv.
  destruct (is_connected env tr) eqn:Ec; simpl.
  - destruct (iter_messages env tr u) as [items failure]; simpl in *.
    rewrite (message_loop_total _ _ _ _ Hv). subst failure.
    unfold raise. simpl. now rewrite <- ?app_assoc.
  - destruct Hc as [Hc|Hc]; [discriminate|]. rewrite Hc.
    destruct (iter_messages env (tr ++ [Call ClientStart None])%list u)
      as [items failure]; simpl in *.
    rewrite (message_loop_total _ _ _ _ Hv). subst failure.
    unfold raise. simpl. now rewrite <- ?app_assoc.
Qed.

Lemma cmd_upload_total (env : Env) (b : option string) (fp key : string)
    (tr : trace) :
  (forall tr0, boto3_client env tr0 = None) ->
  (forall tr0, upload_file env tr0 fp b key = None) ->
  exists new,
    Cmd.upload_file_to_s3 env b fp key tr
    = (inr (s3_url env b key), (tr ++ new)%list).
Proof.
  intros Hb Hu.
  unfold Cmd.upload_file_to_s3, Cmd.create_s3_client. unfold_run.
  rewrite Hb, Hu. rewrite <- !app_assoc. simpl.
  eexists; reflexivity.
Qed.

(** A turn of [cmd.py] never raises. *)
Lemma cmd_turn_returns (env : Env) (u : string)
    (f t : option Datetime.datetime) (tr : trace) :
  exists tr', Cmd.process_username env u f t tr = (inr tt, tr').
Proof.
  unfold Cmd.process_username, try_except.
  match goal with
  | |- context [match ?c tr with _ => _ end] =>
      destruct (c tr) as [[e|[]] tr1]
  end; [unfold logger|]; eauto.
Qed.

Lemma cmd_loop_returns (env : Env) (f t : option Datetime.datetime)
    (usernames : list string) :
  forall tr, exists tr', Cmd.for_usernames env usernames f t tr = (inr tt, tr').
Proof.
  induction usernames as [|u rest IH]; intros tr; simpl.
  - unfold ret. eauto.
  - unfold bind. destruct (cmd_turn_returns env u f t tr) as (tr1 & ->).
    apply IH.
Qed.

Section OnlyMissingChatsFail.

Variable env : Env.
(** The chats that exist. *)
Variable available : string -> bool.

Hypothesis client_ok :
forall tr, is_connected env tr = true \/ client_start env tr = None.
Hypothesis stream_ok :
forall tr u, available u = true ->
  snd (iter_messages env tr u) = None
  /\ forallb converts (fst (iter_messages env tr u)) = true.
Hypothesis stream_missing :
forall tr u, available u = false ->
  (exists msg, snd (iter_messages env tr u) = Some (ChatInvalidError msg))
  /\ forallb converts (fst (iter_messages env tr u)) = true.
Hypothesis write_ok : forall tr filename content,
  write_file env tr filename content = None.
Hypothesis s3_ok : forall tr, boto3_client env tr = None.
Hypothesis upload_ok : forall tr file_path bucket key,
  upload_file env tr file_path bucket key = None.

Lemma api_turn_matches (u : string) (f t : option Datetime.datetime)
  (bucket : option string) (summary : list value) (tr : trace) :
exists outcome tr',
  Api.process_username env u f t bucket summary tr
  = (inr (summary ++ [outcome])%list, tr')
  /\ outcome_matches available u outcome.
Proof.
unfold Api.process_username, try_except, bind, outcome_matches.
destruct (available (Py.strip u)) eqn:Ha.
- destruct (stream_ok (trace_at_stream env tr) _ Ha) as [Hf Hv].
  rewrite (api_download_total env _ _ f t tr (client_ok tr) Hf Hv).
  unfold perform. rewrite write_ok.
  match goal with
  | |- context [Api.upload_file_to_s3 env ?b ?p ?k ?x] =>
      destruct (api_upload_total env b p k x s3_ok
                  (fun tr0 => upload_ok tr0 p b k)) as (n & -> & _)
  end.
  simpl. unfold ret. eexists _, _. split; [reflexivity|].
  eexists _, _. reflexivity.
- destruct (stream_missing (trace_at_stream env tr) _ Ha)
    as [[msg Hf] Hv].
  rewrite (api_download_unavailable env _ _ f t tr msg (client_ok tr)
             Hf Hv).
  unfold ret. eexists _, _. split; reflexivity.
Qed.

Lemma api_loop_matches (f t : option Datetime.datetime)
  (bucket : option string) (usernames : list string) :
forall summary tr,
exists outcomes tr',
  Api.for_usernames env usernames f t bucket summary tr
  = (inr (summary ++ outcomes)%list, tr')
  /\ Forall2 (outcome_matches available) usernames outcomes.
Proof.
induction usernames as [|u rest IH]; intros summary tr; simpl.
- exists [], tr. unfold ret. rewrite app_nil_r. auto.
- unfold bind.
  destruct (api_turn_matches u f t bucket summary tr)
    as (o & tr1 & -> & Ho).
  destruct (IH (summary ++ [o])%list tr1) as (os & tr2 & -> & Hos).
  exists (o :: os), tr2. rewrite <- app_assoc. auto.
Qed.

Lemma cmd_turn_matches (u : string) (f t : option Datetime.datetime)
  (tr : trace) :
exists did report,
  Cmd.process_username env u f t tr
  = (inr tt, ((tr ++ did) ++ [report])%list)
  /\ report_matches available u report.
Proof.
unfold Cmd.process_username, try_except, bind, report_matches.
destruct (available u) eqn:Ha.
- destruct (stream_ok (trace_at_stream env tr) _ Ha) as [Hf Hv].
  rewrite (cmd_download_total env _ f t tr (client_ok tr) Hf Hv).
  unfold perform. rewrite write_ok.
  match goal with
  | |- context [Cmd.upload_file_to_s3 env ?b ?p ?k ?x] =>
      destruct (cmd_upload_total env b p k x s3_ok
                  (fun tr0 => upload_ok tr0 p b k)) as (n & ->)
  end.
  unfold logger, trace_at_stream.
  destruct (is_connected env tr); eexists _, _;
    (split; [f_equal; f_equal; rewrite <- !app_assoc; reflexivity|]);
    eexists; reflexivity.
- destruct (stream_missing (trace_at_stream env tr) _ Ha)
    as [[msg Hf] Hv].
  rewrite (cmd_download_unavailable env _ f t tr msg (client_ok tr)
             Hf Hv).
  unfold logger, trace_at_stream.
  destruct (is_connected env tr); eexists _, _;
    (split; [f_equal; f_equal; rewrite <- !app_assoc; reflexivity|]);
    reflexivity.
Qed.

Lemma cmd_loop_matches (f t : option Datetime.datetime)
  (usernames : list string) :
forall tr,
exists turns,
  Cmd.for_usernames env usernames f t tr
  = (inr tt, (tr ++ turns_trace turns)%list)
  /\ Forall2 (fun u turn => report_matches available u (snd turn))
             usernames turns.
Proof.
induction usernames as [|u rest IH]; intros tr; simpl.
- exists []. unfold ret, turns_trace. simpl. rewrite app_nil_r. auto.
- unfold bind.
  destruct (cmd_turn_matches u f t tr) as (did & report & -> & Hr).
  destruct (IH ((tr ++ did) ++ [report])%list) as (turns & -> & Ht).
  exists ((did, report) :: turns). unfold turns_trace. simpl.
  rewrite <- !app_assoc. auto.
Qed.

End OnlyMissingChatsFail.

Lemma turn_ok_shape (env : Env) (bucket : option string) (u : string)
    (o : value) (ws : list event) :
  turn_ok env bucket u o ws ->
  (exists count url, o = success_outcome (Py.strip u) (VInt count) url)
  \/ (exists error, o = failed_outcome (Py.strip u) error).
Proof.
  intros [(msgs & today & -> & _) | (err & -> & _)]; eauto.
Qed.

(** ** What a turn records for a failure *)

Lemma raised_calls_app (a b : list event) :
  raised_calls (a ++ b) = (raised_calls a ++ raised_calls b)%list.
Proof. apply flat_map_app. Qed.

(** The loop over the stream raises only when a timestamp does not
    convert. *)
Lemma message_loop_raises (f t : option Datetime.datetime)
    (stream : list Message) :
  forall acc e,
    message_loop f t stream acc = inl e ->
    e = OverflowError "date value out of range"
    /\ exists m, In m stream /\ converts m = false.
Proof.
  induction stream as [|m rest IH]; intros acc e H; [discriminate|].
  destruct (converts m) eqn:Hm.
  - rewrite message_loop_cons in H by exact Hm.
    destruct (IH _ _ H) as (He & m' & Hi & Hc).
    split; [exact He|]. exists m'. simpl. auto.
  - rewrite message_loop_overflow in H by exact Hm.
    inversion H. split; [reflexivity|]. exists m. simpl. auto.
Qed.

(** The three ways a fetch of [api.py] ends. *)
Lemma api_download_cases (env : Env) (u tok : string)
    (f t : option Datetime.datetime) (tr : trace) :
  exists res new,
    Api.download_chat_messages env u tok f t tr = (res, (tr ++ new)%list)
    /\ ((raised_calls new = [] /\ exists r, res = inr r)
        \/ (exists c e code,
               raised_calls new = [(c, e)]
               /\ (c = ClientStart \/ c = IterMessages u)
               /\ res = inl (HTTPException code (fetch_error u e)))
        \/ (exists tr0 m,
               In m (fst (iter_messages env tr0 u)) /\ converts m = false
               /\ res = inl (HTTPException 500
                               "Error downloading messages: date value out of range"))).
Proof.
  unfold Api.download_chat_messages. unfold_run.
  destruct (is_connected env tr); simpl;
    [| destruct (client_start env tr) as [e|];
       [destruct e; simpl; rewrite <- ?app_assoc; eexists _, _;
        (split; [reflexivity|]); right; left; eexists _, _, _;
        (split; [reflexivity|]); (split; [left; reflexivity|]); reflexivity |] ];
    match goal with
    | |- context [iter_messages env ?x u] =>
        destruct (iter_messages env x u) as [items failure] eqn:Es; simpl
    end;
    (destruct (message_loop f t items []) as [e|msgs] eqn:El;
     [apply message_loop_raises in El as (-> & m & Hi & Hc); simpl;
      rewrite <- ?app_assoc; eexists _, _; (split; [reflexivity|]);
      right; right; eexists _, m; rewrite Es; simpl;
      (split; [exact Hi|]); (split; [exact Hc | reflexivity]) |]);
    (destruct failure as [e|];
     [destruct e; simpl; rewrite <- ?app_assoc; eexists _, _;
      (split; [reflexivity|]); right; left; eexists _, _, _;
      (split; [reflexivity|]); (split; [right; reflexivity|]); reflexivity
     | simpl; rewrite <- ?app_assoc; eexists _, _; (split; [reflexivity|]);
       left; split; [reflexivity | eexists; reflexivity]]).
Qed.

(** The three ways an upload of [api.py] ends. *)
Lemma api_upload_cases (env : Env) (b : option string) (fp key : string)
    (tr : trace) :
  exists res new,
    Api.upload_file_to_s3 env b fp key tr = (res, (tr ++ new)%list)
    /\ ((raised_calls new = [] /\ exists url, res = inr url)
        \/ (exists e, raised_calls new = [(Boto3Client, e)] /\ res = inl e)
        \/ (exists e,
               raised_calls new = [(UploadFile fp b key, e)]
               /\ res = inl (HTTPException 500
                               ("Failed to upload file to S3: " ++ str e)))).
Proof.
  unfold Api.upload_file_to_s3, Api.create_s3_client. unfold_run.
  destruct (boto3_client env tr) as [e|]; simpl.
  - eexists _, _. split; [reflexivity|]. right. left.
    eexists. split; reflexivity.
  - destruct (upload_file env _ fp b key) as [e|]; simpl;
      rewrite <- ?app_assoc; eexists _, _; (split; [reflexivity|]).
    + right. right. eexists. split; reflexivity.
    + left. split; [reflexivity | eexists; reflexivity].
Qed.

Lemma handler_records (username : string) (summary : list value) (e : exn)
    (tr : trace) :
  (match e with
   | HTTPException _ detail =>
       ret (summary
            ++ [VDict [ ("username", VStr (Py.strip username));
                        ("status", VStr "failed");
                        ("error", VStr detail) ]])%list
   | _ =>
       ret (summary
            ++ [VDict [ ("username", VStr (Py.strip username));
                        ("status", VStr "failed");
                        ("error", VStr (str e)) ]])%list
   end) tr
  = (inr (summary
          ++ [failed_outcome (Py.strip username) (outcome_error e)])%list, tr).
Proof. destruct e; reflexivity. Qed.

(** One turn of the loop of [api.py] never raises, and records the
    failure of the call that raised. *)
Lemma api_turn_recorded (env : Env) (username : string)
    (f t : option Datetime.datetime) (bucket : option string)
    (summary : list value) (tr : trace) :
  exists outcome new,
    Api.process_username env username f t bucket summary tr
    = (inr (summary ++ [outcome])%list, (tr ++ new)%list)
    /\ turn_recorded env username outcome new.
Proof.
  unfold Api.process_username, try_except, bind.
  destruct (api_download_cases env (Py.strip username)
              ("Token_" ++ Py.strip username) f t tr)
    as (res & n1 & D & HD).
  rewrite D.
  destruct HD as [[R1 [r ->]] | [(c & e & code & R1 & Hc & ->)
                                | (tr0 & m & Hi & Hm & ->)]].
  - (* the fetch returned *)
    pose proof D as D'.
    apply api_download_inv in D' as (_ & _ & _ & -> & _).
    unfold perform.
    destruct (write_file env (tr ++ n1)%list _ _) as [e|] eqn:W.
    + (* the write raised *)
      cbv beta iota. rewrite ?handler_records, <- app_assoc. unfold ret. eexists _, _.
      split; [reflexivity|]. right. left. eexists _, e.
      split; [rewrite raised_calls_app, R1; reflexivity | reflexivity].
    + match goal with
      | |- context [Api.upload_file_to_s3 env ?b ?p ?k ?x] =>
          destruct (api_upload_cases env b p k x) as (ru & n3 & U & HU)
      end.
      rewrite U.
      destruct HU as [[R3 [url ->]] | [(e & R3 & ->) | (e & R3 & ->)]].
      * (* success *)
        simpl. unfold ret. rewrite <- !app_assoc. eexists _, _.
        split; [reflexivity|]. left.
        split; [rewrite !raised_calls_app, R1, R3; reflexivity|].
        eexists _, _. reflexivity.
      * (* the S3 client could not be built *)
        cbv beta iota. rewrite ?handler_records, <- !app_assoc. unfold ret. eexists _, _.
        split; [reflexivity|]. right. left. eexists _, e.
        split; [rewrite !raised_calls_app, R1, R3; reflexivity | reflexivity].
      * (* the upload raised *)
        cbv beta iota. rewrite ?handler_records, <- !app_assoc. unfold ret. eexists _, _.
        split; [reflexivity|]. right. left. eexists _, e.
        split; [rewrite !raised_calls_app, R1, R3; reflexivity | reflexivity].
  - (* the fetch raised *)
    cbv beta iota. rewrite ?handler_records. unfold ret. eexists _, _. split; [reflexivity|].
    right. left. exists c, e. split; [exact R1|].
    destruct Hc as [-> | ->]; reflexivity.
  - (* a timestamp overflowed *)
    cbv beta iota. rewrite ?handler_records. unfold ret. eexists _, _. split; [reflexivity|].
    right. right. exists tr0, m. auto.
Qed.

Lemma api_loop_recorded (env : Env) (f t : option Datetime.datetime)
    (bucket : option string) (usernames : list string) :
  forall (summary : list value) (tr : trace),
  exists turns : list (value * list event),
    Api.for_usernames env usernames f t bucket summary tr
    = (inr (summary ++ map fst turns)%list,
       (tr ++ List.concat (map snd turns))%list)
    /\ Forall2 (fun u turn => turn_recorded env u (fst turn) (snd turn))
               usernames turns.
Proof.
  induction usernames as [|u rest IH]; intros summary tr.
  - exists []. simpl. unfold ret. rewrite !app_nil_r. auto.
  - destruct (api_turn_recorded env u f t bucket summary tr)
      as (o & n1 & E1 & T1).
    destruct (IH (summary ++ [o])%list (tr ++ n1)%list) as (turns & E2 & T2).
    exists ((o, n1) :: turns).
    simpl. unfold bind. rewrite E1, E2, <- !app_assoc. simpl. auto.
Qed.

(** The three ways a fetch of [cmd.py] ends. *)
Lemma cmd_download_cases (env : Env) (u : string)
    (f t : option Datetime.datetime) (tr : trace) :
  exists res new,
    Cmd.download_chat_messages env u f t tr = (res, (tr ++ new)%list)
    /\ ((raised_calls new = [] /\ exists r, res = inr r)
        \/ (exists c e e',
               raised_calls new = [(c, e)]
               /\ (c = ClientStart \/ c = IterMessages u)
               /\ res = inl e' /\ str e' = cli_error u c e)
        \/ (exists tr0 m,
               In m (fst (iter_messages env tr0 u)) /\ converts m = false
               /\ res = inl (OverflowError "date value out of range"))).
Proof.
  unfold Cmd.download_chat_messages. unfold_run.
  destruct (is_connected env tr); simpl;
    [| destruct (client_start env tr) as [e|];
       [destruct e; simpl; rewrite <- ?app_assoc; eexists _, _;
        (split; [reflexivity|]); right; left; eexists _, _, _;
        (split; [reflexivity|]); (split; [left; reflexivity|]);
        split; reflexivity |] ];
    match goal with
    | |- context [iter_messages env ?x u] =>
        destruct (iter_messages env x u) as [items failure] eqn:Es; simpl
    end;
    (destruct (message_loop f t items []) as [e|msgs] eqn:El;
     [apply message_loop_raises in El as (-> & m & Hi & Hc); simpl;
      rewrite <- ?app_assoc; eexists _, _; (split; [reflexivity|]);
      right; right; eexists _, m; rewrite Es; simpl;
      (split; [exact Hi|]); (split; [exact Hc | reflexivity]) |]);
    (destruct failure as [e|];
     [destruct e; simpl; rewrite <- ?app_assoc; eexists _, _;
      (split; [reflexivity|]); right; left; eexists _, _, _;
      (split; [reflexivity|]); (split; [right; reflexivity|]);
      split; reflexivity
     | simpl; rewrite <- ?app_assoc; eexists _, _; (split; [reflexivity|]);
       left; split; [reflexivity | eexists; reflexivity]]).
Qed.

Lemma cmd_upload_cases (env : Env) (b : option string) (fp key : string)
    (tr : trace) :
  exists res new,
    Cmd.upload_file_to_s3 env b fp key tr = (res, (tr ++ new)%list)
    /\ ((raised_calls new = [] /\ exists url, res = inr url)
        \/ (exists e, raised_calls new = [(Boto3Client, e)] /\ res = inl e)
        \/ (exists e, raised_calls new = [(UploadFile fp b key, e)] /\ res = inl e)).
Proof.
  unfold Cmd.upload_file_to_s3, Cmd.create_s3_client. unfold_run.
  destruct (boto3_client env tr) as [e|]; simpl.
  - eexists _, _. split; [reflexivity|]. right. left.
    eexists. split; reflexivity.
  - destruct (upload_file env _ fp b key) as [e|]; simpl;
      rewrite <- ?app_assoc; eexists _, _; (split; [reflexivity|]).
    + right. right. eexists. split; reflexivity.
    + left. split; [reflexivity | eexists; reflexivity].
Qed.

Lemma cli_error_other (u : string) (c : call) (e : exn) :
  (forall r, c <> IterMessages r) -> c <> ClientStart ->
  cli_error u c e = str e.
Proof. intros H1 H2. destruct c, e; try reflexivity; congruence. Qed.

(** One turn of the loop of [cmd.py] never raises, and ends with the
    line that reports what happened. *)
Lemma cmd_turn_reported (env : Env) (u : string)
    (f t : option Datetime.datetime) (tr : trace) :
  exists new,
    Cmd.process_username env u f t tr = (inr tt, (tr ++ new)%list)
    /\ turn_reported env u new.
Proof.
  unfold Cmd.process_username, try_except, bind.
  destruct (cmd_download_cases env u f t tr) as (res & n1 & D & HD).
  rewrite D.
  destruct HD as [[R1 [r ->]] | [(c & e & e' & R1 & Hc & -> & He)
                                | (tr0 & m & Hi & Hm & ->)]].
  - unfold perform.
    destruct (write_file env (tr ++ n1)%list _ _) as [e|] eqn:W.
    + unfold logger. rewrite <- !app_assoc. eexists. split; [reflexivity|].
      eexists _, _. split; [rewrite app_assoc; reflexivity|].
      right. left. eexists _, e.
      rewrite !raised_calls_app, R1. simpl. split; [reflexivity|].
      rewrite cli_error_other by (intros; discriminate). reflexivity.
    + match goal with
      | |- context [Cmd.upload_file_to_s3 env ?b ?p ?k ?x] =>
          destruct (cmd_upload_cases env b p k x) as (ru & n3 & U & HU)
      end.
      rewrite U.
      destruct HU as [[R3 [url ->]] | [(e & R3 & ->) | (e & R3 & ->)]];
        unfold logger; rewrite <- !app_assoc;
        (eexists; split; [reflexivity|]);
        eexists (n1 ++ _ :: n3)%list, _;
        (split; [rewrite <- !app_assoc; reflexivity|]).
      * left. rewrite !raised_calls_app, R1. simpl. rewrite ?raised_calls_app, R3. simpl.
        split; [reflexivity | eauto].
      * right. left. eexists _, e.
        rewrite !raised_calls_app, R1. simpl. rewrite ?raised_calls_app, R3. simpl.
        split; [reflexivity|].
        rewrite cli_error_other by (intros; discriminate). reflexivity.
      * right. left. eexists _, e.
        rewrite !raised_calls_app, R1. simpl. rewrite ?raised_calls_app, R3. simpl.
        split; [reflexivity|].
        rewrite cli_error_other by (intros; discriminate). reflexivity.
  - unfold logger. rewrite <- !app_assoc. eexists. split; [reflexivity|].
    eexists _, _. split; [reflexivity|].
    right. left. exists c, e. rewrite raised_calls_app, R1. simpl.
    split; [reflexivity|]. now rewrite He.
  - unfold logger. rewrite <- !app_assoc. eexists. split; [reflexivity|].
    eexists _, _. split; [reflexivity|].
    right. right. exists tr0, m. auto.
Qed.

Lemma cmd_loop_reported (env : Env) (f t : option Datetime.datetime)
    (usernames : list string) :
  forall tr,
  exists turns : list (list event),
    Cmd.for_usernames env usernames f t tr
    = (inr tt, (tr ++ List.concat turns)%list)
    /\ Forall2 (turn_reported env) usernames turns.
Proof.
  induction usernames as [|u rest IH]; intros tr.
  - exists []. simpl. unfold ret. rewrite app_nil_r. auto.
  - destruct (cmd_turn_reported env u f t tr) as (n1 & E1 & T1).
    destruct (IH (tr ++ n1)%list) as (turns & E2 & T2).
    exists (n1 :: turns).
    simpl. unfold bind. rewrite E1, E2, <- !app_assoc. auto.
Qed.

(** ** A failing channel does not stop the batch *)

(** C5, as the code has it.  In [api.py], whatever fails in the turn of a
    username is caught in that turn and recorded as a failed outcome
    whose error is the text of the exception: the detail of the
    [HTTPException] that the fetch or the upload made of it, the detail
    of any other [HTTPException], [str(e)] of anything else; the loop
    goes on, and the summary has an outcome for every username.  When
    nothing fails but the fetch of the chats that do not exist, the
    outcome of such a chat is the failure "Chat ... not found or
    inaccessible.", the outcome of every other chat is a success, and
    for the identifiers A, B, C with B missing the summary is success,
    failure, success.  [cmd.py] catches the failure of a turn in the
    same way and goes on, but records no outcome: it logs one line for
    the username, with the text of the exception. *)
Theorem failed_channel_does_not_abort (env : Env)
    (f t : option Datetime.datetime) (bucket : option string) (tr : trace) :
  (forall usernames,
      exists turns : list (value * list event),
        Api.for_usernames env usernames f t bucket [] tr
        = (inr (map fst turns), (tr ++ List.concat (map snd turns))%list)
        /\ Forall2 (fun u turn => turn_recorded env u (fst turn) (snd turn))
                   usernames turns)
  /\ (forall usernames,
        exists turns : list (list event),
          Cmd.for_usernames env usernames f t tr
          = (inr tt, (tr ++ List.concat turns)%list)
          /\ Forall2 (turn_reported env) usernames turns)
  /\ (forall available : string -> bool,
        (forall tr0, is_connected env tr0 = true
                     \/ client_start env tr0 = None) ->
        (forall tr0 u, available u = true ->
           snd (iter_messages env tr0 u) = None
           /\ forallb converts (fst (iter_messages env tr0 u)) = true) ->
        (forall tr0 u, available u = false ->
           (exists msg,
               snd (iter_messages env tr0 u) = Some (ChatInvalidError msg))
           /\ forallb converts (fst (iter_messages env tr0 u)) = true) ->
        (forall tr0 filename content,
           write_file env tr0 filename content = None) ->
        (forall tr0, boto3_client env tr0 = None) ->
        (forall tr0 file_path b key,
           upload_file env tr0 file_path b key = None) ->
        (forall usernames,
            exists summary tr',
              Api.for_usernames env usernames f t bucket [] tr
              = (inr summary, tr')
              /\ Forall2 (outcome_matches available) usernames summary)
        /\ (available "A" = true -> available "B" = false ->
            available "C" = true ->
            exists count_a url_a count_c url_c tr',
              Api.for_usernames env ["A"; "B"; "C"] f t bucket [] tr
              = (inr [ success_outcome "A" (VInt count_a) url_a;
                       failed_outcome "B"
                         "Chat 'B' not found or inaccessible.";
                       success_outcome "C" (VInt count_c) url_c ],
                 tr'))
        /\ (forall usernames,
              exists turns,
                Cmd.for_usernames env usernames f t tr
                = (inr tt, (tr ++ turns_trace turns)%list)
                /\ Forall2 (fun u turn =>
                              report_matches available u (snd turn))
                           usernames turns)).
Proof.
  split; [|split].
  - intros usernames.
    destruct (api_loop_recorded env f t bucket usernames [] tr)
      as (turns & E & T).
    exists turns. auto.
  - intros usernames. apply cmd_loop_reported.
  - intros available Hc Hs Hm Hw Hb Hu. split; [|split].
    + intros usernames.
      destruct (api_loop_matches env available Hc Hs Hm Hw Hb Hu f t bucket
                  usernames [] tr) as (os & tr' & E & M).
      eauto.
    + intros Ha HB HC.
      destruct (api_loop_matches env available Hc Hs Hm Hw Hb Hu f t bucket
                  ["A"; "B"; "C"] [] tr) as (os & tr' & E & M).
      inversion M as [|? oa ? ? Ma M1]; subst.
      inversion M1 as [|? ob ? ? Mb M2]; subst.
      inversion M2 as [|? oc ? ? Mc M3]; subst.
      inversion M3; subst.
      unfold outcome_matches in Ma, Mb, Mc.
      change (Py.strip "A") with "A" in Ma.
      change (Py.strip "B") with "B" in Mb.
      change (Py.strip "C") with "C" in Mc.
      rewrite Ha in Ma. rewrite HB in Mb. rewrite HC in Mc.
      destruct Ma as (ca & ua & ->). destruct Mc as (cc & uc & ->). subst ob.
      exists ca, ua, cc, uc, tr'. exact E.
    + intros usernames.
      apply (cmd_loop_matches env available Hc Hs Hm Hw Hb Hu).
Qed.

Lemma failed_channel_does_not_abort_witness :
  exists count_a url_a count_c url_c tr',
    Api.for_usernames Demo.env ["A"; "B"; "C"] (Demo.day 2024 1 1)
      (Demo.day 2024 1 1) (Some "bucket") [] []
    = (inr [ success_outcome "A" (VInt count_a) url_a;
             failed_outcome "B" "Chat 'B' not found or inaccessible.";
             success_outcome "C" (VInt count_c) url_c ],
       tr').
Proof.
  refine (proj1 (proj2
            (proj2 (proj2
               (failed_channel_does_not_abort Demo.env (Demo.day 2024 1 1)
                  (Demo.day 2024 1 1) (Some "bucket") []))
               Demo.available _ _ _ _ _ _)) _ _ _).
  - intros tr0. right. reflexivity.
  - intros tr0 u H. unfold Demo.available in H. simpl.
    destruct (String.eqb u "B"); [discriminate|].
    split; vm_compute; reflexivity.
  - intros tr0 u H. unfold Demo.available in H. simpl.
    destruct (String.eqb u "B"); [|discriminate].
    split; [eexists; reflexivity | reflexivity].
  - reflexivity.
  - reflexivity.
  - reflexivity.
  - reflexivity.
  - reflexivity.
  - reflexivity.
Defined.

(** The claim as the specification states it fails on the command line
    tool: for the identifiers A, B, C with B missing, [process_chats]
    returns nothing, no value is logged, and the two files it writes are
    the artifacts of A and of C, which hold their messages; so no
    outcome is recorded, for B or for A and C, and the failure of B is
    a line of the log. *)
Lemma cli_records_no_outcome_counterexample :
  exists tr',
    Cmd.process_chats Demo.env "chats.txt" (Demo.day 2024 1 1)
      (Demo.day 2024 1 1) [] = (inr tt, tr')
    /\ In (Log ERROR
             "Failed to process 'B': Chat 'B' not found or inaccessible.") tr'
    /\ (forall lvl msg v, ~ In (LogRepr lvl msg v) tr')
    /\ (forall filename content raised,
          In (Call (WriteFile filename content) raised) tr' ->
          (filename = "telegram_A_2024_01_03.json"
           \/ filename = "telegram_C_2024_01_03.json")
          /\ content = Json.dumps (VList Demo.kept) 4).
Proof.
  eexists. split; [vm_compute; reflexivity|].
  split; [simpl; repeat (first [left; reflexivity | right])|].
  split.
  - intros lvl msg v H. simpl in H.
    repeat (destruct H as [H | H]; [discriminate H|]). exact H.
  - intros filename content raised H. simpl in H.
    repeat (destruct H as [H | H];
            [first [discriminate H
                   | inversion H; split;
                     [first [left; reflexivity | right; reflexivity]
                     | vm_compute; reflexivity]]|]).
    contradiction.
Qed.

(** A run of the loop of [api.py] in which the upload of A is refused,
    the chat B does not exist and the artifact of C cannot be written:
    the three failures are recorded, each with its text. *)
Example every_failure_is_recorded :
  exists tr',
    Api.for_usernames Faults.env ["A"; "B"; "C"] (Demo.day 2024 1 1)
      (Demo.day 2024 1 1) (Some "bucket") [] []
    = (inr [ failed_outcome "A" "Failed to upload file to S3: Access Denied";
             failed_outcome "B" "Chat 'B' not found or inaccessible.";
             failed_outcome "C" "No space left on device" ],
       tr').
Proof. eexists. vm_compute. reflexivity. Qed.

(* ===================================================================== *)
(** * Dates that do not parse *)
(* ===================================================================== *)

Lemma api_parse_optional_invalid (s : string) :
  s <> "" -> Datetime.strptime_Y_m_d s = None ->
  Api.parse_optional (Some s)
  = inl (HTTPException 400 "Invalid date format. Use YYYY-MM-DD.").
Proof.
  intros Hs Hp. unfold Api.parse_optional, Api.parse_date.
  destruct s; [contradiction|]. simpl Py.str_truthy. cbv iota.
  now rewrite Hp.
Qed.

Lemma cmd_parse_optional_invalid (s : string) :
  s <> "" -> Datetime.strptime_Y_m_d s = None ->
  Cmd.parse_optional (Some s)
  = inl (ValueError "Invalid date format. Use YYYY-MM-DD.").
Proof.
  intros Hs Hp. unfold Cmd.parse_optional, Cmd.parse_date.
  destruct s; [contradiction|]. simpl Py.str_truthy. cbv iota.
  now rewrite Hp.
Qed.

(** A date input either parses or raises the one exception of
    [parse_date]. *)
Lemma api_parse_optional_cases (s : option string) :
  (exists d, Api.parse_optional s = inr d)
  \/ Api.parse_optional s
     = inl (HTTPException 400 "Invalid date format. Use YYYY-MM-DD.").
Proof.
  unfold Api.parse_optional, Api.parse_date.
  destruct s as [x|]; [|eauto].
  destruct (Py.str_truthy x); [|eauto].
  destruct (Datetime.strptime_Y_m_d x); eauto.
Qed.

Lemma cmd_parse_optional_cases (s : option string) :
  (exists d, Cmd.parse_optional s = inr d)
  \/ Cmd.parse_optional s
     = inl (ValueError "Invalid date format. Use YYYY-MM-DD.").
Proof.
  unfold Cmd.parse_optional, Cmd.parse_date.
  destruct s as [x|]; [|eauto].
  destruct (Py.str_truthy x); [|eauto].
  destruct (Datetime.strptime_Y_m_d x); eauto.
Qed.

(** C6, as the code has it.  When a date input that is not empty is
    refused by the parser of [parse_date], the request fails at once: the
    endpoint raises an [HTTPException] that carries the text of the
    invalid date error and leaves nothing in the trace but the line it
    logs, so that no chat is fetched and no file is written; the command
    line tool raises the [ValueError] of [parse_date] before it does
    anything. *)
Theorem invalid_date_aborts_before_any_channel (env : Env)
    (file : exn + string) (path : string) (from_date to_date : option string)
    (tr : trace) :
  (exists s, from_date = Some s /\ s <> ""
             /\ Datetime.strptime_Y_m_d s = None)
  \/ (exists s, to_date = Some s /\ s <> ""
                /\ Datetime.strptime_Y_m_d s = None) ->
  let invalid := HTTPException 400 "Invalid date format. Use YYYY-MM-DD." in
  Api.process_messages_file env file from_date to_date tr
  = (inl (HTTPException 500 ("Error processing file: " ++ str invalid)),
     (tr ++ [Log ERROR ("Error processing file: " ++ str invalid)])%list)
  /\ filter is_call [Log ERROR ("Error processing file: " ++ str invalid)] = []
  /\ Cmd.main env path from_date to_date tr
     = (inl (ValueError "Invalid date format. Use YYYY-MM-DD."), tr).
Proof.
  intros H invalid. split; [|split; [reflexivity|]].
  - unfold Api.process_messages_file, try_except, bind, lift.
    destruct H as [(s & -> & Hs & Hp) | (s & -> & Hs & Hp)].
    + rewrite (api_parse_optional_invalid s Hs Hp). reflexivity.
    + rewrite (api_parse_optional_invalid s Hs Hp).
      destruct (api_parse_optional_cases from_date) as [[d ->] | ->];
        reflexivity.
  - unfold Cmd.main, bind, lift.
    destruct H as [(s & -> & Hs & Hp) | (s & -> & Hs & Hp)].
    + rewrite (cmd_parse_optional_invalid s Hs Hp). reflexivity.
    + rewrite (cmd_parse_optional_invalid s Hs Hp).
      destruct (cmd_parse_optional_cases from_date) as [[d ->] | ->];
        reflexivity.
Qed.

Lemma invalid_date_aborts_before_any_channel_witness :
  Datetime.strptime_Y_m_d "2024/01/01" = None
  /\ Api.process_messages_file Demo.env (inr Demo.listing)
       (Some "2024/01/01") None []
     = (inl (HTTPException 500
               "Error processing file: 400: Invalid date format. Use YYYY-MM-DD."),
        [ Log ERROR
            "Error processing file: 400: Invalid date format. Use YYYY-MM-DD." ]).
Proof.
  split.
  - vm_compute. reflexivity.
  - refine (proj1
              (invalid_date_aborts_before_any_channel Demo.env
                 (inr Demo.listing) "chats.txt" (Some "2024/01/01") None [] _)).
    left. exists "2024/01/01".
    split; [reflexivity|]. split; [discriminate | vm_compute; reflexivity].
Defined.

(** The claim as the specification states it fails on a date written
    without the leading zeros: it does not match the pattern of four, two
    and two digits, and yet it parses, the batch runs and the chat is
    fetched. *)
Lemma invalid_date_pattern_counterexample :
  matches_YYYY_MM_DD "2024-1-5" = false
  /\ Api.parse_date "2024-1-5" = inr (Demo.utc 2024 1 5 0 0)
  /\ exists summary tr',
       Api.process_messages_file Demo.env (inr "A") (Some "2024-1-5") None []
       = (inr (VDict [ ("summary", VList summary) ]), tr')
       /\ List.length summary = 1%nat
       /\ In (Call (IterMessages "A") None) tr'
       /\ existsb is_write tr' = true.
Proof.
  split; [reflexivity|]. split; [vm_compute; reflexivity|].
  eexists. eexists. split; [vm_compute; reflexivity|].
  split; [reflexivity|]. split; [|reflexivity].
  simpl. tauto.
Qed.

(* ===================================================================== *)
(** * The artifacts *)
(* ===================================================================== *)

Lemma fetch_result_schema (tok : string) (msgs : list value) :
  forallb entry_schema msgs = true ->
  artifact_schema (fetch_result tok msgs) = true.
Proof. intros H. exact H. Qed.

(** The text of a document of the schema starts with a brace. *)
Lemma schema_starts_with_brace (doc : value) :
  artifact_schema doc = true -> starts_with "{" (Json.dumps doc 4) = true.
Proof.
  destruct doc as [| | | |d]; try discriminate.
  destruct d; [discriminate|]. intros _. reflexivity.
Qed.

(** The writes of a loop of [api.py] are the writes of its turns. *)
Lemma api_turns_writes (env : Env) (bucket : option string)
    (usernames : list string) (turns : list (value * list event)) :
  Forall2 (fun u turn => turn_ok env bucket u (fst turn) (snd turn))
          usernames turns ->
  (forall ev, In ev (List.concat (map snd turns)) ->
     exists u msgs today raised,
       In u usernames /\ ev = artifact_write u today msgs raised
       /\ forallb entry_schema msgs = true)
  /\ (List.length (List.concat (map snd turns)) <= List.length usernames)%nat.
Proof.
  induction 1 as [|u turn us ts H _ [IH1 IH2]]; simpl.
  - split; [contradiction | lia].
  - assert (Hone : (List.length (snd turn) <= 1)%nat
                   /\ forall ev, In ev (snd turn) ->
                        exists msgs today raised,
                          ev = artifact_write u today msgs raised
                          /\ forallb entry_schema msgs = true).
    { destruct H as [(msgs & today & _ & -> & Hs)
                    | (err & _ & [-> | (msgs & today & raised & -> & Hs)])];
        simpl; (split; [lia|]); intros ev Hev;
        try contradiction; destruct Hev as [<- | []]; eauto. }
    destruct Hone as [Hlen Hin]. split.
    + intros ev Hev. apply in_app_or in Hev as [Hev | Hev].
      * destruct (Hin ev Hev) as (msgs & today & raised & -> & Hs).
        exists u, msgs, today, raised. auto.
      * destruct (IH1 ev Hev) as (u' & msgs & today & raised & Hu & -> & Hs).
        exists u', msgs, today, raised. auto.
    + rewrite length_app. lia.
Qed.

(** One turn of [cmd.py]: at most one write, of the bare list. *)
Lemma cmd_turn_writes (env : Env) (u : string)
    (f t : option Datetime.datetime) (tr : trace) :
  exists new,
    Cmd.process_username env u f t tr = (inr tt, (tr ++ new)%list)
    /\ (filter is_write new = []
        \/ exists msgs today raised,
             filter is_write new = [cli_artifact_write u today msgs raised]
             /\ forallb entry_schema msgs = true).
Proof.
  unfold Cmd.process_username, try_except, bind.
  destruct (Cmd.download_chat_messages env u f t tr) as [[e|r] tr1] eqn:D.
  - destruct (cmd_download_quiet _ _ _ _ _ _ _ D) as (n1 & -> & F1).
    unfold logger. rewrite <- app_assoc. eexists. split; [reflexivity|].
    left. rewrite filter_app, F1. reflexivity.
  - destruct (cmd_download_quiet _ _ _ _ _ _ _ D) as (n1 & -> & F1).
    apply cmd_download_inv in D as (_ & _ & _ & -> & _).
    set (msgs := map entry_of (filter (passes f t) (stream_of env tr u))).
    assert (Hs : forallb entry_schema msgs = true) by apply kept_schema.
    set (today := now env (tr ++ n1)%list).
    unfold perform.
    destruct (write_file env (tr ++ n1)%list _ (Json.dumps (VList msgs) 4))
      as [e|] eqn:W.
    + unfold logger. rewrite <- !app_assoc. eexists. split; [reflexivity|].
      right. exists msgs, today, (Some e).
      split; [|exact Hs]. rewrite !filter_app, F1. reflexivity.
    + match goal with
      | |- context [Cmd.upload_file_to_s3 env ?b ?p ?k ?x] =>
          destruct (Cmd.upload_file_to_s3 env b p k x) as [[e|url] tr3] eqn:U;
          destruct (cmd_upload_quiet _ _ _ _ _ _ _ U) as (n3 & -> & F3)
      end; unfold logger; rewrite <- !app_assoc;
        (eexists; split; [reflexivity|]);
        right; exists msgs, today, None;
        (split; [|exact Hs]); rewrite !filter_app, F1, F3; reflexivity.
Qed.

Lemma cmd_loop_writes (env : Env) (f t : option Datetime.datetime)
    (usernames : list string) :
  forall tr,
  exists new,
    Cmd.for_usernames env usernames f t tr = (inr tt, (tr ++ new)%list)
    /\ (forall ev, In ev (filter is_write new) ->
          exists u msgs today raised,
            In u usernames /\ ev = cli_artifact_write u today msgs raised
            /\ forallb entry_schema msgs = true)
    /\ (List.length (filter is_write new) <= List.length usernames)%nat.
Proof.
  induction usernames as [|u rest IH]; intros tr; simpl.
  - exists []. unfold ret. rewrite app_nil_r. simpl.
    split; [reflexivity|]. split; [contradiction | lia].
  - unfold bind. destruct (cmd_turn_writes env u f t tr) as (n1 & -> & H1).
    destruct (IH (tr ++ n1)%list) as (n2 & -> & H2 & L2).
    exists (n1 ++ n2)%list. rewrite <- app_assoc. split; [reflexivity|].
    rewrite filter_app, length_app. split.
    + intros ev Hev. apply in_app_or in Hev as [Hev | Hev].
      * destruct H1 as [E | (msgs & today & raised & E & Hs)];
          rewrite E in Hev; [contradiction|].
        destruct Hev as [<- | []]. exists u, msgs, today, raised. auto.
      * destruct (H2 ev Hev) as (u' & msgs & today & raised & Hu & -> & Hs).
        exists u', msgs, today, raised. auto.
    + destruct H1 as [E | (msgs & today & raised & E & Hs)];
        rewrite E; simpl; lia.
Qed.

(** The claim as the specification states it fails on the artifacts of
    the command line tool: the file it writes for chat A starts with a
    bracket, so it is the text of no document of the schema
    [{token_name, message_count, messages}]. *)
Lemma cli_artifact_is_a_bare_list_counterexample :
  exists filename content tr',
    Cmd.process_chats Demo.env "chats.txt" (Demo.day 2024 1 1)
      (Demo.day 2024 1 1) [] = (inr tt, tr')
    /\ In (Call (WriteFile filename content) None) tr'
    /\ filename = "telegram_A_2024_01_03.json"
    /\ content = Json.dumps (VList Demo.kept) 4
    /\ starts_with "[" content = true
    /\ forall doc, artifact_schema doc = true -> Json.dumps doc 4 <> content.
Proof.
  eexists. eexists. eexists.
  split; [vm_compute; reflexivity|].
  split; [simpl; repeat (first [left; reflexivity | right])|].
  split; [reflexivity|]. split; [vm_compute; reflexivity|].
  split; [reflexivity|].
  intros doc Hs E. apply schema_starts_with_brace in Hs.
  rewrite E in Hs. discriminate.
Qed.

(* ===================================================================== *)
(** * Serialization *)
(* ===================================================================== *)

Lemma py_eq_opt_int (a b : value) :
  match a with VNone | VInt _ => True | _ => False end ->
  match b with VNone | VInt _ => True | _ => False end ->
  py_eq a b = true -> a = b.
Proof.
  destruct a, b; simpl; try contradiction; try discriminate; auto.
  intros _ _ H. apply Z.eqb_eq in H. congruence.
Qed.

(** On entries of the schema, whose keys come in one order, [==] is
    equality. *)
Lemma py_eq_entry (a b : value) :
  entry_schema a = true -> entry_schema b = true ->
  py_eq a b = true -> a = b.
Proof.
  unfold entry_schema. intros Ha Hb.
  repeat match type of Ha with
         | match ?x with _ => _ end = true => destruct x; try discriminate
         | (if ?x then _ else _) = true =>
             destruct x eqn:?; try discriminate
         end;
    repeat match type of Hb with
           | match ?x with _ => _ end = true => destruct x; try discriminate
           | (if ?x then _ else _) = true =>
               destruct x eqn:?; try discriminate
           end;
    repeat match goal with
           | H : String.eqb _ _ = true |- _ => apply String.eqb_eq in H; subst
           | H : Ascii.eqb _ _ = true |- _ => apply Ascii.eqb_eq in H; subst
           end;
    simpl; rewrite ?andb_true_r; intros H;
    repeat match type of H with
           | _ && _ = true => apply andb_true_iff in H; destruct H as [? H]
           end;
    repeat match goal with
           | H : String.eqb _ _ = true |- _ => apply String.eqb_eq in H; subst
           | H : (_ =? _) = true |- _ => apply Z.eqb_eq in H; subst
           | H : false = true |- _ => discriminate H
           end; reflexivity.
Qed.

Lemma py_eq_entries (l1 : list value) :
  forall l2,
    forallb entry_schema l1 = true -> forallb entry_schema l2 = true ->
    py_eq (VList l1) (VList l2) = true -> l1 = l2.
Proof.
  induction l1 as [|a l1 IH]; intros [|b l2] H1 H2 H; simpl in *;
    try discriminate; [reflexivity|].
  apply andb_true_iff in H1 as [Ha H1]. apply andb_true_iff in H2 as [Hb H2].
  apply andb_true_iff in H as [Hab H].
  f_equal; [now apply py_eq_entry | now apply IH].
Qed.

Lemma py_eq_artifact (r1 r2 : value) :
  artifact_schema r1 = true -> artifact_schema r2 = true ->
  py_eq r1 r2 = true -> r1 = r2.
Proof.
  unfold artifact_schema. intros H1 H2.
  repeat match type of H1 with
         | match ?x with _ => _ end = true => destruct x; try discriminate
         | (if ?x then _ else _) = true =>
             destruct x eqn:?; try discriminate
         end;
    repeat match type of H2 with
           | match ?x with _ => _ end = true => destruct x; try discriminate
           | (if ?x then _ else _) = true =>
               destruct x eqn:?; try discriminate
           end;
    repeat match goal with
           | H : String.eqb _ _ = true |- _ => apply String.eqb_eq in H; subst
           | H : Ascii.eqb _ _ = true |- _ => apply Ascii.eqb_eq in H; subst
           end.
  intros H. cbn [py_eq List.length Nat.eqb forallb dict_get andb] in H.
  cbn in H.
  repeat match type of H with
         | _ && _ = true => apply andb_true_iff in H; destruct H as [? H]
         end.
  repeat match goal with
         | H : String.eqb _ _ = true |- _ => apply String.eqb_eq in H; subst
         | H : (_ =? _) = true |- _ => apply Z.eqb_eq in H; subst
         end.
  repeat f_equal. apply py_eq_entries; assumption.
Qed.

Lemma py_eq_entry_refl (a : value) :
  entry_schema a = true -> py_eq a a = true.
Proof.
  unfold entry_schema. intros Ha.
  repeat match type of Ha with
         | match ?x with _ => _ end = true => destruct x; try discriminate
         | (if ?x then _ else _) = true =>
             destruct x eqn:?; try discriminate
         end;
    repeat match goal with
           | H : String.eqb _ _ = true |- _ => apply String.eqb_eq in H; subst
           | H : Ascii.eqb _ _ = true |- _ => apply Ascii.eqb_eq in H; subst
           end;
    simpl; rewrite ?String.eqb_refl, ?Z.eqb_refl; reflexivity.
Qed.

Lemma py_eq_entries_refl (l : list value) :
  forallb entry_schema l = true -> py_eq (VList l) (VList l) = true.
Proof.
  induction l as [|a l IH]; simpl; [reflexivity|].
  intros H. apply andb_true_iff in H as [Ha Hl].
  rewrite (py_eq_entry_refl a Ha). now apply IH.
Qed.

Lemma py_eq_artifact_refl (r : value) :
  artifact_schema r = true -> py_eq r r = true.
Proof.
  unfold artifact_schema. intros H1.
  repeat match type of H1 with
         | match ?x with _ => _ end = true => destruct x; try discriminate
         | (if ?x then _ else _) = true =>
             destruct x eqn:?; try discriminate
         end;
    repeat match goal with
           | H : String.eqb _ _ = true |- _ => apply String.eqb_eq in H; subst
           | H : Ascii.eqb _ _ = true |- _ => apply Ascii.eqb_eq in H; subst
           end.
  cbn [py_eq List.length Nat.eqb forallb dict_get andb]. cbn.
  rewrite String.eqb_refl, Z.eqb_refl. simpl.
  rewrite andb_true_r. now apply py_eq_entries_refl.
Qed.

(** In general the text depends on the order of the keys, which [==]
    does not see. *)
Lemma dumps_follows_key_order :
  py_eq (VDict [("a", VInt 1); ("b", VInt 2)])
        (VDict [("b", VInt 2); ("a", VInt 1)]) = true
  /\ Json.dumps (VDict [("a", VInt 1); ("b", VInt 2)]) 4
     <> Json.dumps (VDict [("b", VInt 2); ("a", VInt 1)]) 4.
Proof. split; [reflexivity | vm_compute; discriminate]. Qed.

(** ** The text of a result *)

Lemma append_assoc (a b c : string) : ((a ++ b) ++ c)%string = (a ++ b ++ c)%string.
Proof. induction a as [|x a IH]; simpl; [reflexivity | now rewrite IH]. Qed.

(** The text of an entry at the nesting [level]. *)
Lemma entry_text_at (level : nat) (m : Message) (d : Datetime.datetime)
    (x : string) :
  Json.iterencode 4 level (message_entry m d x)
  = entry_text (Py.repeat_char " " (4 * S level))
               (Py.repeat_char " " (4 * level)) m d x.
Proof.
  unfold message_entry, entry_text, opt_int_text, opt_int, quoted, line.
  cbn [Json.iterencode map Json.join].
  unfold Json.newline_indent.
  destruct (sender_id m); cbn [Json.iterencode]; rewrite !append_assoc;
    reflexivity.
Qed.

Lemma result_text_dumps (tok : string) (msgs : list value) :
  Json.dumps (fetch_result tok msgs) 4 = result_text tok msgs.
Proof.
  unfold Json.dumps, fetch_result, result_text, list_text, quoted, line.
  cbn [Json.iterencode map Json.join].
  unfold Json.newline_indent.
  destruct msgs as [|e msgs]; cbn [Json.iterencode map]; rewrite !append_assoc;
    reflexivity.
Qed.

Lemma list_text_dumps (msgs : list value) :
  Json.dumps (VList msgs) 4
  = list_text "    " "" (map (Json.iterencode 4 1) msgs).
Proof.
  unfold Json.dumps, list_text, line.
  destruct msgs as [|e msgs]; reflexivity.
Qed.

(** C8. What a fetch returns is serialized in one way.  The text of the
    [FetchResult] of [api.py] under [json.dumps(..., indent=4)] has the
    keys [token_name], [message_count], [messages] in this order,
    indented by four spaces, and every message has the keys [date],
    [sender_id], [message], [message_id] in this order, indented by
    twelve; the text of the list of [cmd.py] has the same messages
    indented by eight.  Every result has its keys in this one order, so
    that two results that are the same value ([==]) have the same text,
    byte for byte, although the text of a dictionary depends on the
    order of its keys, which [==] does not see. *)
Theorem serialization_is_deterministic :
  (forall env u tok f t tr r tr',
      Api.download_chat_messages env u tok f t tr = (inr r, tr') ->
      exists msgs,
        r = fetch_result tok msgs /\ Forall is_entry msgs
        /\ artifact_schema r = true
        /\ Json.dumps r 4 = result_text tok msgs)
  /\ (forall env u f t tr r tr',
        Cmd.download_chat_messages env u f t tr = (inr r, tr') ->
        exists msgs,
          r = VList msgs /\ Forall is_entry msgs
          /\ forallb entry_schema msgs = true
          /\ Json.dumps r 4
             = list_text "    " "" (map (Json.iterencode 4 1) msgs))
  /\ (forall m d x,
        Json.iterencode 4 2 (message_entry m d x)
        = entry_text "            " "        " m d x
        /\ Json.iterencode 4 1 (message_entry m d x)
           = entry_text "        " "    " m d x)
  /\ (forall r1 r2,
        artifact_schema r1 = true -> artifact_schema r2 = true ->
        py_eq r1 r2 = true -> Json.dumps r1 4 = Json.dumps r2 4)
  /\ (forall l1 l2,
        forallb entry_schema l1 = true -> forallb entry_schema l2 = true ->
        py_eq (VList l1) (VList l2) = true ->
        Json.dumps (VList l1) 4 = Json.dumps (VList l2) 4)
  /\ (py_eq (VDict [("a", VInt 1); ("b", VInt 2)])
            (VDict [("b", VInt 2); ("a", VInt 1)]) = true
      /\ Json.dumps (VDict [("a", VInt 1); ("b", VInt 2)]) 4
         <> Json.dumps (VDict [("b", VInt 2); ("a", VInt 1)]) 4).
Proof.
  assert (Entries : forall f t stream,
             Forall is_entry (map entry_of (filter (passes f t) stream))).
  { intros f t stream. apply Forall_forall. intros e He.
    apply in_filtered in He as (m & _ & Hp & ->).
    apply passes_inv in Hp as (d & a & x & _ & _ & _ & _ & _ & ->).
    exists m, d, x. reflexivity. }
  split; [|split; [|split; [|split; [|split]]]].
  - intros env u tok f t tr r tr' H.
    apply api_download_inv in H as (_ & _ & _ & -> & _).
    eexists. split; [reflexivity|]. split; [apply Entries|].
    split; [apply fetch_result_schema, kept_schema | apply result_text_dumps].
  - intros env u f t tr r tr' H.
    apply cmd_download_inv in H as (_ & _ & _ & -> & _).
    eexists. split; [reflexivity|]. split; [apply Entries|].
    split; [apply kept_schema | apply list_text_dumps].
  - intros m d x. split.
    + exact (entry_text_at 2 m d x).
    + exact (entry_text_at 1 m d x).
  - intros r1 r2 H1 H2 H. now rewrite (py_eq_artifact r1 r2 H1 H2 H).
  - intros l1 l2 H1 H2 H. now rewrite (py_eq_entries l1 l2 H1 H2 H).
  - split; [reflexivity | vm_compute; discriminate].
Qed.

Lemma serialization_is_deterministic_witness :
  exists r tr',
    Api.download_chat_messages Demo.env "A" "Token_A" (Demo.day 2024 1 1)
      (Demo.day 2024 1 1) [] = (inr r, tr')
    /\ r = fetch_result "Token_A" Demo.kept
    /\ Json.dumps r 4 = result_text "Token_A" Demo.kept.
Proof.
  exists (fetch_result "Token_A" Demo.kept),
         [Call ClientStart None; Call (IterMessages "A") None].
  assert (E : Api.download_chat_messages Demo.env "A" "Token_A"
                (Demo.day 2024 1 1) (Demo.day 2024 1 1) []
              = (inr (fetch_result "Token_A" Demo.kept),
                 [Call ClientStart None; Call (IterMessages "A") None]))
    by (vm_compute; reflexivity).
  split; [exact E|]. split; [reflexivity|].
  destruct (proj1 serialization_is_deterministic _ _ _ _ _ _ _ _ E)
    as (msgs & Hr & _ & _ & Ht).
  assert (Hm : msgs = Demo.kept).
  { unfold fetch_result in Hr. now inversion Hr. }
  now subst msgs.
Defined.

(* ===================================================================== *)
(** * The count of messages *)
(* ===================================================================== *)

(** A success of the summary comes with the write of its artifact. *)
Lemma api_turns_successes (env : Env) (bucket : option string)
    (usernames : list string) (turns : list (value * list event)) :
  Forall2 (fun u turn => turn_ok env bucket u (fst turn) (snd turn))
          usernames turns ->
  forall o, In o (map fst turns) ->
    lookup "status" o = Some (VStr "success") ->
    exists u today msgs,
      In u usernames
      /\ o = success_outcome (Py.strip u) (VInt (Z.of_nat (List.length msgs)))
               (s3_url env bucket (Api.artifact_name u today))
      /\ In (artifact_write u today msgs None) (List.concat (map snd turns)).
Proof.
  induction 1 as [|u turn us ts H _ IH]; simpl; [contradiction|].
  intros o [<- | Ho] Hs.
  - destruct H as [(msgs & today & Eo & Ew & _) | (err & Eo & _)].
    + exists u, today, msgs. rewrite Ew. simpl. auto.
    + rewrite Eo in Hs. discriminate.
  - destruct (IH o Ho Hs) as (u' & today & msgs & Hu & Eo & Hw).
    exists u', today, msgs. repeat split; auto.
    apply in_or_app. auto.
Qed.

(** C9. In the result of a fetch [message_count] is the length of
    [messages]; and a success of the summary reports the number of
    messages of the document written, without an exception, to the
    artifact of its username. *)
Theorem message_count_matches_messages (env : Env)
    (usernames : list string) (f t : option Datetime.datetime)
    (bucket : option string) (tr : trace) :
  (forall u tok r tr',
      Api.download_chat_messages env u tok f t tr = (inr r, tr') ->
      exists msgs,
        lookup "messages" r = Some (VList msgs)
        /\ lookup "message_count" r
           = Some (VInt (Z.of_nat (List.length msgs))))
  /\ (exists summary new,
        Api.for_usernames env usernames f t bucket [] tr
        = (inr summary, (tr ++ new)%list)
        /\ forall o,
             In o summary -> lookup "status" o = Some (VStr "success") ->
             exists u today msgs,
               In u usernames
               /\ lookup "username" o = Some (VStr (Py.strip u))
               /\ lookup "message_count" o
                  = Some (VInt (Z.of_nat (List.length msgs)))
               /\ In (Call (WriteFile
                              (Api.artifact_name u today)
                              (Json.dumps
                                 (fetch_result ("Token_" ++ Py.strip u) msgs)
                                 4))
                           None) new
               /\ lookup "messages"
                         (fetch_result ("Token_" ++ Py.strip u) msgs)
                  = Some (VList msgs)).
Proof.
  split.
  - intros u tok r tr' H.
    apply api_download_inv in H as (_ & _ & _ & -> & _).
    eexists. split; reflexivity.
  - destruct (api_loop env f t bucket usernames [] tr)
      as (turns & new & E & F & T).
    exists (map fst turns), new. split; [exact E|].
    intros o Ho Hs.
    destruct (api_turns_successes env bucket usernames turns T o Ho Hs)
      as (u & today & msgs & Hu & -> & Hw).
    exists u, today, msgs. repeat split; auto.
    rewrite <- F in Hw. apply filter_In in Hw as [Hw _]. exact Hw.
Qed.

Lemma message_count_matches_messages_witness :
  Api.download_chat_messages Demo.env "A" "Token_A" (Demo.day 2024 1 1)
    (Demo.day 2024 1 1) []
  = (inr (fetch_result "Token_A" Demo.kept),
     [Call ClientStart None; Call (IterMessages "A") None])
  /\ exists msgs,
       lookup "messages" (fetch_result "Token_A" Demo.kept)
       = Some (VList msgs)
       /\ lookup "message_count" (fetch_result "Token_A" Demo.kept)
          = Some (VInt (Z.of_nat (List.length msgs))).
Proof.
  split; [vm_compute; reflexivity|].
  apply (proj1 (message_count_matches_messages Demo.env []
                  (Demo.day 2024 1 1) (Demo.day 2024 1 1) None [])
           "A" "Token_A" _
           [Call ClientStart None; Call (IterMessages "A") None]).
  vm_compute. reflexivity.
Defined.

(* ===================================================================== *)
(** * The scheduled service *)
(* ===================================================================== *)

(** A run of [process_messages_daily] ends at the first name it does not
    define: it reads the list of usernames, logs the error and returns,
    and no chat is fetched. *)
Lemma scheduled_run_stops_before_the_loop (env : Env) (path : string)
    (tr : trace) :
  exists new,
    ApiTime.process_messages_daily env path tr = (inr tt, (tr ++ new)%list)
    /\ forall c raised, In (Call c raised) new -> c = ReadFile path.
Proof.
  unfold ApiTime.process_messages_daily, ApiTime.undefined_name, read_text.
  unfold_run.
  destruct (Datetime.minus_days _ 1) as [d|]; simpl.
  - destruct (read_file env _ path) as [e|content]; simpl;
      rewrite <- !app_assoc; (eexists; split; [reflexivity|]);
      intros c raised [H | [H | [H | []]]]; inversion H; reflexivity.
  - rewrite <- !app_assoc. eexists; split; [reflexivity|].
    intros c raised [H | [H | []]]; inversion H.
Qed.

(* ===================================================================== *)
(** * Runs of the program *)
(* ===================================================================== *)

Example ord_2024_01_01 :
  Datetime.ymd2ord (Datetime.mkdate 2024 1 1) = 738886
  /\ Datetime.ord2ymd 738886 = Datetime.mkdate 2024 1 1
  /\ Datetime.ord2ymd 738885 = Datetime.mkdate 2023 12 31
  /\ Datetime.ord2ymd 738945 = Datetime.mkdate 2024 2 29
  /\ Datetime.ord2ymd Datetime.MAXORDINAL = Datetime.mkdate 9999 12 31
  /\ Datetime.ord2ymd 1 = Datetime.mkdate 1 1 1.
Proof. repeat split; vm_compute; reflexivity. Qed.

Example strptime_examples :
  Datetime.strptime_Y_m_d "2024-01-01" = Some (Datetime.mkdate 2024 1 1)
  /\ Datetime.strptime_Y_m_d "2024/01/01" = None
  /\ Datetime.strptime_Y_m_d "2024-1-5" = Some (Datetime.mkdate 2024 1 5)
  /\ Datetime.strptime_Y_m_d "2024-02-30" = None
  /\ Datetime.strptime_Y_m_d "2024-12-31" = Some (Datetime.mkdate 2024 12 31)
  /\ Datetime.strptime_Y_m_d "2024-13-01" = None
  /\ Datetime.strptime_Y_m_d "2024-01-315" = None
  /\ Datetime.strptime_Y_m_d "" = None.
Proof. repeat split; vm_compute; reflexivity. Qed.

Example isoformat_example :
  Datetime.isoformat (Demo.utc 2024 1 1 8 0) = "2024-01-01T08:00:00+00:00"
  /\ Py.strip "  ab c  " = "ab c"
  /\ Py.str_of_int (-12) = "-12" /\ Py.str_of_int 0 = "0".
Proof. repeat split; vm_compute; reflexivity. Qed.

(** A message stamped 01:30 at UTC+2 on 2 January belongs to 1 January. *)
Example utc_date_of_an_offset :
  utc_date (mkMessage 16
              (Some (Datetime.mkdt (Datetime.mkdate 2024 1 2) 1 30 0 0
                       (7200 * Datetime.US_PER_SECOND)))
              (Some "evening") (Some 9))
  = Some (Datetime.mkdate 2024 1 1).
Proof. vm_compute. reflexivity. Qed.

(** The end-to-end scenario of the specification: of a message of the day
    before, a message "hi" and a message with an empty text, the one-day
    window keeps "hi" alone. *)
Example end_to_end_scenario :
  exists entry tr',
    Api.download_chat_messages Demo.scenario_env "channelX" "Token_channelX"
      (Demo.day 2024 1 1) (Demo.day 2024 1 1) []
    = (inr (fetch_result "Token_channelX" [entry]), tr')
    /\ lookup "message_count" (fetch_result "Token_channelX" [entry])
       = Some (VInt 1)
    /\ lookup "message" entry = Some (VStr "hi").
Proof.
  eexists. eexists. split; [vm_compute; reflexivity|].
  split; reflexivity.
Qed.

(** The batch of the three identifiers, with chat B missing. *)
Example batch_of_three :
  exists tr',
    Api.process_messages_file Demo.env (inr Demo.listing)
      (Some "2024-01-01") (Some "2024-01-01") []
    = (inr (VDict
              [ ("summary",
                 VList
                   [ success_outcome "A" (VInt 2)
                       "https://bucket.s3.us-west-2.amazonaws.com/telegram_A_2024_01_03.json";
                     failed_outcome "B" "Chat 'B' not found or inaccessible.";
                     success_outcome "C" (VInt 2)
                       "https://bucket.s3.us-west-2.amazonaws.com/telegram_C_2024_01_03.json" ]) ]),
       tr').
Proof. eexists. vm_compute. reflexivity. Qed.

(** Four spaces for each level of nesting. *)
Example dumps_indentation :
  Json.dumps (VDict [ ("a", VList [VInt 1; VNone]) ]) 4
  = "{" ++ String Py.newline
      ("    " ++ Json.encode_basestring_ascii "a" ++ ": ["
       ++ String Py.newline
         ("        1," ++ String Py.newline
            ("        null" ++ String Py.newline
               ("    ]" ++ String Py.newline "}")))).
Proof. vm_compute. reflexivity. Qed.

(** A file with the line ends of three systems is read as three
    lines. *)
Example readlines_universal_newlines :
  Text.readlines
    ("A" ++ String (ascii_of_nat 13)
       ("B" ++ String (ascii_of_nat 13) (String Py.newline "C")))
  = [ "A" ++ String Py.newline ""; "B" ++ String Py.newline ""; "C" ].
Proof. reflexivity. Qed.

(** A year before 1000: [%Y] does not pad it, [isoformat] does. *)
Example early_year :
  Datetime.strftime_ymd "-" (Demo.utc 999 12 31 0 0) = "999-12-31"
  /\ Datetime.isoformat (Demo.utc 999 12 31 0 0) = "0999-12-31T00:00:00+00:00"
  /\ Api.parse_date "999-12-31"
     = inl (HTTPException 400 "Invalid date format. Use YYYY-MM-DD.")
  /\ Api.parse_date "0999-12-31" = inr (Demo.utc 999 12 31 0 0).
Proof. repeat split; vm_compute; reflexivity. Qed.

(* ===================================================================== *)
(** * The failures of a fetch *)
(* ===================================================================== *)

(** The two programs fail on a fetch in the same cases.  Where the
    command line tool lets the exception of Telegram through, the service
    raises an [HTTPException] 500 whose detail is the text of this very
    exception; where Telegram says that the chat is invalid, the tool
    raises a [ValueError] and the service an [HTTPException] 404, with
    the same text.  Where they return, they return the same messages. *)
Theorem fetch_failures_agree (env : Env) (u tok : string)
    (f t : option Datetime.datetime) (tr : trace) :
  exists ra rc tra trc,
    Api.download_chat_messages env u tok f t tr = (ra, tra)
    /\ Cmd.download_chat_messages env u f t tr = (rc, trc)
    /\ match ra, rc with
       | inr a, inr c =>
           exists msgs, a = fetch_result tok msgs /\ c = VList msgs
       | inl ea, inl ec =>
           (ea = HTTPException 404
                   ("Chat '" ++ u ++ "' not found or inaccessible.")
            /\ ec = ValueError
                      ("Chat '" ++ u ++ "' not found or inaccessible."))
           \/ (ea = HTTPException 500
                      ("Error downloading messages: " ++ str ec)
               /\ forall m, ec <> ChatInvalidError m)
       | _, _ => False
       end.
Proof.
  unfold Api.download_chat_messages, Cmd.download_chat_messages. unfold_run.
  destruct (is_connected env tr); simpl;
    [| destruct (client_start env tr) as [e|];
       [destruct e; simpl; eexists _, _, _, _;
        (split; [reflexivity|]); (split; [reflexivity|]);
        first [left; split; reflexivity
              | right; split; [reflexivity | intros m; discriminate]] |] ];
    match goal with
    | |- context [iter_messages env ?x u] =>
        destruct (iter_messages env x u) as [items failure]; simpl
    end;
    (destruct (message_loop f t items []) as [e|msgs];
     [destruct e; simpl; eexists _, _, _, _;
      (split; [reflexivity|]); (split; [reflexivity|]);
      first [left; split; reflexivity
            | right; split; [reflexivity | intros m; discriminate]] |]);
    (destruct failure as [e|];
     [destruct e; simpl; eexists _, _, _, _;
      (split; [reflexivity|]); (split; [reflexivity|]);
      first [left; split; reflexivity
            | right; split; [reflexivity | intros m; discriminate]]
     | simpl; eexists _, _, _, _;
       (split; [reflexivity|]); (split; [reflexivity|]);
       eexists; split; reflexivity]).
Qed.

(** A fetch talks to Telegram only: it starts the client when, and only
    when, the client is not connected, and opens the one stream of its
    chat unless the start failed. *)
Theorem fetch_opens_one_stream (env : Env) (u tok : string)
    (f t : option Datetime.datetime) (tr : trace) :
  let expected :=
    if is_connected env tr then [IterMessages u]
    else match client_start env tr with
         | None => [ClientStart; IterMessages u]
         | Some _ => [ClientStart]
         end in
  exists ra rc new new',
    Api.download_chat_messages env u tok f t tr = (ra, (tr ++ new)%list)
    /\ Cmd.download_chat_messages env u f t tr = (rc, (tr ++ new')%list)
    /\ calls new = expected /\ calls new' = expected.
Proof.
  unfold Api.download_chat_messages, Cmd.download_chat_messages. unfold_run.
  destruct (is_connected env tr); simpl;
    [| destruct (client_start env tr) as [e|];
       [destruct e; simpl; rewrite <- ?app_assoc; eexists _, _, _, _;
        (split; [reflexivity|]); (split; [reflexivity|]);
        split; reflexivity |] ];
    match goal with
    | |- context [iter_messages env ?x u] =>
        destruct (iter_messages env x u) as [items failure]; simpl
    end;
    (destruct (message_loop f t items []) as [e|msgs];
     [destruct e; simpl; rewrite <- ?app_assoc; eexists _, _, _, _;
      (split; [reflexivity|]); (split; [reflexivity|]);
      split; reflexivity |]);
    (destruct failure as [e|];
     [destruct e; simpl; rewrite <- ?app_assoc; eexists _, _, _, _;
      (split; [reflexivity|]); (split; [reflexivity|]);
      split; reflexivity
     | simpl; rewrite <- ?app_assoc; eexists _, _, _, _;
       (split; [reflexivity|]); (split; [reflexivity|]);
       split; reflexivity]).
Qed.

(* ===================================================================== *)
(** * Windows *)
(* ===================================================================== *)

Lemma subseq_refl {A} (l : list A) : subseq l l.
Proof. induction l; [apply subseq_nil | now apply subseq_keep]. Qed.

Lemma subseq_filter {A} (p q : A -> bool) (l : list A) :
  (forall x, p x = true -> q x = true) ->
  subseq (filter p l) (filter q l).
Proof.
  intros H. induction l as [|x l IH]; simpl; [apply subseq_nil|].
  destruct (p x) eqn:Hp.
  - rewrite (H x Hp). now apply subseq_keep.
  - destruct (q x); [now apply subseq_skip | exact IH].
Qed.

Lemma subseq_map {A B} (g : A -> B) (l l' : list A) :
  subseq l l' -> subseq (map g l) (map g l').
Proof.
  induction 1; simpl;
    [apply subseq_nil | now apply subseq_skip | now apply subseq_keep].
Qed.

Lemma subseq_length {A} (l l' : list A) :
  subseq l l' -> (List.length l <= List.length l')%nat.
Proof. induction 1; simpl; lia. Qed.

Lemma subseq_In {A} (l l' : list A) :
  subseq l l' -> forall x, In x l -> In x l'.
Proof.
  induction 1; simpl; intros y Hy; auto.
  destruct Hy; auto.
Qed.

Lemma date_lt_not_leq (a b : Datetime.date) :
  Datetime.date_lt a b = true -> ~ date_leq b a.
Proof.
  intros H Hl. apply date_le_leq in Hl. unfold Datetime.date_le in Hl.
  rewrite H in Hl. discriminate.
Qed.

(** A window whose start lies after its end is not refused: it holds no
    date, so that on a source that does not fail both programs return an
    empty result, with a count of zero. *)
Theorem inverted_window_is_empty (env : Env) (u tok : string)
    (x y : Datetime.datetime) (tr : trace) :
  Datetime.date_lt (Datetime.dt_date y) (Datetime.dt_date x) = true ->
  (is_connected env tr = true \/ client_start env tr = None) ->
  snd (iter_messages env (trace_at_stream env tr) u) = None ->
  forallb converts (stream_of env tr u) = true ->
  (forall d, in_window (Some x) (Some y) d = false)
  /\ (exists tr',
        Api.download_chat_messages env u tok (Some x) (Some y) tr
        = (inr (VDict [ ("token_name", VStr tok);
                        ("message_count", VInt 0);
                        ("messages", VList []) ]), tr'))
  /\ (exists tr',
        Cmd.download_chat_messages env u (Some x) (Some y) tr
        = (inr (VList []), tr')).
Proof.
  intros Hinv Hc Hf Hv.
  assert (Hw : forall d, in_window (Some x) (Some y) d = false).
  { intros d. destruct (in_window (Some x) (Some y) d) eqn:E; [|reflexivity].
    apply in_window_leq in E as [[E1 | (x' & E1 & L1)] [E2 | (y' & E2 & L2)]];
      try discriminate.
    inversion E1; inversion E2; subst.
    exfalso. apply (date_lt_not_leq _ _ Hinv).
    eapply date_leq_trans; eauto. }
  assert (Hn : forall l, filter (passes (Some x) (Some y)) l = []).
  { induction l as [|m l IH]; [reflexivity|]. simpl.
    unfold passes at 1. destruct (utc_date m); [rewrite Hw|]; simpl; exact IH. }
  split; [exact Hw|]. split.
  - rewrite (api_download_total env u tok _ _ tr Hc Hf Hv), Hn.
    eexists. reflexivity.
  - rewrite (cmd_download_total env u _ _ tr Hc Hf Hv), Hn.
    eexists. reflexivity.
Qed.

Lemma inverted_window_is_empty_witness :
  exists tr',
    Api.download_chat_messages Demo.env "A" "Token_A"
      (Demo.day 2024 1 2) (Demo.day 2024 1 1) []
    = (inr (VDict [ ("token_name", VStr "Token_A");
                    ("message_count", VInt 0);
                    ("messages", VList []) ]), tr').
Proof.
  refine (proj1 (proj2
            (inverted_window_is_empty Demo.env "A" "Token_A"
               (Demo.utc 2024 1 2 0 0) (Demo.utc 2024 1 1 0 0) [] _ _ _ _))).
  - reflexivity.
  - right. reflexivity.
  - reflexivity.
  - vm_compute. reflexivity.
Defined.

Lemma kept_only_that_day (x y : Datetime.datetime) (stream : list Message) :
  Datetime.dt_date x = Datetime.dt_date y ->
  only_that_day (Datetime.dt_date x) stream
    (map entry_of (filter (passes (Some x) (Some y)) stream)).
Proof.
  intros Hxy. split.
  - intros e He. apply in_filtered in He as (m & Hi & Hp & ->).
    apply passes_iff in Hp as (d & txt & Hd & [Hf Ht] & _).
    destruct Hf as [Hf | (x' & Hf & Lf)]; [discriminate|].
    destruct Ht as [Ht | (y' & Ht & Lt)]; [discriminate|].
    inversion Hf; inversion Ht; subst x' y'. rewrite <- Hxy in Lt.
    exists m. repeat split; auto.
    rewrite Hd. f_equal. now apply date_leq_antisym.
  - intros m txt Hi Hd Ht Hne. apply in_filtered. exists m.
    repeat split; auto. apply passes_iff.
    exists (Datetime.dt_date x), txt. repeat split; auto.
    + right. exists x. split; [reflexivity | apply date_leq_refl].
    + right. exists y. split; [reflexivity|]. rewrite Hxy. apply date_leq_refl.
Qed.

(** With the same day as the start and the end of the window, as the
    scheduled service asks for, what each program returns holds exactly
    the messages with a text whose UTC calendar date is that day; on a
    source that does not fail both programs do return. *)
Theorem one_day_window_keeps_that_day (env : Env) (u tok : string)
    (x y : Datetime.datetime) (tr : trace) :
  Datetime.dt_date x = Datetime.dt_date y ->
  let stream := stream_of env tr u in
  (forall r tr',
      Api.download_chat_messages env u tok (Some x) (Some y) tr = (inr r, tr') ->
      exists msgs,
        lookup "messages" r = Some (VList msgs)
        /\ lookup "message_count" r
           = Some (VInt (Z.of_nat (List.length msgs)))
        /\ only_that_day (Datetime.dt_date x) stream msgs)
  /\ (forall r tr',
        Cmd.download_chat_messages env u (Some x) (Some y) tr = (inr r, tr') ->
        exists msgs,
          r = VList msgs /\ only_that_day (Datetime.dt_date x) stream msgs)
  /\ ((is_connected env tr = true \/ client_start env tr = None) ->
      snd (iter_messages env (trace_at_stream env tr) u) = None ->
      forallb converts stream = true ->
      both_fetch env u tok (Some x) (Some y) tr
        (only_that_day (Datetime.dt_date x) stream)).
Proof.
  intros Hxy stream. apply fetch_by_program. intros _.
  now apply kept_only_that_day.
Qed.

Lemma one_day_window_keeps_that_day_witness :
  exists tr',
    Api.download_chat_messages Demo.env "A" "Token_A" (Demo.day 2024 1 1)
      (Demo.day 2024 1 1) []
    = (inr (fetch_result "Token_A" Demo.kept), tr')
    /\ Cmd.download_chat_messages Demo.env "A" (Demo.day 2024 1 1)
         (Demo.day 2024 1 1) []
       = (inr (VList Demo.kept), tr')
    /\ only_that_day (Datetime.mkdate 2024 1 1)
         (stream_of Demo.env [] "A") Demo.kept.
Proof.
  destruct (proj2 (proj2
              (one_day_window_keeps_that_day Demo.env "A" "Token_A"
                 (Demo.utc 2024 1 1 0 0) (Demo.utc 2024 1 1 0 0) [] eq_refl))
              (or_intror eq_refl) eq_refl eq_refl)
    as (msgs & tr' & Ea & Ec & W).
  assert (E : msgs = Demo.kept).
  { vm_compute in Ec. now inversion Ec. }
  subst msgs. exists tr'. auto.
Defined.

Lemma wider_passes (f' t' f t : option Datetime.datetime) (m : Message) :
  wider f' t' f t -> passes f t m = true -> passes f' t' m = true.
Proof.
  intros [Wf Wt] H. apply passes_iff in H as (d & txt & Hd & [Hf Ht] & Hx).
  apply passes_iff. exists d, txt. split; [exact Hd|]. split; [|exact Hx].
  split.
  - destruct Wf as [-> | (x' & x & -> & -> & L)]; [now left|].
    destruct Hf as [Hf | (x0 & Hf & L0)]; [discriminate|].
    inversion Hf; subst x0. right. exists x'. split; [reflexivity|].
    eapply date_leq_trans; eauto.
  - destruct Wt as [-> | (y' & y & -> & -> & L)]; [now left|].
    destruct Ht as [Ht | (y0 & Ht & L0)]; [discriminate|].
    inversion Ht; subst y0. right. exists y'. split; [reflexivity|].
    eapply date_leq_trans; eauto.
Qed.

(** Widening the window never loses a message: on the same stream, the
    result for a window is the result for any window that contains it,
    with some entries left out and the order kept. *)
Theorem wider_window_keeps_more (env : Env) (u : string)
    (f t f' t' : option Datetime.datetime) (tr : trace)
    (msgs msgs' : list value) :
  wider f' t' f t ->
  fetch_returns env u f t tr msgs ->
  fetch_returns env u f' t' tr msgs' ->
  subseq msgs msgs'
  /\ (List.length msgs <= List.length msgs')%nat
  /\ forall e, In e msgs -> In e msgs'.
Proof.
  intros W H H'.
  apply fetch_returns_filter in H as [_ ->].
  apply fetch_returns_filter in H' as [_ ->].
  assert (S : subseq (map entry_of (filter (passes f t) (stream_of env tr u)))
                     (map entry_of (filter (passes f' t') (stream_of env tr u)))).
  { apply subseq_map, subseq_filter. intros m. now apply wider_passes. }
  split; [exact S|]. split; [now apply subseq_length | now apply subseq_In].
Qed.

Lemma wider_window_keeps_more_witness :
  wider None (Demo.day 2024 1 2) (Demo.day 2024 1 1) (Demo.day 2024 1 1)
  /\ subseq Demo.kept
       (map entry_of
          (filter (passes None (Demo.day 2024 1 2))
                  (stream_of Demo.env [] "A"))).
Proof.
  assert (W : wider None (Demo.day 2024 1 2)
                (Demo.day 2024 1 1) (Demo.day 2024 1 1)).
  { split; [left; reflexivity|]. right.
    exists (Demo.utc 2024 1 2 0 0), (Demo.utc 2024 1 1 0 0).
    split; [reflexivity|]. split; [reflexivity|].
    unfold date_leq. simpl. lia. }
  assert (H : fetch_returns Demo.env "A" (Demo.day 2024 1 1)
                (Demo.day 2024 1 1) [] Demo.kept) by demo_fetch_returns.
  assert (H' : fetch_returns Demo.env "A" None (Demo.day 2024 1 2) []
                 (map entry_of
                    (filter (passes None (Demo.day 2024 1 2))
                            (stream_of Demo.env [] "A"))))
    by demo_fetch_returns.
  split.
  - exact W.
  - exact (proj1
             (wider_window_keeps_more Demo.env "A" _ _ _ _ [] _ _ W H H')).
Defined.

(** The count of a result lies between zero and the number of messages
    the source yielded. *)
Theorem message_count_is_bounded (env : Env) (u tok : string)
    (f t : option Datetime.datetime) (tr tr' : trace) (r : value) :
  Api.download_chat_messages env u tok f t tr = (inr r, tr') ->
  exists n,
    lookup "message_count" r = Some (VInt n)
    /\ 0 <= n <= Z.of_nat (List.length (stream_of env tr u)).
Proof.
  intros H. apply api_download_inv in H as (_ & _ & _ & -> & _).
  eexists. split; [reflexivity|].
  rewrite length_map. split; [lia|].
  apply Nat2Z.inj_le, filter_length_le.
Qed.

Lemma message_count_is_bounded_witness :
  exists n,
    lookup "message_count" (fetch_result "Token_A" Demo.kept) = Some (VInt n)
    /\ 0 <= n <= Z.of_nat (List.length (stream_of Demo.env [] "A")).
Proof.
  apply (message_count_is_bounded Demo.env "A" "Token_A"
           (Demo.day 2024 1 1) (Demo.day 2024 1 1) []
           [Call ClientStart None; Call (IterMessages "A") None]).
  vm_compute. reflexivity.
Defined.

(* ===================================================================== *)
(** * The bucket and the upload *)
(* ===================================================================== *)

(** [create_s3_bucket] builds a client, asks for the bucket, and tries to
    create it only when the answer is a [ClientError]; it returns when
    the bucket was there or was created, and never creates a bucket it
    has seen.  Both programs make the same calls and return in the same
    cases. *)
Theorem bucket_is_checked_before_it_is_created (env : Env)
    (b : option string) (tr : trace) :
  exists ra rc new new',
    Api.create_s3_bucket env b tr = (ra, (tr ++ new)%list)
    /\ Cmd.create_s3_bucket env b tr = (rc, (tr ++ new')%list)
    /\ calls new = calls new'
    /\ (calls new = [Boto3Client]
        \/ calls new = [Boto3Client; HeadBucket b]
        \/ calls new = [Boto3Client; HeadBucket b; CreateBucket b])
    /\ (In (CreateBucket b) (calls new) <->
        exists m, In (Call (HeadBucket b) (Some (ClientError m))) new)
    /\ (ra = inr tt <->
        In (Call (HeadBucket b) None) new
        \/ In (Call (CreateBucket b) None) new)
    /\ (ra = inr tt <-> rc = inr tt).
Proof.
  unfold Api.create_s3_bucket, Cmd.create_s3_bucket,
    Api.create_s3_client, Cmd.create_s3_client.
  unfold_run.
  destruct (boto3_client env tr) as [e0|].
  - eexists _, _, _, _. split; [reflexivity|]. split; [reflexivity|].
    simpl. repeat split; auto; try discriminate;
      try (intros [H | []]; discriminate);
      try (intros [m [H | []]]; discriminate);
      try (intros [[H | []] | [H | []]]; discriminate).
  - destruct (head_bucket env _ b) as [e1|]; simpl.
    + destruct e1; simpl;
        try (rewrite <- ?app_assoc; eexists _, _, _, _;
             split; [reflexivity|]; split; [reflexivity|];
             simpl; repeat split; auto; try discriminate;
             try (intros [H | [H | []]]; discriminate);
             try (intros [m [H | [H | []]]]; discriminate);
             try (intros [[H | [H | []]] | [H | [H | []]]]; discriminate);
             fail).
      destruct (create_bucket env _ b) as [e2|]; simpl;
        rewrite <- ?app_assoc; eexists _, _, _, _;
        (split; [reflexivity|]); (split; [reflexivity|]);
        simpl; repeat split; auto; try discriminate;
        try (intros _; eexists; right; left; reflexivity);
        try (intros _; right; right; right; left; reflexivity);
        try (intros [[H | [H | [H | [H | []]]]] | [H | [H | [H | [H | []]]]]];
             discriminate).
    + rewrite <- ?app_assoc; eexists _, _, _, _.
      split; [reflexivity|]. split; [reflexivity|].
      simpl. repeat split; auto; try discriminate;
        try (intros [H | [H | []]]; discriminate);
        try (intros [m [H | [H | [H | []]]]]; discriminate).
Qed.

(** Where provisioning fails, the two programs differ only in what they
    raise when the bucket cannot be created: the service raises an
    [HTTPException] 500 that names the bucket and carries the text of the
    exception of S3, the tool raises that exception itself.  Any other
    exception, of building the client or of asking for the bucket, leaves
    both programs as it is. *)
Theorem bucket_failures_agree (env : Env) (b : option string) (tr : trace) :
  exists ra rc new new',
    Api.create_s3_bucket env b tr = (ra, (tr ++ new)%list)
    /\ Cmd.create_s3_bucket env b tr = (rc, (tr ++ new')%list)
    /\ match ra, rc with
       | inr _, inr _ => True
       | inl ea, inl ec =>
           (ea = ec /\ ~ In (CreateBucket b) (calls new))
           \/ (ea = HTTPException 500
                      ("Failed to create bucket '" ++ Py.fmt_opt b ++ "': "
                       ++ str ec)
               /\ In (Call (CreateBucket b) (Some ec)) new)
       | _, _ => False
       end.
Proof.
  unfold Api.create_s3_bucket, Cmd.create_s3_bucket,
    Api.create_s3_client, Cmd.create_s3_client.
  unfold_run.
  destruct (boto3_client env tr) as [e0|].
  - eexists _, _, _, _. split; [reflexivity|]. split; [reflexivity|].
    left. split; [reflexivity|]. simpl. intros [H | []]. discriminate.
  - destruct (head_bucket env _ b) as [e1|]; simpl.
    + destruct e1; simpl;
        try (rewrite <- ?app_assoc; eexists _, _, _, _;
             split; [reflexivity|]; split; [reflexivity|];
             left; split; [reflexivity|]; simpl;
             intros [H | [H | []]]; discriminate).
      destruct (create_bucket env _ b) as [e2|]; simpl;
        rewrite <- ?app_assoc; eexists _, _, _, _;
        (split; [reflexivity|]); (split; [reflexivity|]); [|exact I].
      right. split; [reflexivity|]. simpl. auto.
    + rewrite <- ?app_assoc; eexists _, _, _, _.
      split; [reflexivity|]. split; [reflexivity|]. exact I.
Qed.

(** [upload_file_to_s3] returns the address
    [https://{bucket}.s3.{region}.amazonaws.com/{key}] exactly when the
    upload did not raise.  An exception of building the client leaves
    both programs as it is, before any upload; an exception of the upload
    is wrapped by the service in an [HTTPException] 500 and passed on by
    the tool. *)
Theorem upload_returns_the_address (env : Env) (b : option string)
    (fp key : string) (tr : trace) :
  exists ra rc new new',
    Api.upload_file_to_s3 env b fp key tr = (ra, (tr ++ new)%list)
    /\ Cmd.upload_file_to_s3 env b fp key tr = (rc, (tr ++ new')%list)
    /\ calls new = calls new'
    /\ match ra, rc with
       | inr a, inr c =>
           a = "https://" ++ Py.fmt_opt b ++ ".s3."
               ++ Py.fmt_opt (AWS_REGION env) ++ ".amazonaws.com/" ++ key
           /\ c = a
           /\ calls new = [Boto3Client; UploadFile fp b key]
           /\ In (Call (UploadFile fp b key) None) new
       | inl ea, inl ec =>
           (ea = ec /\ calls new = [Boto3Client])
           \/ (ea = HTTPException 500
                      ("Failed to upload file to S3: " ++ str ec)
               /\ calls new = [Boto3Client; UploadFile fp b key]
               /\ In (Call (UploadFile fp b key) (Some ec)) new)
       | _, _ => False
       end.
Proof.
  unfold Api.upload_file_to_s3, Cmd.upload_file_to_s3,
    Api.create_s3_client, Cmd.create_s3_client.
  unfold_run.
  destruct (boto3_client env tr) as [e0|].
  - eexists _, _, _, _. split; [reflexivity|]. split; [reflexivity|].
    split; [reflexivity|]. left. split; reflexivity.
  - destruct (upload_file env _ fp b key) as [e1|]; simpl;
      rewrite <- ?app_assoc; eexists _, _, _, _;
      (split; [reflexivity|]); (split; [reflexivity|]);
      (split; [reflexivity|]).
    + right. split; [reflexivity|]. split; [reflexivity|]. simpl. auto.
    + split; [reflexivity|]. split; [reflexivity|].
      split; [reflexivity|]. simpl. auto.
Qed.

(* ===================================================================== *)
(** * What a batch does to the file system and to S3 *)
(* ===================================================================== *)

Lemma storage_events_app (a b : list event) :
  storage_events (a ++ b) = (storage_events a ++ storage_events b)%list.
Proof. apply filter_app. Qed.

Lemma fetched_app (a b : list event) :
  fetched (a ++ b) = (fetched a ++ fetched b)%list.
Proof. apply flat_map_app. Qed.

(** A fetch of [api.py] touches neither the file system nor S3, and opens
    at most the stream of its chat. *)
Lemma api_download_events (env : Env) (u tok : string)
    (f t : option Datetime.datetime) (tr : trace) :
  exists res new,
    Api.download_chat_messages env u tok f t tr = (res, (tr ++ new)%list)
    /\ storage_events new = []
    /\ (fetched new = [] \/ fetched new = [u]).
Proof.
  unfold Api.download_chat_messages. unfold_run.
  destruct (is_connected env tr); simpl;
    [| destruct (client_start env tr) as [e|];
       [destruct e; simpl; rewrite <- ?app_assoc; eexists _, _;
        (split; [reflexivity|]); (split; [reflexivity | left; reflexivity]) |] ];
    match goal with
    | |- context [iter_messages env ?x u] =>
        destruct (iter_messages env x u) as [items failure]; simpl
    end;
    (destruct (message_loop f t items []) as [e|msgs];
     [destruct e; simpl; rewrite <- ?app_assoc; eexists _, _;
      (split; [reflexivity|]); (split; [reflexivity | right; reflexivity]) |]);
    (destruct failure as [e|];
     [destruct e; simpl; rewrite <- ?app_assoc; eexists _, _;
      (split; [reflexivity|]); (split; [reflexivity | right; reflexivity])
     | simpl; rewrite <- ?app_assoc; eexists _, _;
       (split; [reflexivity|]); (split; [reflexivity | right; reflexivity])]).
Qed.

(** One turn of the loop of [api.py], seen from the file system and
    S3. *)
Lemma api_turn_storage (env : Env) (u : string)
    (f t : option Datetime.datetime) (b : option string)
    (s : list value) (tr : trace) :
  exists o new,
    Api.process_username env u f t b s tr
    = (inr (s ++ [o])%list, (tr ++ new)%list)
    /\ turn_storage env b u o (storage_events new)
    /\ (fetched new = [] \/ fetched new = [Py.strip u]).
Proof.
  unfold Api.process_username, try_except, bind.
  destruct (api_download_events env (Py.strip u) ("Token_" ++ Py.strip u)
              f t tr) as (res & n1 & E & S1 & F1).
  rewrite E. destruct res as [e|r].
  - apply api_download_raises in E as (code & detail & ->). unfold ret.
    eexists _, n1. split; [reflexivity|]. split; [|exact F1].
    left. rewrite S1. split; [reflexivity|]. eexists. reflexivity.
  - apply api_download_inv in E as (_ & _ & _ & -> & _).
    set (msgs := map entry_of
                   (filter (passes f t) (stream_of env tr (Py.strip u)))).
    set (today := now env (tr ++ n1)%list).
    set (content := Json.dumps
                      (fetch_result ("Token_" ++ Py.strip u) msgs) 4).
    assert (Hst : forall rest,
               storage_events rest = rest ->
               storage_events (n1 ++ rest) = rest).
    { intros rest Hr. now rewrite storage_events_app, S1, Hr. }
    assert (Hfe : forall rest,
               fetched rest = [] ->
               fetched (n1 ++ rest) = [] \/ fetched (n1 ++ rest) = [Py.strip u]).
    { intros rest Hr. now rewrite fetched_app, Hr, app_nil_r. }
    unfold perform.
    destruct (write_file env (tr ++ n1)%list (Api.artifact_name u today)
                content) as [e|].
    + (* the write raised *)
      rewrite <- app_assoc.
      assert (T : turn_storage env b u
                    (failed_outcome (Py.strip u) (outcome_error e))
                    (storage_events
                       (n1 ++ [Call (WriteFile (Api.artifact_name u today)
                                               content) (Some e)]))).
      { rewrite Hst by reflexivity. right. exists today, content.
        left. exists e. split; reflexivity. }
      destruct e; unfold ret; eexists _, _;
        (split; [reflexivity|]); (split; [exact T|]);
        apply Hfe; reflexivity.
    + unfold Api.upload_file_to_s3, Api.create_s3_client, try_except, bind,
        perform, logger, raise, ret.
      destruct (boto3_client env _) as [e|].
      * (* the client could not be built *)
        rewrite <- !app_assoc.
        assert (T : turn_storage env b u
                      (failed_outcome (Py.strip u) (outcome_error e))
                      (storage_events
                         (n1 ++ [ Call (WriteFile (Api.artifact_name u today)
                                                  content) None;
                                  Call Boto3Client (Some e) ]))).
        { rewrite Hst by reflexivity. right. exists today, content.
          right. left. exists e. split; reflexivity. }
        destruct e; eexists _, _;
          (split; [reflexivity|]); (split; [exact T|]);
          apply Hfe; reflexivity.
      * destruct (upload_file env _ _ b _) as [e|]; rewrite <- !app_assoc;
          simpl.
        -- (* the upload raised *)
           eexists _, _. split; [reflexivity|]. split.
           ++ pose proof (Hst [ Call (WriteFile (Api.artifact_name u today)
                                                content) None;
                                Call Boto3Client None;
                                Call (UploadFile (Api.artifact_name u today) b
                                        (Api.artifact_name u today)) (Some e) ]
                            eq_refl) as Hs.
              rewrite storage_events_app in Hs |- *.
              rewrite S1 in Hs |- *. simpl in Hs |- *. 
              right. exists today, content. right. right. left.
              exists e. split; reflexivity.
           ++ apply Hfe. reflexivity.
        -- (* success *)
           eexists _, _. split; [reflexivity|]. split.
           ++ rewrite storage_events_app, S1. simpl.
              right. exists today, content. right. right. right.
              eexists. split; reflexivity.
           ++ apply Hfe. reflexivity.
Qed.

Lemma api_loop_storage (env : Env) (f t : option Datetime.datetime)
    (b : option string) (usernames : list string) :
  forall (s : list value) (tr : trace),
  exists (turns : list (value * list event)) (new : list event),
    Api.for_usernames env usernames f t b s tr
    = (inr (s ++ map fst turns)%list, (tr ++ new)%list)
    /\ storage_events new = List.concat (map snd turns)
    /\ Forall2 (fun u turn => turn_storage env b u (fst turn) (snd turn))
               usernames turns
    /\ subseq (fetched new) (map Py.strip usernames).
Proof.
  induction usernames as [|u rest IH]; intros s tr.
  - exists [], []. simpl. unfold ret. rewrite !app_nil_r.
    repeat split; auto. apply subseq_nil.
  - destruct (api_turn_storage env u f t b s tr) as (o & n1 & E1 & T1 & F1).
    destruct (IH (s ++ [o])%list (tr ++ n1)%list)
      as (turns & n2 & E2 & S2 & T2 & F2).
    exists ((o, storage_events n1) :: turns), (n1 ++ n2)%list.
    simpl. unfold bind. rewrite E1, E2.
    rewrite <- !app_assoc, storage_events_app, S2, fetched_app. simpl.
    repeat split; auto.
    destruct F1 as [-> | ->]; simpl;
      [now apply subseq_skip | now apply subseq_keep].
Qed.

Lemma turn_storage_uploads (env : Env) (b : option string) (u : string)
    (o : value) (events : list event) :
  turn_storage env b u o events ->
  (forall fp b' k r,
      In (Call (UploadFile fp b' k) r) events ->
      k = fp /\ b' = b
      /\ exists today content,
           fp = Api.artifact_name u today
           /\ In (Call (WriteFile fp content) None) events)
  /\ (is_success o = true
      /\ List.length (filter is_upload_done events) = 1%nat
      \/ is_success o = false /\ filter is_upload_done events = []).
Proof.
  intros [[-> [err ->]]
         | (today & content &
            [(e & -> & ->) | [(e & -> & ->) | [(e & -> & ->) | (n & -> & ->)]]])];
    simpl.
  - split; [intros ? ? ? ? []|]. right. auto.
  - split; [intros ? ? ? ? [H | []]; discriminate|]. right. auto.
  - split; [intros ? ? ? ? [H | [H | []]]; discriminate|]. right. auto.
  - split; [|right; auto].
    intros fp b' k r [H | [H | [H | []]]]; try discriminate.
    inversion H; subst. repeat split; auto.
    exists today, content. auto.
  - split; [|left; auto].
    intros fp b' k r [H | [H | [H | []]]]; try discriminate.
    inversion H; subst. repeat split; auto.
    exists today, content. auto.
Qed.

Lemma in_storage_events (ev : event) (new : list event) :
  is_storage_call ev = true -> In ev new -> In ev (storage_events new).
Proof. intros H Hi. apply filter_In. auto. Qed.

Lemma storage_events_In (ev : event) (new : list event) :
  In ev (storage_events new) -> In ev new.
Proof. intros H. now apply filter_In in H. Qed.

Lemma upload_done_storage (new : list event) :
  filter is_upload_done (storage_events new) = filter is_upload_done new.
Proof.
  induction new as [|ev new IH]; [reflexivity|].
  unfold storage_events in *. simpl.
  destruct (is_storage_call ev) eqn:Hs; simpl; rewrite IH.
  - reflexivity.
  - destruct ev as [c r| |]; try reflexivity.
    destruct c; try discriminate; reflexivity.
Qed.

(** In a batch of [api.py] every upload is of the artifact of a username
    of the list, which the batch has written without an exception; its
    key is the name of the file and its bucket the bucket of the
    batch. *)
Theorem batch_uploads_what_it_wrote (env : Env) (usernames : list string)
    (f t : option Datetime.datetime) (b : option string) (tr : trace) :
  exists summary new,
    Api.for_usernames env usernames f t b [] tr
    = (inr summary, (tr ++ new)%list)
    /\ forall fp b' k r,
         In (Call (UploadFile fp b' k) r) new ->
         k = fp /\ b' = b
         /\ exists u today content,
              In u usernames
              /\ fp = Api.artifact_name u today
              /\ In (Call (WriteFile fp content) None) new.
Proof.
  destruct (api_loop_storage env f t b usernames [] tr)
    as (turns & new & E & S & T & _).
  exists (map fst turns), new. split; [exact E|].
  intros fp b' k r Hu.
  apply in_storage_events in Hu; [|reflexivity]. rewrite S in Hu.
  assert (G : forall evs, In (Call (UploadFile fp b' k) r)
                            (List.concat (map snd turns)) ->
              (forall ev, In ev (List.concat (map snd turns)) -> In ev evs) ->
              k = fp /\ b' = b
              /\ exists u today content,
                   In u usernames /\ fp = Api.artifact_name u today
                   /\ In (Call (WriteFile fp content) None) evs).
  { clear Hu E S. induction T as [|u turn us ts H _ IH]; simpl;
      intros evs Hi Hsub; [contradiction|].
    apply in_app_or in Hi as [Hi | Hi].
    - destruct (proj1 (turn_storage_uploads _ _ _ _ _ H) _ _ _ _ Hi)
        as (-> & -> & today & content & -> & Hw).
      repeat split; auto. exists u, today, content.
      repeat split; auto. apply Hsub, in_or_app. auto.
    - destruct (IH evs Hi) as (-> & -> & u' & today & content & Hu' & -> & Hw).
      + intros ev Hev. apply Hsub, in_or_app. auto.
      + repeat split; auto. exists u', today, content. auto. }
  apply (G (storage_events new)) in Hu.
  - destruct Hu as (-> & -> & u & today & content & Hu & -> & Hw).
    repeat split; auto. exists u, today, content.
    repeat split; auto. now apply storage_events_In.
  - rewrite S. auto.
Qed.

Lemma turns_successes_count (env : Env) (b : option string)
    (usernames : list string) (turns : list (value * list event)) :
  Forall2 (fun u turn => turn_storage env b u (fst turn) (snd turn))
          usernames turns ->
  List.length (filter is_success (map fst turns))
  = List.length (filter is_upload_done (List.concat (map snd turns))).
Proof.
  induction 1 as [|u turn us ts H _ IH]; simpl; [reflexivity|].
  rewrite filter_app, length_app.
  destruct (proj2 (turn_storage_uploads _ _ _ _ _ H))
    as [(-> & ->) | (-> & ->)]; simpl; rewrite IH; reflexivity.
Qed.

(** The summary of a batch of [api.py] reports as many successes as
    there were uploads that did not raise, and each success gives the
    address of the very object uploaded for it. *)
Theorem success_means_uploaded (env : Env) (usernames : list string)
    (f t : option Datetime.datetime) (b : option string) (tr : trace) :
  exists summary new,
    Api.for_usernames env usernames f t b [] tr
    = (inr summary, (tr ++ new)%list)
    /\ List.length (filter is_success summary)
       = List.length (filter is_upload_done new)
    /\ forall o,
         In o summary -> is_success o = true ->
         exists u today,
           In u usernames
           /\ lookup "username" o = Some (VStr (Py.strip u))
           /\ lookup "s3_file" o
              = Some (VStr ("https://" ++ Py.fmt_opt b ++ ".s3."
                            ++ Py.fmt_opt (AWS_REGION env)
                            ++ ".amazonaws.com/"
                            ++ Api.artifact_name u today))
           /\ In (Call (UploadFile (Api.artifact_name u today) b
                          (Api.artifact_name u today)) None) new.
Proof.
  destruct (api_loop_storage env f t b usernames [] tr)
    as (turns & new & E & S & T & _).
  exists (map fst turns), new. split; [exact E|]. split.
  - rewrite (turns_successes_count _ _ _ _ T), <- S.
    now rewrite upload_done_storage.
  - intros o Ho Hs.
    assert (G : exists u today,
               In u usernames
               /\ o = success_outcome (Py.strip u)
                        (match lookup "message_count" o with
                         | Some v => v | None => VNone end)
                        (s3_url env b (Api.artifact_name u today))
               /\ In (Call (UploadFile (Api.artifact_name u today) b
                              (Api.artifact_name u today)) None)
                     (List.concat (map snd turns))).
    { clear E S. induction T as [|u turn us ts H _ IH]; simpl in *;
        [contradiction|].
      destruct Ho as [<- | Ho].
      - destruct H as [[_ [err Eo]]
                      | (today & content &
                         [(e & _ & Eo) | [(e & _ & Eo)
                                         | [(e & _ & Eo) | (n & Ee & Eo)]]])];
          try (rewrite Eo in Hs; discriminate).
        exists u, today. split; [auto|]. rewrite Eo, Ee. simpl.
        split; [reflexivity|]. auto.
      - destruct (IH Ho) as (u' & today & Hu & Eo & Hi).
        exists u', today. repeat split; auto. apply in_or_app. auto. }
    destruct G as (u & today & Hu & Eo & Hi).
    exists u, today. split; [exact Hu|]. rewrite Eo. simpl.
    repeat split. rewrite <- S in Hi. now apply storage_events_In.
Qed.

(** A batch of [api.py] opens the streams of the usernames of its list
    only, without their surrounding white space, each at most once for
    each line of the list and in the order of the list. *)
Theorem batch_fetches_in_order (env : Env) (usernames : list string)
    (f t : option Datetime.datetime) (b : option string) (tr : trace) :
  exists summary new,
    Api.for_usernames env usernames f t b [] tr
    = (inr summary, (tr ++ new)%list)
    /\ subseq (fetched new) (map Py.strip usernames)
    /\ (List.length (fetched new) <= List.length usernames)%nat.
Proof.
  destruct (api_loop_storage env f t b usernames [] tr)
    as (turns & new & E & _ & _ & F).
  exists (map fst turns), new. split; [exact E|]. split; [exact F|].
  apply subseq_length in F. now rewrite length_map in F.
Qed.

(* ===================================================================== *)
(** * Failures of the whole batch *)
(* ===================================================================== *)

Lemma avoids_ret {A} (p : event -> bool) (a : A) : avoids p (ret a).
Proof.
  intros tr res tr' H. inversion H. exists []. now rewrite app_nil_r.
Qed.

Lemma avoids_raise {A} (p : event -> bool) (e : exn) : avoids p (@raise A e).
Proof.
  intros tr res tr' H. inversion H. exists []. now rewrite app_nil_r.
Qed.

Lemma avoids_logger (p : event -> bool) (lvl : level) (msg : string) :
  p (Log lvl msg) = false -> avoids p (logger lvl msg).
Proof.
  intros Hp tr res tr' H. inversion H. exists [Log lvl msg].
  split; [reflexivity|]. simpl. now rewrite Hp.
Qed.

Lemma avoids_perform (p : event -> bool) (c : call)
    (oracle : trace -> option exn) :
  (forall r, p (Call c r) = false) -> avoids p (perform c oracle).
Proof.
  intros Hc tr res tr' H. unfold perform in H.
  destruct (oracle tr); inversion H; eexists; split; try reflexivity;
    simpl; now rewrite Hc.
Qed.

Lemma avoids_bind {A B} (p : event -> bool) (c : M A) (k : A -> M B) :
  avoids p c -> (forall a, avoids p (k a)) -> avoids p (bind c k).
Proof.
  intros Hc Hk tr res tr' H. unfold bind in H.
  destruct (c tr) as [[e|a] tr1] eqn:E.
  - inversion H; subst. eapply Hc; eauto.
  - destruct (Hc _ _ _ E) as (n1 & -> & F1).
    destruct (Hk _ _ _ _ H) as (n2 & -> & F2).
    exists (n1 ++ n2)%list. rewrite app_assoc, filter_app, F1, F2. auto.
Qed.

Lemma avoids_try {A} (p : event -> bool) (c : M A) (h : exn -> M A) :
  avoids p c -> (forall e, avoids p (h e)) -> avoids p (try_except c h).
Proof.
  intros Hc Hh tr res tr' H. unfold try_except in H.
  destruct (c tr) as [[e|a] tr1] eqn:E.
  - destruct (Hc _ _ _ E) as (n1 & -> & F1).
    destruct (Hh _ _ _ _ H) as (n2 & -> & F2).
    exists (n1 ++ n2)%list. rewrite app_assoc, filter_app, F1, F2. auto.
  - inversion H; subst. eapply Hc; eauto.
Qed.

Ltac avoids_step :=
  match goal with
  | |- avoids _ (bind _ _) => apply avoids_bind; [| intros ?]
  | |- avoids _ (try_except _ _) => apply avoids_try; [| intros ?]
  | |- avoids _ (ret _) => apply avoids_ret
  | |- avoids _ (raise _) => apply avoids_raise
  | |- avoids _ (logger _ _) => apply avoids_logger; reflexivity
  | |- avoids _ (perform _ _) => apply avoids_perform; intros ?; reflexivity
  | |- avoids _ (match ?x with _ => _ end) => destruct x
  end.

(** Provisioning the bucket opens no chat, writes no file and uploads
    nothing. *)
Lemma api_create_bucket_avoids_channels (env : Env) (b : option string) :
  avoids is_channel_call (Api.create_s3_bucket env b).
Proof.
  unfold Api.create_s3_bucket, Api.create_s3_client. repeat avoids_step.
Qed.

Lemma cmd_create_bucket_avoids_channels (env : Env) (b : option string) :
  avoids is_channel_call (Cmd.create_s3_bucket env b).
Proof.
  unfold Cmd.create_s3_bucket, Cmd.create_s3_client. repeat avoids_step.
Qed.

(** The endpoint of [api.py] returns a summary or raises an
    [HTTPException] 500; it raises exactly when the request is stopped
    before the loop, by a date that does not parse, an upload that
    cannot be read or a bucket that cannot be provisioned, and the
    detail is then "Error processing file: " followed by the text of the
    very exception that stopped it, which the last line of the log
    repeats; no chat has been opened, no file written and nothing
    uploaded.  When the upload itself cannot be read, nothing at all is
    called. *)
Theorem endpoint_fails_before_any_channel (env : Env) (file : exn + string)
    (from_date to_date : option string) (tr : trace) :
  exists res new,
    Api.process_messages_file env file from_date to_date tr
    = (res, (tr ++ new)%list)
    /\ match res with
       | inr r =>
           (exists summary, r = VDict [ ("summary", VList summary) ])
           /\ forall cause,
                ~ batch_failure env file from_date to_date tr cause
       | inl e =>
           exists cause did,
             batch_failure env file from_date to_date tr cause
             /\ e = HTTPException 500 ("Error processing file: " ++ str cause)
             /\ new = (did ++ [Log ERROR ("Error processing file: "
                                          ++ str cause)])%list
             /\ filter is_channel_call new = []
       end
    /\ ((exists e0, file = inl e0) -> calls new = []).
Proof.
  unfold Api.process_messages_file, try_except, bind, lift, logger, raise.
  unfold batch_failure.
  destruct (Api.parse_optional from_date) as [e|f].
  { eexists _, _. split; [reflexivity|]. simpl.
    split; [|reflexivity]. exists e, []. auto. }
  destruct (Api.parse_optional to_date) as [e|t].
  { eexists _, _. split; [reflexivity|]. simpl.
    split; [|reflexivity]. exists e, []. eauto 10. }
  destruct file as [e|content].
  { eexists _, _. split; [reflexivity|]. simpl.
    split; [|reflexivity]. exists e, []. eauto 12. }
  destruct (Api.create_s3_bucket env (S3_BUCKET_NAME env) tr)
    as [[e|[]] tr1] eqn:B;
    destruct (api_create_bucket_avoids_channels _ _ _ _ _ B) as (n1 & -> & F1).
  - rewrite <- app_assoc. eexists _, _. split; [reflexivity|]. split.
    + exists e, n1. split; [eauto 15|]. split; [reflexivity|].
      split; [reflexivity|]. rewrite filter_app, F1. reflexivity.
    + intros [e0 H]. discriminate.
  - destruct (api_loop env f t (S3_BUCKET_NAME env) (Text.splitlines content)
                [] (tr ++ n1)%list) as (turns & n2 & -> & _).
    unfold ret. rewrite <- app_assoc. eexists _, _. split; [reflexivity|].
    split; [|intros [e0 H]; discriminate].
    split; [eauto|].
    intros cause [H | [_ [H | [_ [H | [_ [tr1 H]]]]]]]; discriminate H.
Qed.

(** [process_chats] of [cmd.py] raises only when the list of usernames
    cannot be read or the bucket cannot be provisioned, and then no chat
    has been opened, no file written and nothing uploaded; when the list
    cannot be read, S3 is not called either. *)
Theorem tool_fails_before_any_channel (env : Env) (path : string)
    (f t : option Datetime.datetime) (tr : trace) :
  exists res new,
    Cmd.process_chats env path f t tr = (res, (tr ++ new)%list)
    /\ (forall e, res = inl e -> filter is_channel_call new = [])
    /\ (forall e, read_file env tr path = inl e ->
          res = inl e /\ calls new = [ReadFile path]).
Proof.
  unfold Cmd.process_chats, bind, read_text.
  destruct (read_file env tr path) as [e|content].
  { eexists _, _. split; [reflexivity|]. split.
    - intros _ _. reflexivity.
    - intros e' H. inversion H; subst. split; reflexivity. }
  destruct (Cmd.create_s3_bucket env (S3_BUCKET_NAME env) _)
    as [[e|[]] tr1] eqn:B;
    destruct (cmd_create_bucket_avoids_channels _ _ _ _ _ B) as (n1 & -> & F1).
  - rewrite <- app_assoc. eexists _, _. split; [reflexivity|]. split.
    + intros _ _. simpl. exact F1.
    + intros e' H. discriminate.
  - destruct (cmd_loop_writes env f t (map Py.strip (Text.readlines content))
                ((tr ++ [Call (ReadFile path) None]) ++ n1)%list)
      as (n2 & -> & _).
    rewrite <- !app_assoc. eexists _, _. split; [reflexivity|]. split.
    + intros e H. discriminate.
    + intros e' H. discriminate.
Qed.

(* ===================================================================== *)
(** * White space around an identifier *)
(* ===================================================================== *)

Lemma lstrip_clean (s : string) :
  match Py.lstrip s with
  | String c _ => Py.isspace c = false
  | EmptyString => True
  end.
Proof.
  induction s as [|c s IH]; simpl; [exact I|].
  destruct (Py.isspace c) eqn:E; [exact IH | exact E].
Qed.

Lemma lstrip_of_clean (s : string) :
  match s with
  | String c _ => Py.isspace c = false
  | EmptyString => True
  end -> Py.lstrip s = s.
Proof. destruct s as [|c s]; simpl; [auto|]. now intros ->. Qed.

Lemma rstrip_clean (s : string) :
  match s with
  | String c _ => Py.isspace c = false
  | EmptyString => True
  end ->
  match Py.rstrip s with
  | String c _ => Py.isspace c = false
  | EmptyString => True
  end.
Proof.
  destruct s as [|c s]; simpl; [auto|]. intros H.
  destruct (Py.rstrip s); [rewrite H|]; exact H.
Qed.

Lemma rstrip_rstrip (s : string) : Py.rstrip (Py.rstrip s) = Py.rstrip s.
Proof.
  induction s as [|c s IH]; [reflexivity|]. simpl.
  destruct (Py.rstrip s) as [|k kept] eqn:E.
  - destruct (Py.isspace c) eqn:Hc; [reflexivity|]. simpl. now rewrite Hc.
  - change (Py.rstrip (String c (String k kept)))
      with (match Py.rstrip (String k kept) with
            | EmptyString =>
                if Py.isspace c then EmptyString else String c EmptyString
            | kept' => String c kept'
            end).
    now rewrite IH.
Qed.

Lemma strip_strip (s : string) : Py.strip (Py.strip s) = Py.strip s.
Proof.
  unfold Py.strip.
  rewrite (lstrip_of_clean (Py.rstrip (Py.lstrip s))).
  - apply rstrip_rstrip.
  - apply rstrip_clean, lstrip_clean.
Qed.

(** The loop of [api.py] sees a username through [strip] alone: a list
    of usernames and the list of the same usernames without their
    surrounding white space are processed alike, with the same calls,
    the same files and the same summary. *)
Theorem white_space_around_usernames_is_ignored (env : Env)
    (usernames : list string) (f t : option Datetime.datetime)
    (b : option string) (summary : list value) (tr : trace) :
  Api.for_usernames env (map Py.strip usernames) f t b summary tr
  = Api.for_usernames env usernames f t b summary tr.
Proof.
  revert summary tr.
  induction usernames as [|u rest IH]; intros summary tr; [reflexivity|].
  simpl. unfold bind.
  assert (E : Api.process_username env (Py.strip u) f t b summary tr
              = Api.process_username env u f t b summary tr).
  { unfold Api.process_username, Api.artifact_name.
    now rewrite !strip_strip. }
  rewrite E.
  destruct (Api.process_username env u f t b summary tr) as [[e|s'] tr1];
    [reflexivity | apply IH].
Qed.

(* ===================================================================== *)
(** * [parse_date] *)
(* ===================================================================== *)

Lemma match_Y_inv (s : string) (v : Z) (r : string) :
  Datetime.match_Y s = Some (v, r) ->
  exists a b c d,
    s = String a (String b (String c (String d r)))
    /\ (Py.isdigit a && Py.isdigit b && Py.isdigit c && Py.isdigit d) = true
    /\ v = ((Py.digit_val a * 10 + Py.digit_val b) * 10 + Py.digit_val c) * 10
           + Py.digit_val d.
Proof.
  destruct s as [|a [|b [|c [|d r']]]]; simpl; try discriminate.
  destruct (Py.isdigit a && Py.isdigit b && Py.isdigit c && Py.isdigit d)
    eqn:E; [|discriminate].
  intros H. inversion H; subst. exists a, b, c, d. auto.
Qed.

Lemma match_Y_app (s : string) (v : Z) (rest : string) :
  Datetime.match_Y s = Some (v, "") ->
  Datetime.match_Y (s ++ rest) = Some (v, rest).
Proof.
  intros H. apply match_Y_inv in H as (a & b & c & d & -> & E & ->).
  simpl. now rewrite E.
Qed.

Lemma expect_inv (c : ascii) (s r : string) :
  Datetime.expect c s = Some r -> s = String c r.
Proof.
  destruct s as [|a s]; simpl; [discriminate|].
  destruct (Ascii.eqb_spec a c); [|discriminate].
  intros H. inversion H. now subst.
Qed.

Lemma match_m_dash_length (s : string) (v : Z) (r : string) :
  Datetime.match_m_dash s = Some (v, r) ->
  (String.length r + 2 <= String.length s <= String.length r + 3)%nat.
Proof.
  unfold Datetime.match_m_dash.
  destruct s as [|a [|b rest]]; simpl; try discriminate.
  - destruct (Datetime.in_range a 1 9); discriminate.
  - destruct ((Ascii.eqb a "1" && Datetime.in_range b 0 2)
              || (Ascii.eqb a "0" && Datetime.in_range b 1 9)).
    + destruct (Datetime.expect "-" rest) as [r'|] eqn:E.
      * intros H. inversion H; subst. apply expect_inv in E. subst.
        simpl. lia.
      * destruct (Datetime.in_range a 1 9); [|discriminate].
        destruct (Ascii.eqb b "-"); [|discriminate].
        intros H. inversion H; subst. simpl. lia.
    + destruct (Datetime.in_range a 1 9); [|discriminate].
      destruct (Ascii.eqb b "-"); [|discriminate].
      intros H. inversion H; subst. simpl. lia.
Qed.

Lemma match_d_length (s : string) (v : Z) (r : string) :
  Datetime.match_d s = Some (v, r) ->
  (String.length r + 1 <= String.length s <= String.length r + 2)%nat.
Proof.
  unfold Datetime.match_d.
  destruct s as [|a [|b rest]]; simpl; try discriminate.
  - destruct (Datetime.in_range a 1 9); [|discriminate].
    intros H. inversion H; subst. simpl. lia.
  - destruct ((Ascii.eqb a "3" && Datetime.in_range b 0 1)
              || (Datetime.in_range a 1 2 && Py.isdigit b)
              || (Ascii.eqb a "0" && Datetime.in_range b 1 9)).
    + intros H. inversion H; subst. simpl. lia.
    + destruct (Datetime.in_range a 1 9).
      * intros H. inversion H; subst. simpl. lia.
      * destruct (Ascii.eqb a " " && Datetime.in_range b 1 9); [|discriminate].
        intros H. inversion H; subst. simpl. lia.
Qed.

Lemma strptime_inv (s : string) (d : Datetime.date) :
  Datetime.strptime_Y_m_d s = Some d ->
  Datetime.valid_date d = true
  /\ (8 <= String.length s <= 10)%nat.
Proof.
  unfold Datetime.strptime_Y_m_d.
  destruct (Datetime.match_Y s) as [[y s1]|] eqn:EY; [|discriminate].
  destruct (Datetime.expect "-" s1) as [s2|] eqn:E1; [|discriminate].
  destruct (Datetime.match_m_dash s2) as [[m s3]|] eqn:EM; [|discriminate].
  destruct (Datetime.match_d s3) as [[dd s4]|] eqn:ED; [|discriminate].
  destruct s4; [|discriminate].
  destruct (Datetime.valid_date (Datetime.mkdate y m dd)) eqn:V;
    [|discriminate].
  intros H. inversion H; subst. split; [exact V|].
  apply match_Y_inv in EY as (a & b & c & e & -> & _ & _).
  apply expect_inv in E1. subst s1.
  apply match_m_dash_length in EM. apply match_d_length in ED.
  simpl in *. lia.
Qed.

(** A date that [parse_date] accepts is midnight, in UTC, of a day of
    the calendar between the years 1 and 9999, and was written on eight
    to ten characters; the three programs accept the same strings, with
    the same result. *)
Theorem parse_date_gives_midnight_of_a_real_day (s : string)
    (d : Datetime.datetime) :
  Api.parse_date s = inr d ->
  Datetime.valid_date (Datetime.dt_date d) = true
  /\ 1 <= Datetime.year (Datetime.dt_date d) <= 9999
  /\ Datetime.hour d = 0 /\ Datetime.minute d = 0 /\ Datetime.second d = 0
  /\ Datetime.microsecond d = 0 /\ Datetime.utcoffset d = 0
  /\ (8 <= String.length s <= 10)%nat
  /\ Cmd.parse_date s = inr d /\ ApiTime.parse_date s = inr d.
Proof.
  unfold Api.parse_date, Cmd.parse_date, ApiTime.parse_date.
  destruct (Datetime.strptime_Y_m_d s) as [r|] eqn:E; [|discriminate].
  intros H. inversion H; subst. simpl.
  apply strptime_inv in E as [V L].
  assert (Y : 1 <= Datetime.year r <= 9999).
  { unfold Datetime.valid_date, Datetime.MINYEAR, Datetime.MAXYEAR in V.
    rewrite !andb_true_iff in V. lia. }
  auto 12.
Qed.

Lemma parse_date_gives_midnight_of_a_real_day_witness :
  Api.parse_date "2024-1-5" = inr (Demo.utc 2024 1 5 0 0)
  /\ (8 <= String.length "2024-1-5" <= 10)%nat
  /\ Cmd.parse_date "2024-1-5" = inr (Demo.utc 2024 1 5 0 0).
Proof.
  assert (H : Api.parse_date "2024-1-5" = inr (Demo.utc 2024 1 5 0 0))
    by (vm_compute; reflexivity).
  pose proof (parse_date_gives_midnight_of_a_real_day _ _ H) as P.
  split; [exact H|]. split; [apply P | apply P].
Defined.

Lemma years_read_back :
  forallb year_reads_back (seq (Z.to_nat 1000) (Z.to_nat 9000)) = true.
Proof. vm_compute. reflexivity. Qed.

Lemma years_are_short :
  forallb year_is_short (seq 0 (Z.to_nat 1000)) = true.
Proof. vm_compute. reflexivity. Qed.

(** A year of four digits, as [%Y] writes it, is read back. *)
Lemma match_Y_year (y : Z) (rest : string) :
  1000 <= y <= 9999 ->
  Datetime.match_Y (Py.str_of_int y ++ rest) = Some (y, rest).
Proof.
  intros Hy. apply match_Y_app.
  pose proof years_read_back as H. rewrite forallb_forall in H.
  specialize (H (Z.to_nat y)).
  unfold year_reads_back in H. rewrite Z2Nat.id in H by lia.
  destruct (Datetime.match_Y (Py.str_of_int y)) as [[v [|c r]]|].
  - f_equal. f_equal. apply Z.eqb_eq. apply H. apply in_seq. lia.
  - discriminate H. apply in_seq. lia.
  - discriminate H. apply in_seq. lia.
Qed.

Lemma month_cases (m : Z) :
  1 <= m <= 12 ->
  m = 1 \/ m = 2 \/ m = 3 \/ m = 4 \/ m = 5 \/ m = 6 \/ m = 7
  \/ m = 8 \/ m = 9 \/ m = 10 \/ m = 11 \/ m = 12.
Proof. lia. Qed.

(** A year before 1000, as [%Y] writes it, is not read by [%Y]: the dash
    that follows it comes among the first four characters. *)
Lemma match_Y_short_year (y m : Z) (rest : string) :
  0 <= y <= 999 -> 1 <= m <= 12 ->
  Datetime.match_Y (Py.str_of_int y ++ "-" ++ Py.pad 2 m ++ "-" ++ rest)
  = None.
Proof.
  intros Hy Hm.
  pose proof years_are_short as H. rewrite forallb_forall in H.
  specialize (H (Z.to_nat y)). unfold year_is_short in H.
  rewrite Z2Nat.id in H by lia.
  assert (L : (String.length (Py.str_of_int y) <= 3)%nat).
  { apply Nat.leb_le, H, in_seq. lia. }
  clear H. apply month_cases in Hm.
  destruct (Py.str_of_int y) as [|a [|b [|c [|d s]]]];
    simpl in L; try lia;
    repeat (destruct Hm as [-> | Hm]); subst; cbn;
    try destruct (Py.isdigit a); try destruct (Py.isdigit b);
    try destruct (Py.isdigit c); reflexivity.
Qed.

Lemma match_m_dash_pad (m : Z) (rest : string) :
  1 <= m <= 12 ->
  Datetime.match_m_dash (Py.pad 2 m ++ "-" ++ rest) = Some (m, rest).
Proof.
  intros Hm. apply month_cases in Hm.
  repeat (destruct Hm as [-> | Hm]; [reflexivity|]). subst. reflexivity.
Qed.

Lemma match_d_pad (d : Z) :
  1 <= d <= 31 -> Datetime.match_d (Py.pad 2 d) = Some (d, "").
Proof.
  intros Hd.
  assert (E : d = 1 \/ d = 2 \/ d = 3 \/ d = 4 \/ d = 5 \/ d = 6 \/ d = 7
              \/ d = 8 \/ d = 9 \/ d = 10 \/ d = 11 \/ d = 12 \/ d = 13
              \/ d = 14 \/ d = 15 \/ d = 16 \/ d = 17 \/ d = 18 \/ d = 19
              \/ d = 20 \/ d = 21 \/ d = 22 \/ d = 23 \/ d = 24 \/ d = 25
              \/ d = 26 \/ d = 27 \/ d = 28 \/ d = 29 \/ d = 30 \/ d = 31)
    by lia.
  repeat (destruct E as [-> | E]; [reflexivity|]). subst. reflexivity.
Qed.

Lemma valid_date_bounds (d : Datetime.date) :
  Datetime.valid_date d = true ->
  1 <= Datetime.year d <= 9999 /\ 1 <= Datetime.month d <= 12
  /\ 1 <= Datetime.day d <= 31.
Proof.
  unfold Datetime.valid_date, Datetime.MINYEAR, Datetime.MAXYEAR,
    Datetime.days_in_month.
  rewrite !andb_true_iff, !Z.leb_le. intros (((((H1 & H2) & H3) & H4) & H5) & H).
  repeat split; try lia.
  destruct ((Datetime.month d =? 2) && Datetime.is_leap (Datetime.year d));
    [lia|].
  unfold Datetime.days_in_month_common in H.
  destruct (Datetime.month d) as [|p|p]; try lia.
  repeat (destruct p as [p|p|]; try lia).
Qed.

(** Writing a day of the calendar as [%Y-%m-%d], as the scheduled
    service does for the day before, and parsing it with [parse_date]
    gives back midnight of that day when the year has four digits; a
    date that [parse_date] accepted in such a year, written back and
    parsed again, is unchanged.  A year before 1000 is written on fewer
    than four digits, and [parse_date] refuses what was written. *)
Theorem parse_date_reads_back_strftime (d : Datetime.datetime) :
  Datetime.valid_date (Datetime.dt_date d) = true ->
  (1000 <= Datetime.year (Datetime.dt_date d) ->
   Api.parse_date (Datetime.strftime_ymd "-" d)
   = inr (Datetime.mkdt (Datetime.dt_date d) 0 0 0 0 0))
  /\ (1000 <= Datetime.year (Datetime.dt_date d) ->
      forall s, Api.parse_date s = inr d ->
        Api.parse_date (Datetime.strftime_ymd "-" d) = inr d)
  /\ (Datetime.year (Datetime.dt_date d) < 1000 ->
      Api.parse_date (Datetime.strftime_ymd "-" d)
      = inl (HTTPException 400 "Invalid date format. Use YYYY-MM-DD.")).
Proof.
  intros V. destruct (valid_date_bounds _ V) as (Hy & Hm & Hd).
  assert (R : 1000 <= Datetime.year (Datetime.dt_date d) ->
              Api.parse_date (Datetime.strftime_ymd "-" d)
              = inr (Datetime.mkdt (Datetime.dt_date d) 0 0 0 0 0)).
  { intros Hk.
    unfold Api.parse_date, Datetime.strptime_Y_m_d, Datetime.strftime_ymd.
    rewrite match_Y_year by lia. cbv beta iota.
    change (Datetime.expect "-"
              ("-" ++ Py.pad 2 (Datetime.month (Datetime.dt_date d)) ++ "-"
               ++ Py.pad 2 (Datetime.day (Datetime.dt_date d))))
      with (Some (Py.pad 2 (Datetime.month (Datetime.dt_date d)) ++ "-"
                  ++ Py.pad 2 (Datetime.day (Datetime.dt_date d)))).
    cbv beta iota.
    rewrite match_m_dash_pad by lia. cbv beta iota.
    rewrite match_d_pad by lia. cbv beta iota.
    destruct (Datetime.dt_date d) as [y m dd]. simpl in *. now rewrite V. }
  split; [exact R|]. split.
  - intros Hk s H. rewrite (R Hk). f_equal.
    unfold Api.parse_date in H.
    destruct (Datetime.strptime_Y_m_d s); inversion H. reflexivity.
  - intros Hk.
    unfold Api.parse_date, Datetime.strptime_Y_m_d, Datetime.strftime_ymd.
    now rewrite match_Y_short_year by lia.
Qed.

Lemma parse_date_reads_back_strftime_witness :
  Datetime.valid_date (Datetime.mkdate 2024 2 29) = true
  /\ Api.parse_date (Datetime.strftime_ymd "-" (Demo.utc 2024 2 29 17 45))
     = inr (Demo.utc 2024 2 29 0 0).
Proof.
  split; [reflexivity|].
  apply (proj1 (parse_date_reads_back_strftime (Demo.utc 2024 2 29 17 45)
                  eq_refl)).
  simpl. lia.
Defined.

(* ===================================================================== *)
(** * The text of an artifact *)
(* ===================================================================== *)

Lemma all_plain_app (a b : string) :
  all_plain (a ++ b) = all_plain a && all_plain b.
Proof.
  induction a as [|c a IH]; simpl; [reflexivity|].
  now rewrite IH, andb_assoc.
Qed.

Lemma escape_char_plain (c : ascii) : all_plain (Json.escape_char c) = true.
Proof.
  destruct c as [b0 b1 b2 b3 b4 b5 b6 b7].
  destruct b0, b1, b2, b3, b4, b5, b6, b7; reflexivity.
Qed.

Lemma escape_plain (s : string) : all_plain (Json.escape s) = true.
Proof.
  induction s as [|c s IH]; simpl; [reflexivity|].
  now rewrite all_plain_app, escape_char_plain, IH.
Qed.

Lemma encode_plain (s : string) :
  all_plain (Json.encode_basestring_ascii s) = true.
Proof.
  unfold Json.encode_basestring_ascii. simpl.
  now rewrite all_plain_app, escape_plain.
Qed.

Lemma string_of_uint_plain (d : Decimal.uint) :
  all_plain (NilEmpty.string_of_uint d) = true.
Proof. induction d; simpl; auto. Qed.

Lemma str_of_int_plain (n : Z) : all_plain (Py.str_of_int n) = true.
Proof.
  unfold Py.str_of_int, NilZero.string_of_int, NilZero.string_of_uint.
  destruct (Z.to_int n) as [d|d]; destruct d; simpl;
    try reflexivity; apply string_of_uint_plain.
Qed.

Lemma newline_indent_plain (indent level : nat) :
  all_plain (Json.newline_indent indent level) = true.
Proof.
  unfold Json.newline_indent. simpl.
  induction (indent * level)%nat as [|n IH]; simpl; auto.
Qed.

Lemma join_plain (sep : string) (parts : list string) :
  all_plain sep = true ->
  Forall (fun p => all_plain p = true) parts ->
  all_plain (Json.join sep parts) = true.
Proof.
  intros Hs H. induction H as [|p parts Hp _ IH]; [reflexivity|].
  simpl. destruct parts as [|q parts]; [exact Hp|].
  now rewrite !all_plain_app, Hp, Hs, IH.
Qed.

Lemma bracket_plain (o c : string) (indent level : nat)
    (parts : list string) :
  all_plain o = true -> all_plain c = true ->
  Forall (fun p => all_plain p = true) parts ->
  all_plain (o ++ Json.newline_indent indent (S level)
             ++ Json.join ("," ++ Json.newline_indent indent (S level)) parts
             ++ Json.newline_indent indent level ++ c) = true.
Proof.
  intros Ho Hc H.
  rewrite !all_plain_app, !newline_indent_plain, Ho, Hc, join_plain;
    [reflexivity | | exact H].
  now rewrite all_plain_app, newline_indent_plain.
Qed.

Lemma iterencode_plain :
  forall (v : value) (indent level : nat),
    all_plain (Json.iterencode indent level v) = true.
Proof.
  fix IH 1. intros [| n | s | l | d] indent level.
  - reflexivity.
  - apply str_of_int_plain.
  - apply encode_plain.
  - destruct l as [|x l]; [reflexivity|].
    apply bracket_plain; [reflexivity | reflexivity |].
    generalize (x :: l). clear x l.
    fix AUX 1. intros [|y l']; cbn [map]; constructor; [apply IH | apply AUX].
  - destruct d as [|kv d]; [reflexivity|].
    apply bracket_plain; [reflexivity | reflexivity |].
    generalize (kv :: d). clear kv d.
    fix AUX 1. intros [|[k y] l']; cbn [map]; constructor; [|apply AUX].
    now rewrite !all_plain_app, encode_plain, IH.
Qed.

(** Whatever the messages hold, the text of an artifact is made of
    printable ASCII characters and line feeds only: [json.dumps] escapes
    every other character of a text.  This holds of every file a batch
    of either program writes. *)
Theorem artifact_text_is_plain_ascii (env : Env) (usernames : list string)
    (f t : option Datetime.datetime) (b : option string) (tr : trace) :
  (forall v indent, all_plain (Json.dumps v indent) = true)
  /\ (exists summary new,
        Api.for_usernames env usernames f t b [] tr
        = (inr summary, (tr ++ new)%list)
        /\ forall filename content raised,
             In (Call (WriteFile filename content) raised) new ->
             all_plain content = true)
  /\ (exists new,
        Cmd.for_usernames env usernames f t tr = (inr tt, (tr ++ new)%list)
        /\ forall filename content raised,
             In (Call (WriteFile filename content) raised) new ->
             all_plain content = true).
Proof.
  split; [intros v indent; apply iterencode_plain|]. split.
  - destruct (api_loop env f t b usernames [] tr)
      as (turns & new & E & F & T).
    exists (map fst turns), new. split; [exact E|].
    apply api_turns_writes in T as [Hin _]. rewrite <- F in Hin.
    intros filename content raised Hev.
    destruct (Hin (Call (WriteFile filename content) raised))
      as (u & msgs & today & raised' & _ & Heq & _).
    { apply filter_In. auto. }
    unfold artifact_write in Heq. inversion Heq; subst.
    apply iterencode_plain.
  - destruct (cmd_loop_writes env f t usernames tr) as (new & E & Hin & _).
    exists new. split; [exact E|].
    intros filename content raised Hev.
    destruct (Hin (Call (WriteFile filename content) raised))
      as (u & msgs & today & raised' & _ & Heq & _).
    { apply filter_In. auto. }
    unfold cli_artifact_write in Heq. inversion Heq; subst.
    apply iterencode_plain.
Qed.

(* ===================================================================== *)
(** * Shutdown *)
(* ===================================================================== *)

(** The shutdown handlers disconnect the client exactly when it is
    connected, and log one error exactly when something raised.  In the
    scheduled service the scheduler is shut down in the same [try], after
    the client: it is shut down exactly when the client was not
    connected or was disconnected without an exception, so that a
    failing disconnection leaves the scheduler running. *)
Theorem shutdown_skips_the_scheduler_after_a_failure (h : Lifecycle.Handles) :
  let api := Lifecycle.api_shutdown_event h in
  let sched := Lifecycle.api_time_shutdown_event h in
  (existsb Lifecycle.is_disconnect api = Lifecycle.connected h)
  /\ (existsb Lifecycle.is_disconnect sched = Lifecycle.connected h)
  /\ (existsb Lifecycle.is_scheduler_shutdown sched = true <->
      Lifecycle.connected h = false \/ Lifecycle.disconnect h = None)
  /\ (existsb Lifecycle.is_error api = true <->
      Lifecycle.connected h = true /\ Lifecycle.disconnect h <> None)
  /\ (existsb Lifecycle.is_error sched = true <->
      (Lifecycle.connected h = true /\ Lifecycle.disconnect h <> None)
      \/ ((Lifecycle.connected h = false \/ Lifecycle.disconnect h = None)
          /\ Lifecycle.scheduler_shutdown h <> None)).
Proof.
  destruct h as [[|] [e|] [e'|]]; simpl;
    repeat split; intros; auto;
    try discriminate; try tauto; try congruence;
    try (left; split; [reflexivity | discriminate]);
    try (right; split; [auto | discriminate]);
    try (split; [reflexivity | discriminate]);
    intuition (try discriminate; try congruence).
Qed.
(* ===================================================================== *)
(** * ISO 8601 *)
(* ===================================================================== *)

Lemma take_digits_app (n : nat) :
  forall s rest, take_digits n s = Some "" -> take_digits n (s ++ rest) = Some rest.
Proof.
  induction n as [|n IH]; intros s rest H; simpl in *.
  - inversion H. reflexivity.
  - destruct s as [|c s]; [discriminate|]. simpl.
    destruct (Py.isdigit c); [auto | discriminate].
Qed.

Lemma two_digits_padded : forallb (pads_to 2) (seq 0 100) = true.
Proof. vm_compute. reflexivity. Qed.

Lemma four_digits_padded :
  forallb (pads_to 4) (seq 0 (Z.to_nat 1000)) = true.
Proof. vm_compute. reflexivity. Qed.

Lemma digits_pad2 (n : Z) (rest : string) :
  0 <= n < 100 -> take_digits 2 (Py.pad 2 n ++ rest) = Some rest.
Proof.
  intros Hn. apply take_digits_app.
  pose proof two_digits_padded as H. rewrite forallb_forall in H.
  specialize (H (Z.to_nat n)). unfold pads_to in H.
  rewrite Z2Nat.id in H by lia.
  destruct (take_digits 2 (Py.pad 2 n)) as [[|c r]|].
  - reflexivity.
  - discriminate H. apply in_seq. lia.
  - discriminate H. apply in_seq. lia.
Qed.

(** A year of four digits is written by [%Y] as [%04d] writes it. *)
Lemma year_needs_no_padding (y : Z) :
  1000 <= y <= 9999 ->
  Py.pad 4 y = Py.str_of_int y /\ take_digits 4 (Py.str_of_int y) = Some "".
Proof.
  intros Hy. pose proof years_read_back as H. rewrite forallb_forall in H.
  specialize (H (Z.to_nat y)).
  unfold year_reads_back in H. rewrite Z2Nat.id in H by lia.
  destruct (Datetime.match_Y (Py.str_of_int y)) as [[v [|c r]]|] eqn:E;
    try (discriminate H; apply in_seq; lia).
  apply match_Y_inv in E as (a & b & c & d & E & Hd & _).
  unfold Py.pad, Py.zfill. rewrite E. split; [reflexivity|].
  rewrite !andb_true_iff in Hd. destruct Hd as [[[Ha Hb] Hc] Hd].
  simpl. now rewrite Ha, Hb, Hc, Hd.
Qed.

Lemma digits_pad4 (y : Z) (rest : string) :
  0 <= y <= 9999 -> take_digits 4 (Py.pad 4 y ++ rest) = Some rest.
Proof.
  intros Hy. apply take_digits_app.
  destruct (Z_lt_le_dec y 1000) as [Hs | Hl].
  - pose proof four_digits_padded as H. rewrite forallb_forall in H.
    specialize (H (Z.to_nat y)). unfold pads_to in H.
    rewrite Z2Nat.id in H by lia.
    destruct (take_digits 4 (Py.pad 4 y)) as [[|c r]|].
    + reflexivity.
    + discriminate H. apply in_seq. lia.
    + discriminate H. apply in_seq. lia.
  - destruct (year_needs_no_padding y) as [-> H]; [lia | exact H].
Qed.

Lemma digits_year (y : Z) (rest : string) :
  1000 <= y <= 9999 -> take_digits 4 (Py.str_of_int y ++ rest) = Some rest.
Proof.
  intros Hy. apply take_digits_app. now apply year_needs_no_padding.
Qed.

Lemma expect_literal (c : ascii) (rest : string) :
  Datetime.expect c (String c "" ++ rest) = Some rest.
Proof. simpl. now rewrite Ascii.eqb_refl. Qed.

Lemma all_digits_app (a b : string) :
  all_digits (a ++ b) = all_digits a && all_digits b.
Proof.
  induction a as [|c a IH]; simpl; [reflexivity|].
  now rewrite IH, andb_assoc.
Qed.

Lemma string_of_uint_digits (d : Decimal.uint) :
  all_digits (NilEmpty.string_of_uint d) = true.
Proof. induction d; simpl; auto. Qed.

Lemma str_of_int_digits (n : Z) :
  0 <= n -> all_digits (Py.str_of_int n) = true /\ Py.str_of_int n <> "".
Proof.
  intros Hn. unfold Py.str_of_int.
  destruct n as [|p|p]; [split; [reflexivity | discriminate] | | lia].
  simpl. unfold NilZero.string_of_uint.
  destruct (Pos.to_uint p) eqn:E;
    (split; [ first [reflexivity | rewrite <- E; apply string_of_uint_digits
                    | apply (string_of_uint_digits (_ u)) ]
            | discriminate ]).
Qed.

Lemma pad_digits (width : nat) (n : Z) :
  0 <= n -> all_digits (Py.pad width n) = true /\ Py.pad width n <> "".
Proof.
  intros Hn. destruct (str_of_int_digits n Hn) as [Hd Hne].
  unfold Py.pad, Py.zfill.
  set (k := (width - String.length (Py.str_of_int n))%nat). clearbody k.
  split.
  - rewrite all_digits_app, Hd, andb_true_r.
    induction k as [|k IH]; simpl; auto.
  - destruct k; simpl; [exact Hne | discriminate].
Qed.

Lemma drop_digits_app (ds : string) (c : ascii) (rest : string) :
  all_digits ds = true -> Py.isdigit c = false ->
  drop_digits (ds ++ String c rest) = String c rest.
Proof.
  intros Hd Hc. induction ds as [|d ds IH]; simpl in *.
  - now rewrite Hc.
  - apply andb_true_iff in Hd as [H1 H2]. rewrite H1. auto.
Qed.

(** The offset of a well-formed timestamp is written as a sign, the
    hours and the minutes. *)
Lemma format_offset_shape (off : Z) :
  Z.abs off < Datetime.US_PER_DAY ->
  Z.abs off mod (60 * Datetime.US_PER_SECOND) = 0 ->
  exists sign rest,
    Datetime.format_offset off = String sign rest
    /\ Py.isdigit sign = false /\ Ascii.eqb sign "." = false
    /\ is_offset (String sign rest) = true.
Proof.
  unfold Datetime.US_PER_DAY, Datetime.US_PER_SECOND. intros Hlt Hmod.
  unfold Datetime.format_offset, Datetime.US_PER_SECOND.
  set (a := Z.abs off) in *.
  assert (Ha : 0 <= a) by apply Z.abs_nonneg.
  assert (Hus : a mod 1000000 = 0)
    by (Z.to_euclidean_division_equations; lia).
  assert (Hss : (a / 1000000) mod 60 = 0)
    by (Z.to_euclidean_division_equations; lia).
  assert (Hhh : 0 <= a / 1000000 / 3600 < 100)
    by (Z.to_euclidean_division_equations; lia).
  assert (Hmm : 0 <= (a / 1000000 / 60) mod 60 < 100)
    by (Z.to_euclidean_division_equations; lia).
  rewrite Hus, Hss. simpl andb. cbv iota.
  assert (S : scan [Digits 2; Lit ":"; Digits 2]
                (Py.pad 2 (a / 1000000 / 3600) ++ ":"
                 ++ Py.pad 2 ((a / 1000000 / 60) mod 60) ++ "")
              = Some "").
  { cbn [scan]. rewrite digits_pad2 by exact Hhh. rewrite expect_literal.
    now rewrite digits_pad2 by exact Hmm. }
  destruct (off <? 0); eexists _, _; (split; [reflexivity|]);
    (split; [reflexivity|]); (split; [reflexivity|]);
    unfold is_offset; rewrite S; reflexivity.
Qed.

(** The text [isoformat] gives of a well-formed timestamp is a date and
    time of ISO 8601. *)
Lemma isoformat_iso8601 (d : Datetime.datetime) :
  well_formed d = true -> iso8601 (Datetime.isoformat d) = true.
Proof.
  unfold well_formed. rewrite !andb_true_iff.
  rewrite !Z.leb_le, !Z.ltb_lt, Z.eqb_eq.
  intros ((((((((((V & H1) & H2) & M1) & M2) & S1) & S2) & U1) & U2) & O1) & O2).
  destruct (valid_date_bounds _ V) as (Hy & Hm & Hd).
  destruct (format_offset_shape _ O1 O2) as (sign & zone & E & Hs & Hdot & Hz).
  unfold iso8601, Datetime.isoformat. rewrite E. cbn [scan].
  rewrite digits_pad4 by lia. rewrite expect_literal.
  rewrite digits_pad2 by lia. rewrite expect_literal.
  rewrite digits_pad2 by lia. rewrite expect_literal.
  rewrite digits_pad2 by lia. rewrite expect_literal.
  rewrite digits_pad2 by lia. rewrite expect_literal.
  rewrite digits_pad2 by lia.
  destruct (Datetime.microsecond d =? 0).
  - simpl. now rewrite Hdot.
  - destruct (pad_digits 6 (Datetime.microsecond d) U1) as [Hp Hne].
    destruct (Py.pad 6 (Datetime.microsecond d)) as [|c ds];
      [contradiction|].
    simpl in Hp. apply andb_true_iff in Hp as [Hc Hds].
    simpl. rewrite Hc. now rewrite drop_digits_app.
Qed.

(** The date [%Y_%m_%d] gives of a clock in a year of four digits has
    the shape YYYY_MM_DD. *)
Lemma strftime_shape (sep : ascii) (today : Datetime.datetime) :
  Datetime.valid_date (Datetime.dt_date today) = true ->
  1000 <= Datetime.year (Datetime.dt_date today) ->
  scan [Digits 4; Lit sep; Digits 2; Lit sep; Digits 2]
    (Datetime.strftime_ymd (String sep "") today) = Some "".
Proof.
  intros V Hk. destruct (valid_date_bounds _ V) as (Hy & Hm & Hd).
  unfold Datetime.strftime_ymd. cbn [scan].
  rewrite digits_year by lia. rewrite expect_literal.
  rewrite digits_pad2 by lia. rewrite expect_literal.
  pose proof (digits_pad2 (Datetime.day (Datetime.dt_date today)) "") as H.
  assert (N : forall s, (s ++ "")%string = s).
  { induction s as [|c s IH]; simpl; [reflexivity | now rewrite IH]. }
  rewrite N in H. now rewrite H by lia.
Qed.

(* ===================================================================== *)
(** * The artifact and the clock *)
(* ===================================================================== *)

(** In a piece of trace with one write, the write is found at one
    place. *)
Lemma one_write (n1 : list event) (w : event) (n3 : list event) :
  filter is_write n1 = [] -> filter is_write n3 = [] ->
  forall before w' after,
    is_write w' = true ->
    (n1 ++ w :: n3)%list = (before ++ w' :: after)%list ->
    before = n1 /\ w' = w.
Proof.
  intros F1 F3. induction n1 as [|a n1 IH]; intros before w' after Hw E.
  - destruct before as [|x before]; simpl in E; inversion E; subst.
    + auto.
    + exfalso. rewrite filter_app in F3. simpl in F3. rewrite Hw in F3.
      destruct (filter is_write before); discriminate.
  - simpl in F1. destruct (is_write a) eqn:Ha; [discriminate|].
    destruct before as [|x before]; simpl in E; inversion E; subst.
    + congruence.
    + destruct (IH F1 before w' after Hw H1) as [-> ->]. auto.
Qed.

Lemma no_write (n : list event) :
  filter is_write n = [] ->
  forall before filename content raised after,
    n <> (before ++ Call (WriteFile filename content) raised :: after)%list.
Proof.
  intros F before filename content raised after E. subst.
  rewrite filter_app in F. simpl in F.
  destruct (filter is_write before); discriminate.
Qed.

(** The entries a fetch keeps are the entries of messages with a
    timestamp and a text, and their date is the [isoformat] of the
    timestamp. *)
Lemma kept_entries (f t : option Datetime.datetime) (stream : list Message) :
  Forall (fun e =>
            keys e = ["date"; "sender_id"; "message"; "message_id"]
            /\ exists m d x,
                 In m stream /\ date m = Some d /\ text m = Some x
                 /\ e = message_entry m d x
                 /\ lookup "date" e = Some (VStr (Datetime.isoformat d)))
         (map entry_of (filter (passes f t) stream)).
Proof.
  apply Forall_forall. intros e He.
  apply in_filtered in He as (m & Hi & Hp & ->).
  apply passes_inv in Hp as (d & a & x & Hd & _ & _ & Hx & _ & ->).
  split; [reflexivity|]. exists m, d, x. auto 10.
Qed.

(** One turn of [api.py] writes at most one file: the artifact of its
    username, named after the clock read when the fetch has returned. *)
Lemma api_turn_written (env : Env) (u : string)
    (f t : option Datetime.datetime) (bucket : option string)
    (summary : list value) (tr : trace) :
  exists outcome new,
    Api.process_username env u f t bucket summary tr
    = (inr (summary ++ [outcome])%list, (tr ++ new)%list)
    /\ forall before filename content raised after,
         new = (before ++ Call (WriteFile filename content) raised
                :: after)%list ->
         filename = Api.artifact_name u (now env (tr ++ before)%list)
         /\ content
            = Json.dumps
                (fetch_result ("Token_" ++ Py.strip u)
                   (map entry_of
                      (filter (passes f t)
                              (stream_of env tr (Py.strip u))))) 4.
Proof.
  unfold Api.process_username, try_except, bind.
  destruct (Api.download_chat_messages env (Py.strip u)
              ("Token_" ++ Py.strip u) f t tr) as [[e|r] tr1] eqn:D.
  - destruct (api_download_quiet _ _ _ _ _ _ _ _ D) as (n1 & -> & F1).
    destruct e; unfold ret; eexists _, _; (split; [reflexivity|]);
      intros before filename content raised after E;
      exfalso; exact (no_write _ F1 _ _ _ _ _ E).
  - destruct (api_download_quiet _ _ _ _ _ _ _ _ D) as (n1 & -> & F1).
    apply api_download_inv in D as (_ & _ & _ & -> & _).
    set (msgs := map entry_of
                   (filter (passes f t) (stream_of env tr (Py.strip u)))).
    set (today := now env (tr ++ n1)%list).
    assert (Hone : forall raised0 n3,
               filter is_write n3 = [] ->
               forall before filename content raised after,
                 (n1 ++ artifact_write u today msgs raised0 :: n3)%list
                 = (before ++ Call (WriteFile filename content) raised
                    :: after)%list ->
                 filename = Api.artifact_name u (now env (tr ++ before)%list)
                 /\ content
                    = Json.dumps (fetch_result ("Token_" ++ Py.strip u) msgs) 4).
    { intros raised0 n3 F3 before filename content raised after E.
      destruct (one_write n1 _ n3 F1 F3 before
                  (Call (WriteFile filename content) raised) after eq_refl E)
        as [-> Hw].
      unfold artifact_write in Hw. inversion Hw. auto. }
    unfold perform.
    destruct (write_file env (tr ++ n1)%list
                (Api.artifact_name u today)
                (Json.dumps (fetch_result ("Token_" ++ Py.strip u) msgs) 4))
      as [e|] eqn:W.
    + destruct e; unfold ret; rewrite <- app_assoc; eexists _, _;
        (split; [reflexivity|]); apply (Hone _ []); reflexivity.
    + destruct (Api.upload_file_to_s3 env bucket
                  (Api.artifact_name u today)
                  (Api.artifact_name u today) _)
        as [[e|url] tr3] eqn:U;
        destruct (api_upload_quiet _ _ _ _ _ _ _ U) as (n3 & -> & F3);
        rewrite <- !app_assoc.
      * destruct e; unfold ret; eexists _, _; (split; [reflexivity|]);
          apply (Hone _ n3 F3).
      * simpl. unfold ret. eexists _, _. split; [reflexivity|].
        apply (Hone _ n3 F3).
Qed.

Lemma api_loop_written (env : Env) (f t : option Datetime.datetime)
    (bucket : option string) (usernames : list string) :
  forall (summary : list value) (tr : trace),
  exists summary' new,
    Api.for_usernames env usernames f t bucket summary tr
    = (inr summary', (tr ++ new)%list)
    /\ forall before filename content raised after,
         new = (before ++ Call (WriteFile filename content) raised
                :: after)%list ->
         exists u tr0,
           In u usernames
           /\ filename = Api.artifact_name u (now env (tr ++ before)%list)
           /\ content
              = Json.dumps
                  (fetch_result ("Token_" ++ Py.strip u)
                     (map entry_of
                        (filter (passes f t)
                                (stream_of env tr0 (Py.strip u))))) 4.
Proof.
  induction usernames as [|u rest IH]; intros summary tr.
  - exists summary, []. simpl. unfold ret. rewrite app_nil_r.
    split; [reflexivity|].
    intros before filename content raised after E.
    destruct before; discriminate.
  - destruct (api_turn_written env u f t bucket summary tr)
      as (o & n1 & E1 & W1).
    destruct (IH (summary ++ [o])%list (tr ++ n1)%list)
      as (s' & n2 & E2 & W2).
    exists s', (n1 ++ n2)%list.
    simpl. unfold bind. rewrite E1, E2, <- app_assoc.
    split; [reflexivity|].
    intros before filename content raised after E.
    apply app_eq_app in E as [l [[E3 E4] | [E3 E4]]].
    + destruct l as [|x l]; simpl in E4.
      * rewrite app_nil_r in E3. subst.
        destruct (W2 [] filename content raised after eq_refl)
          as (u' & tr0 & Hu & Hf & Hc).
        rewrite app_nil_r in Hf. exists u', tr0. simpl. auto.
      * inversion E4; subst.
        destruct (W1 _ _ _ _ _ eq_refl) as [Hf Hc].
        exists u, tr. simpl. auto.
    + subst.
      destruct (W2 l filename content raised after eq_refl)
        as (u' & tr0 & Hu & Hf & Hc).
      rewrite <- app_assoc in Hf. exists u', tr0. simpl. auto.
Qed.

(** One turn of [cmd.py] writes at most one file: the list of the
    messages of its username. *)
Lemma cmd_turn_written (env : Env) (u : string)
    (f t : option Datetime.datetime) (tr : trace) :
  exists new,
    Cmd.process_username env u f t tr = (inr tt, (tr ++ new)%list)
    /\ forall before filename content raised after,
         new = (before ++ Call (WriteFile filename content) raised
                :: after)%list ->
         filename = "telegram_" ++ u ++ "_"
                    ++ Datetime.strftime_ymd "_" (now env (tr ++ before)%list)
                    ++ ".json"
         /\ content
            = Json.dumps
                (VList (map entry_of
                          (filter (passes f t) (stream_of env tr u)))) 4.
Proof.
  unfold Cmd.process_username, try_except, bind.
  destruct (Cmd.download_chat_messages env u f t tr) as [[e|r] tr1] eqn:D.
  - destruct (cmd_download_quiet _ _ _ _ _ _ _ D) as (n1 & -> & F1).
    unfold logger. rewrite <- app_assoc. eexists. split; [reflexivity|].
    intros before filename content raised after E.
    exfalso. refine (no_write _ _ _ _ _ _ _ E).
    rewrite filter_app, F1. reflexivity.
  - destruct (cmd_download_quiet _ _ _ _ _ _ _ D) as (n1 & -> & F1).
    apply cmd_download_inv in D as (_ & _ & _ & -> & _).
    set (msgs := map entry_of (filter (passes f t) (stream_of env tr u))).
    set (today := now env (tr ++ n1)%list).
    assert (Hone : forall raised0 n3,
               filter is_write n3 = [] ->
               forall before filename content raised after,
                 (n1 ++ cli_artifact_write u today msgs raised0 :: n3)%list
                 = (before ++ Call (WriteFile filename content) raised
                    :: after)%list ->
                 filename = "telegram_" ++ u ++ "_"
                            ++ Datetime.strftime_ymd "_"
                                 (now env (tr ++ before)%list)
                            ++ ".json"
                 /\ content = Json.dumps (VList msgs) 4).
    { intros raised0 n3 F3 before filename content raised after E.
      destruct (one_write n1 _ n3 F1 F3 before
                  (Call (WriteFile filename content) raised) after eq_refl E)
        as [-> Hw].
      unfold cli_artifact_write in Hw. inversion Hw. auto. }
    unfold perform.
    destruct (write_file env (tr ++ n1)%list _ (Json.dumps (VList msgs) 4))
      as [e|] eqn:W.
    + unfold logger. rewrite <- !app_assoc. eexists. split; [reflexivity|].
      apply (Hone _ [_]). reflexivity.
    + match goal with
      | |- context [Cmd.upload_file_to_s3 env ?b ?p ?k ?x] =>
          destruct (Cmd.upload_file_to_s3 env b p k x) as [[e|url] tr3] eqn:U;
          destruct (cmd_upload_quiet _ _ _ _ _ _ _ U) as (n3 & -> & F3)
      end; unfold logger; rewrite <- !app_assoc;
        (eexists; split; [reflexivity|]);
        apply (Hone _ (n3 ++ [_])%list);
        rewrite filter_app, F3; reflexivity.
Qed.

Lemma cmd_loop_written (env : Env) (f t : option Datetime.datetime)
    (usernames : list string) :
  forall tr,
  exists new,
    Cmd.for_usernames env usernames f t tr = (inr tt, (tr ++ new)%list)
    /\ forall before filename content raised after,
         new = (before ++ Call (WriteFile filename content) raised
                :: after)%list ->
         exists u tr0,
           In u usernames
           /\ filename = "telegram_" ++ u ++ "_"
                         ++ Datetime.strftime_ymd "_"
                              (now env (tr ++ before)%list)
                         ++ ".json"
           /\ content
              = Json.dumps
                  (VList (map entry_of
                            (filter (passes f t) (stream_of env tr0 u)))) 4.
Proof.
  induction usernames as [|u rest IH]; intros tr.
  - exists []. simpl. unfold ret. rewrite app_nil_r.
    split; [reflexivity|].
    intros before filename content raised after E.
    destruct before; discriminate.
  - destruct (cmd_turn_written env u f t tr) as (n1 & E1 & W1).
    destruct (IH (tr ++ n1)%list) as (n2 & E2 & W2).
    exists (n1 ++ n2)%list.
    simpl. unfold bind. rewrite E1, E2, <- app_assoc.
    split; [reflexivity|].
    intros before filename content raised after E.
    apply app_eq_app in E as [l [[E3 E4] | [E3 E4]]].
    + destruct l as [|x l]; simpl in E4.
      * rewrite app_nil_r in E3. subst.
        destruct (W2 [] filename content raised after eq_refl)
          as (u' & tr0 & Hu & Hf & Hc).
        rewrite app_nil_r in Hf. exists u', tr0. simpl. auto.
      * inversion E4; subst.
        destruct (W1 _ _ _ _ _ eq_refl) as [Hf Hc].
        exists u, tr. simpl. auto.
    + subst.
      destruct (W2 l filename content raised after eq_refl)
        as (u' & tr0 & Hu & Hf & Hc).
      rewrite <- app_assoc in Hf. exists u', tr0. simpl. auto.
Qed.

(** C7, as the code has it.  Every file a batch of [api.py] writes is the
    artifact of one of its usernames: it is named
    [telegram_{username}_{date}.json], where the date is [%Y_%m_%d] of
    the clock read just before the write, and its text is the JSON
    document, indented by four, of a dictionary with the keys
    [token_name], [message_count], [messages], in this order, whose
    messages have the keys [date], [sender_id], [message], [message_id]
    and as [date] the [isoformat] of the timestamp of a message of the
    stream; there is at most one such file for each username.  The files
    of [cmd.py] have the same name and hold the bare list of the
    messages.  The [isoformat] of a well-formed timestamp is a date and
    time of ISO 8601, and the date of a clock in a year of four digits
    has the shape YYYY_MM_DD. *)
Theorem artifact_layout (env : Env) (usernames : list string)
    (f t : option Datetime.datetime) (bucket : option string) (tr : trace) :
  (exists summary new,
      Api.for_usernames env usernames f t bucket [] tr
      = (inr summary, (tr ++ new)%list)
      /\ (forall before filename content raised after,
            new = (before ++ Call (WriteFile filename content) raised
                   :: after)%list ->
            exists u msgs,
              In u usernames
              /\ filename
                 = "telegram_" ++ Py.strip u ++ "_"
                   ++ Datetime.strftime_ymd "_" (now env (tr ++ before)%list)
                   ++ ".json"
              /\ content = Json.dumps
                             (fetch_result ("Token_" ++ Py.strip u) msgs) 4
              /\ artifact_schema (fetch_result ("Token_" ++ Py.strip u) msgs)
                 = true
              /\ keys (fetch_result ("Token_" ++ Py.strip u) msgs)
                 = ["token_name"; "message_count"; "messages"]
              /\ exists tr0,
                   Forall (fun e =>
                             keys e = ["date"; "sender_id"; "message";
                                       "message_id"]
                             /\ exists m d x,
                                  In m (stream_of env tr0 (Py.strip u))
                                  /\ date m = Some d /\ text m = Some x
                                  /\ e = message_entry m d x
                                  /\ lookup "date" e
                                     = Some (VStr (Datetime.isoformat d)))
                          msgs)
      /\ (List.length (filter is_write new) <= List.length usernames)%nat)
  /\ (exists new,
        Cmd.for_usernames env usernames f t tr = (inr tt, (tr ++ new)%list)
        /\ (forall before filename content raised after,
              new = (before ++ Call (WriteFile filename content) raised
                     :: after)%list ->
              exists u msgs,
                In u usernames
                /\ filename
                   = "telegram_" ++ u ++ "_"
                     ++ Datetime.strftime_ymd "_"
                          (now env (tr ++ before)%list)
                     ++ ".json"
                /\ content = Json.dumps (VList msgs) 4
                /\ exists tr0,
                     Forall (fun e =>
                               keys e = ["date"; "sender_id"; "message";
                                         "message_id"]
                               /\ exists m d x,
                                    In m (stream_of env tr0 u)
                                    /\ date m = Some d /\ text m = Some x
                                    /\ e = message_entry m d x
                                    /\ lookup "date" e
                                       = Some (VStr (Datetime.isoformat d)))
                            msgs)
        /\ (List.length (filter is_write new) <= List.length usernames)%nat)
  /\ (forall d, well_formed d = true ->
        iso8601 (Datetime.isoformat d) = true)
  /\ (forall today,
        Datetime.valid_date (Datetime.dt_date today) = true ->
        1000 <= Datetime.year (Datetime.dt_date today) ->
        scan [Digits 4; Lit "_"; Digits 2; Lit "_"; Digits 2]
          (Datetime.strftime_ymd "_" today) = Some "").
Proof.
  split; [|split; [|split]].
  - destruct (api_loop_written env f t bucket usernames [] tr)
      as (summary & new & E & W).
    exists summary, new. split; [exact E|]. split.
    + intros before filename content raised after Hn.
      destruct (W _ _ _ _ _ Hn) as (u & tr0 & Hu & Hf & Hc).
      exists u. eexists. split; [exact Hu|]. split; [exact Hf|].
      split; [exact Hc|].
      split; [apply fetch_result_schema, kept_schema|].
      split; [reflexivity|]. exists tr0. apply kept_entries.
    + destruct (api_loop env f t bucket usernames [] tr)
        as (turns & new' & E' & F & T).
      rewrite E in E'. inversion E' as [[Hs Hn]].
      apply app_inv_head in Hn. subst new'.
      apply api_turns_writes in T as [_ Hlen]. now rewrite F.
  - destruct (cmd_loop_written env f t usernames tr) as (new & E & W).
    exists new. split; [exact E|]. split.
    + intros before filename content raised after Hn.
      destruct (W _ _ _ _ _ Hn) as (u & tr0 & Hu & Hf & Hc).
      exists u. eexists. split; [exact Hu|]. split; [exact Hf|].
      split; [exact Hc|]. exists tr0. apply kept_entries.
    + destruct (cmd_loop_writes env f t usernames tr)
        as (new' & E' & _ & Hlen).
      rewrite E in E'. inversion E' as [Hn].
      apply app_inv_head in Hn. now subst new'.
  - apply isoformat_iso8601.
  - intros today V Hk. now apply (strftime_shape "_").
Qed.

Lemma artifact_layout_witness :
  (exists u msgs,
      In u ["A"]
      /\ "telegram_A_2024_01_03.json"
         = "telegram_" ++ Py.strip u ++ "_"
           ++ Datetime.strftime_ymd "_"
                (now Demo.env
                   ([] ++ [Call ClientStart None;
                           Call (IterMessages "A") None])%list)
           ++ ".json"
      /\ Json.dumps (fetch_result "Token_A" Demo.kept) 4
         = Json.dumps (fetch_result ("Token_" ++ Py.strip u) msgs) 4
      /\ artifact_schema (fetch_result ("Token_" ++ Py.strip u) msgs) = true)
  /\ well_formed (Demo.utc 2024 1 1 8 0) = true
  /\ iso8601 (Datetime.isoformat (Demo.utc 2024 1 1 8 0)) = true
  /\ scan [Digits 4; Lit "_"; Digits 2; Lit "_"; Digits 2]
        (Datetime.strftime_ymd "_" (now Demo.env [])) = Some "".
Proof.
  destruct (artifact_layout Demo.env ["A"] (Demo.day 2024 1 1)
              (Demo.day 2024 1 1) (Some "bucket") [])
    as ((summary & new & E & Hin & _) & _ & Hiso & Hname).
  assert (Hw : new
               = ([Call ClientStart None; Call (IterMessages "A") None]
                  ++ Call (WriteFile "telegram_A_2024_01_03.json"
                             (Json.dumps (fetch_result "Token_A" Demo.kept) 4))
                          None
                  :: [ Call Boto3Client None;
                       Call (UploadFile "telegram_A_2024_01_03.json"
                               (Some "bucket") "telegram_A_2024_01_03.json")
                            None;
                       Log INFO
                         "File 'telegram_A_2024_01_03.json' uploaded to S3 bucket 'bucket' as 'telegram_A_2024_01_03.json'." ])%list).
  { vm_compute in E. injection E as _ <-. vm_compute. reflexivity. }
  destruct (Hin _ _ _ _ _ Hw) as (u & msgs & Hu & Hf & Hc & Hs & _).
  split; [exists u, msgs; auto|].
  split; [reflexivity|].
  split; [apply Hiso; reflexivity|].
  apply Hname; [reflexivity | simpl; lia].
Defined.

Example iso8601_examples :
  iso8601 "2024-01-01T08:00:00+00:00" = true
  /\ iso8601 "2024-01-02T01:30:00.250000+02:00" = true
  /\ iso8601 "2024-01-01 08:00:00" = false
  /\ iso8601 "2024-1-1T08:00:00+00:00" = false
  /\ iso8601 "2024-01-01T08:00:00" = false.
Proof. repeat split; reflexivity. Qed.
